(** * Barcode sheets: the A4 grid layout and its two front ends

    A shallow embedding of the barcode utility of the repository:

    - [src/barcode_app.py]: [generate_pdf_from_numbers], [generate_pdf_api]
      and [create_excel_api];
    - [src/eg.py]: [generate_pdf_from_excel], the stand-alone twin of the
      PDF generator.

    Python integers are [Z] (unbounded), with [//] and [%] the floor
    division and modulo of [Z] and an explicit [ZeroDivisionError].
    Python floats are idealised as exact rationals [Q]; lengths are in
    points, as reportlab has them.  The reportlab canvas is modelled by the
    sequence of drawing calls it receives.  The collaborators the layout
    code calls and guards with [try]/[except] (the barcode renderer and the
    image loader of the canvas) are oracles of the [world]. *)

From Stdlib Require Import ZArith QArith Lia Lqa DecimalString Ascii.
From stdpp Require Import gmap strings list sorting.

#[local] Open Scope Z_scope.

(** ** Python results *)

Inductive exception : Type :=
| ZeroDivisionError
| ValueError
| OSError
| InvalidFileException.

Inductive result (A : Type) : Type :=
| Ok (a : A)
| Raise (e : exception).

Arguments Ok {A} a.
Arguments Raise {A} e.

#[global] Instance result_ret : MRet result := fun _ a => Ok a.
#[global] Instance result_bind : MBind result := fun _ _ f r =>
  match r with
  | Ok a => f a
  | Raise e => Raise e
  end.

(** [a % b] on Python integers. *)
Definition py_mod (a b : Z) : result Z :=
  if b =? 0 then Raise ZeroDivisionError else Ok (a mod b).

(** [a // b] on Python integers. *)
Definition py_floordiv (a b : Z) : result Z :=
  if b =? 0 then Raise ZeroDivisionError else Ok (a / b).

(** [a / b] with a float numerator and an integer denominator. *)
Definition py_truediv (a : Q) (b : Z) : result Q :=
  if b =? 0 then Raise ZeroDivisionError else Ok (a / inject_Z b)%Q.

(** [range(lo, hi)]. *)
Definition py_range (lo hi : Z) : list Z :=
  (fun k : nat => lo + Z.of_nat k) <$> seq 0 (Z.to_nat (hi - lo)).

(** [str(n)] for an integer [n]. *)
Definition py_str (n : Z) : string :=
  NilZero.string_of_int (Z.to_int n).

(** ** The constants of reportlab the layout uses

    [reportlab.lib.units] and [reportlab.lib.pagesizes]: one inch is 72
    points, and A4 is 210mm by 297mm. *)

Module reportlab.
Definition inch : Q := 72.
Definition cm : Q := inch / 2.54.
Definition mm : Q := cm * 0.1.
Definition A4 : Q * Q := (210 * mm, 297 * mm)%Q.
End reportlab.

Import reportlab.

(** ** The canvas

    The calls [generate_pdf_from_numbers] makes on its canvas, in order. *)

Inductive canvas_op : Type :=
| showPage
| drawImage (image : string) (x y width height : Q)
| setFont (psfontname : string) (size : Z)
| drawString (x y : Q) (text : string).

(** ** The world around one call

    [temp_dir] is the directory [tempfile.mkdtemp] returns.
    [image_saved w k data] tells whether the [k]-th iteration of the image
    loop, [generate_barcode_image(data)] followed by [save], ends without
    an exception.  [image_drawn w k data] tells whether [c.drawImage] of
    the [k]-th iteration of the layout loop ends without an exception. *)

Record world : Type := {
  temp_dir : string;
  image_saved : nat -> string -> bool;
  image_drawn : nat -> string -> bool
}.

(** [os.path.join(temp_dir, f"barcode_{number}.png")] *)
Definition barcode_file (w : world) (number : string) : string :=
  temp_dir w +:+ "/barcode_" +:+ number +:+ ".png".

(** ** [generate_pdf_from_numbers] (src/barcode_app.py) *)

(** The first loop (lines 127-135): [barcode_images] maps a label to the
    file of its image; a label whose image cannot be made is left out. *)
Fixpoint generate_images (w : world) (k : nat) (numbers : list string)
    (barcode_images : gmap string string) : gmap string string :=
  match numbers with
  | [] => barcode_images
  | number :: rest =>
      generate_images w (S k) rest
        (if image_saved w k number
         then <[number := barcode_file w number]> barcode_images
         else barcode_images)
  end.

Definition margin_x : Q := 12 * mm.
Definition margin_y : Q := 15 * mm.
Definition page_width : Q := fst A4.
Definition page_height : Q := snd A4.
Definition available_width : Q := page_width - 2 * margin_x.
Definition available_height : Q := page_height - 2 * margin_y.

(** Lines 139-148: the cell of the grid. *)
Definition cell_size (cols rows : Z) : result (Q * Q) :=
  cell_width ← py_truediv available_width cols;
  cell_height ← py_truediv available_height rows;
  mret (cell_width, cell_height).

(** Lines 154-160: row, column and page break of the label at [idx]. *)
Definition grid_slot (cols rows idx : Z) : result (Z * Z * bool) :=
  slot ← py_mod idx (cols * rows);
  row ← py_floordiv slot cols;
  col ← py_mod slot cols;
  if (0 <? idx) && (slot =? 0)
  then mret (0, 0, true)
  else mret (row, col, false).

(** Lines 162-174: the image and its caption in the cell at [row], [col]. *)
Section draw.
Variables cell_width cell_height : Q.
Variables row col : Z.

Definition image_x : Q :=
  margin_x + inject_Z col * cell_width + cell_width * 0.05.
Definition image_y : Q :=
  page_height - margin_y - (inject_Z (row + 1) * cell_height)
  + cell_height * 0.05.
Definition barcode_width : Q := cell_width * 0.9.
Definition barcode_height : Q := cell_height * 0.75.
Definition text_x : Q := image_x + barcode_width / 2 - 15.
Definition text_y : Q := image_y - cell_height * 0.15.

Definition draw_barcode (barcode_path number : string) : list canvas_op :=
  [ drawImage barcode_path image_x image_y barcode_width barcode_height;
    setFont "Helvetica" 8;
    drawString text_x text_y number ].
End draw.

(** Lines 151-176: one iteration of the layout loop. *)
Definition place_barcode (w : world) (barcode_images : gmap string string)
    (cell_width cell_height : Q) (cols rows : Z)
    (k : nat) (number : string) : result (list canvas_op) :=
  match barcode_images !! number with
  | None => mret []
  | Some barcode_path =>
      '(row, col, page_break) ← grid_slot cols rows (Z.of_nat k);
      mret ((if page_break : bool then [showPage] else []) ++
            (if image_drawn w k number
             then draw_barcode cell_width cell_height row col
                    barcode_path number
             else []))
  end.

(** Lines 150-176: the layout loop, [k] the index of the head of
    [numbers]. *)
Fixpoint layout_loop (w : world) (barcode_images : gmap string string)
    (cell_width cell_height : Q) (cols rows : Z)
    (k : nat) (numbers : list string) : result (list canvas_op) :=
  match numbers with
  | [] => mret []
  | number :: rest =>
      ops ← place_barcode w barcode_images cell_width cell_height
              cols rows k number;
      more ← layout_loop w barcode_images cell_width cell_height
               cols rows (S k) rest;
      mret (ops ++ more)
  end.

Definition generate_pdf_from_numbers (w : world) (numbers : list string)
    (cols rows : Z) : result (list canvas_op) :=
  let barcode_images := generate_images w 0 numbers ∅ in
  '(cell_width, cell_height) ← cell_size cols rows;
  layout_loop w barcode_images cell_width cell_height cols rows 0 numbers.

(** ** What the canvas shows

    [showPage] closes the page being drawn and opens the next one: the
    page of a call is the number of [showPage] calls before it. *)

(** The captions drawn, each with the page it is drawn on, from page [p]. *)
Fixpoint captions_from (p : nat) (ops : list canvas_op) : list (nat * string) :=
  match ops with
  | [] => []
  | showPage :: rest => captions_from (S p) rest
  | drawString _ _ text :: rest => (p, text) :: captions_from p rest
  | _ :: rest => captions_from p rest
  end.

(** The images drawn, each with its page and its lower left corner. *)
Fixpoint images_from (p : nat) (ops : list canvas_op) : list (nat * string * Q * Q) :=
  match ops with
  | [] => []
  | showPage :: rest => images_from (S p) rest
  | drawImage image x y _ _ :: rest => (p, image, x, y) :: images_from p rest
  | _ :: rest => images_from p rest
  end.

(** The number of [showPage] calls. *)
Fixpoint page_breaks (ops : list canvas_op) : nat :=
  match ops with
  | [] => 0
  | showPage :: rest => S (page_breaks rest)
  | _ :: rest => page_breaks rest
  end.

(** The pages that carry a caption, without repetition. *)
Definition distinct_pages (ops : list canvas_op) : list nat :=
  remove_dups (fst <$> captions_from 0 ops).

(** The same call with the image file forgotten: what is placed where. *)
Definition placement_of (op : canvas_op) : canvas_op :=
  match op with
  | drawImage _ x y width height => drawImage "" x y width height
  | _ => op
  end.

(** ** Reading the labels from a sheet

    A cell value and the outcome of [int] on it are those of Python:
    [py_int v] is [None] when [int(v)] raises [ValueError] or [TypeError].
    A sheet gives the values of its column A by row ([None] in Python for
    a row without one) and its [max_row]. *)

Record worksheet (value : Type) : Type := {
  column_A : gmap Z value;
  max_row : Z
}.

Arguments column_A {value} _.
Arguments max_row {value} _.

Section sheets.
Context {value : Type}.
Variable py_int : value -> option Z.

(** Lines 416-423 of barcode_app.py and 112-120 of eg.py: [numbers] is
    the list built so far, [rows] the rows still to visit. *)
Fixpoint read_numbers (ws : worksheet value) (rows : list Z)
    (numbers : list string) : list string :=
  match rows with
  | [] => numbers
  | row :: rest =>
      read_numbers ws rest
        (match column_A ws !! row with
         | None => numbers
         | Some cell_value =>
             match py_int cell_value with
             | Some n => numbers ++ [py_str n]
             | None => numbers
             end
         end)
  end.

Definition extract_numbers (ws : worksheet value) : list string :=
  read_numbers ws (py_range 2 (max_row ws + 1)) [].

(** The label a row contributes, in the words of the specification: the
    string form of the integer its cell holds, when there is one. *)
Definition spec_label_of_row (ws : worksheet value) (row : Z) : option string :=
  v ← column_A ws !! row; n ← py_int v; Some (py_str n).

Definition spec_label_sequence (ws : worksheet value) : list string :=
  omap (spec_label_of_row ws) (py_range 2 (max_row ws + 1)).

(** *** [generate_pdf_api] (src/barcode_app.py, lines 397-446) *)

(** The answers: success, an error the handler reports itself, or status
    500 with the text of an exception caught by the handler. *)
Inductive pdf_response : Type :=
| pdf_success (pdf : list canvas_op) (barcodesInPDF : nat)
| pdf_error (status_code : Z) (message : string)
| pdf_exception (e : exception).

(** [excel] is the sheet of the file [excel_source] names when that file
    exists; [cols] and [rows] are the integers of the request. *)
Definition generate_pdf_api (w : world) (excel_source : string)
    (excel : option (worksheet value)) (cols rows : Z) : pdf_response :=
  match excel with
  | None => pdf_error 404 ("Excel file not found: " +:+ excel_source)
  | Some ws =>
      let numbers := extract_numbers ws in
      match numbers with
      | [] => pdf_error 400 "No numbers found in Excel file"
      | _ =>
          match generate_pdf_from_numbers w numbers cols rows with
          | Ok pdf => pdf_success pdf (length numbers)
          | Raise e => pdf_exception e
          end
      end
  end.

(** *** [create_excel_api] (src/barcode_app.py, lines 194-220) *)

(** The JSON body: a key is absent or carries a value. *)
Record create_excel_request : Type := {
  fileName : option string;
  startNum : option value;
  count : option value
}.

(** [int(data.get(key, default))] *)
Definition get_int (field : option value) (default : Z) : option Z :=
  match field with
  | None => Some default
  | Some v => py_int v
  end.

(** The answers: success with the count and the range, the error the
    handler reports itself, or status 500 for an exception it catches. *)
Inductive excel_response : Type :=
| excel_success (file : string) (numbersGenerated first last : Z)
| excel_error (status_code : Z) (message : string)
| excel_exception.

(** The response, and the call of [create_excel_with_barcodes] when it
    is made: the file name and the numbers written to column A.
    [saved] tells whether that call ends without an exception. *)
Definition create_excel_api (saved : bool) (data : create_excel_request)
    : excel_response * option (string * list Z) :=
  let file_name := default "barcodes.xlsx" (fileName data) in
  match get_int (startNum data) 253310001, get_int (count data) 10 with
  | Some start_num, Some count =>
      if (count <? 1) || (5000 <? count)
      then (excel_error 400 "Count must be between 1 and 5000", None)
      else
        let numbers := (fun i => start_num + i) <$> py_range 0 count in
        (if saved
         then excel_success file_name count start_num (start_num + count - 1)
         else excel_exception,
         Some (file_name, numbers))
  | _, _ => (excel_exception, None)
  end.
End sheets.

(** ** [generate_pdf_from_excel] (src/eg.py)

    The stand-alone twin: the same two loops, with the counters it prints
    at the end. *)

Module eg.

Record pdf_report : Type := {
  pdf : list canvas_op;
  barcode_count : Z;
  page_num : Z
}.

(** Lines 172-208, from the state [st] reached before label [k]. *)
Fixpoint layout_loop (w : world) (barcode_images : gmap string string)
    (cell_width cell_height : Q) (cols rows : Z)
    (k : nat) (numbers : list string) (st : pdf_report) : result pdf_report :=
  match numbers with
  | [] => mret st
  | number :: rest =>
      match barcode_images !! number with
      | None =>
          layout_loop w barcode_images cell_width cell_height cols rows
            (S k) rest st
      | Some barcode_path =>
          let idx := Z.of_nat k in
          slot ← py_mod idx (cols * rows);
          row ← py_floordiv slot cols;
          col ← py_mod slot cols;
          let '(row, col, st) :=
            if (0 <? idx) && (slot =? 0)
            then (0, 0, {| pdf := pdf st ++ [showPage];
                           barcode_count := barcode_count st;
                           page_num := page_num st + 1 |})
            else (row, col, st) in
          layout_loop w barcode_images cell_width cell_height cols rows
            (S k) rest
            (if image_drawn w k number
             then {| pdf := pdf st ++ draw_barcode cell_width cell_height
                                        row col barcode_path number;
                     barcode_count := barcode_count st + 1;
                     page_num := page_num st |}
             else st)
      end
  end.

(** [excel] is the sheet of [excel_file] when the file exists.  The
    result is [None] when the function returns before it opens a PDF. *)
Definition generate_pdf_from_excel {value : Type} (py_int : value -> option Z)
    (w : world) (excel : option (worksheet value)) (cols rows : Z)
    : result (option pdf_report) :=
  match excel with
  | None => mret None
  | Some ws =>
      let numbers := extract_numbers py_int ws in
      match numbers with
      | [] => mret None
      | _ =>
          let barcode_images := generate_images w 0 numbers ∅ in
          '(cell_width, cell_height) ← cell_size cols rows;
          st ← layout_loop w barcode_images cell_width cell_height
                 cols rows 0 numbers
                 {| pdf := []; barcode_count := 0; page_num := 1 |};
          mret (Some st)
      end
  end.

End eg.

(** ** Sample inputs *)

(** The labels [1], ..., [n], as [generate_pdf_api] passes them. *)
Definition labels_upto (n : Z) : list string := py_str <$> py_range 1 (n + 1).

(** A world in which every image is made and drawn. *)
Definition calm_world : world :=
  {| temp_dir := "/tmp/barcode_pdf_a";
     image_saved := fun _ _ => true;
     image_drawn := fun _ _ => true |}.

(** A world in which the image of the label [a/b] cannot be saved (its
    file would lie in a directory that does not exist); every other image
    is made and drawn. *)
Definition slash_world : world :=
  {| temp_dir := "/tmp/barcode_pdf_b";
     image_saved := fun _ data => negb (String.eqb data "a/b");
     image_drawn := fun _ _ => true |}.

(** ** The geometry in the words of the specification *)

Section spec_cell.
Variables cell_width cell_height : Q.
Variables row col : Z.

Definition spec_cell_left : Q := margin_x + inject_Z col * cell_width.
Definition spec_cell_bottom : Q :=
  page_height - margin_y - inject_Z (row + 1) * cell_height.
Definition spec_cell_top : Q := spec_cell_bottom + cell_height.

(** The image fills 75% of the cell height and hangs from the top of the
    cell padded by 5%: its lower edge. *)
Definition spec_image_y : Q :=
  spec_cell_top - cell_height * 0.05 - cell_height * 0.75.
End spec_cell.

(** ** The grid in the words of the specification *)

Section spec_grid.
Variables cols rows : Z.

Definition spec_capacity : Z := cols * rows.
Definition spec_page (i : Z) : Z := i / spec_capacity.
Definition spec_slot (i : Z) : Z := i mod spec_capacity.
Definition spec_row (i : Z) : Z := spec_slot i / cols.
Definition spec_col (i : Z) : Z := spec_slot i mod cols.
Definition spec_page_break (i : Z) : bool := (0 <? i) && (spec_slot i =? 0).

(** The number of pages [n] labels need. *)
Definition spec_page_count (n : Z) : Z := (n + spec_capacity - 1) / spec_capacity.

(** The page that is open when the label at ordinal [k] comes up: that of
    the label before it. *)
Definition spec_page_before (k : nat) : nat :=
  Z.to_nat ((Z.of_nat k - 1) / spec_capacity).
End spec_grid.

(** The captions with the page the specification gives each ordinal: those
    of the labels, from ordinal [k] on, that have an image and are drawn. *)
Fixpoint spec_captions (w : world) (barcode_images : gmap string string)
    (cols rows : Z) (k : nat) (numbers : list string) : list (nat * string) :=
  match numbers with
  | [] => []
  | number :: rest =>
      (if bool_decide (is_Some (barcode_images !! number)) && image_drawn w k number
       then [(Z.to_nat (spec_page cols rows (Z.of_nat k)), number)]
       else []) ++
      spec_captions w barcode_images cols rows (S k) rest
  end.

(** What a call places, whatever the files of the images are called. *)
Definition placements (r : result (list canvas_op)) : result (list canvas_op) :=
  match r with
  | Ok ops => Ok (placement_of <$> ops)
  | Raise e => Raise e
  end.

(** ** More sample inputs *)

(** 35 labels, the one at ordinal 32 being [a/b]. *)
Definition labels_with_slash : list string :=
  labels_upto 32 ++ ["a/b"; "34"; "35"].

(** A world in which the third image cannot be written. *)
Definition flaky_world : world :=
  {| temp_dir := "/tmp/barcode_pdf_c";
     image_saved := fun k _ => negb (k =? 2)%nat;
     image_drawn := fun _ _ => true |}.

(** Cell values for sample sheets: an integer, or a text that does not
    read as a number. *)
Inductive sample_value : Type :=
| an_int (n : Z)
| a_word (s : string).

Definition sample_int (v : sample_value) : option Z :=
  match v with
  | an_int n => Some n
  | a_word _ => None
  end.

(** A header, then 7, a word, an empty row and 9. *)
Definition sample_sheet : worksheet sample_value :=
  {| column_A := {[ 1 := a_word "Number"; 2 := an_int 7;
                    3 := a_word "n/a"; 5 := an_int 9 ]};
     max_row := 5 |}.

(** A header and the numbers 1 to 4. *)
Definition four_rows : worksheet sample_value :=
  {| column_A := {[ 1 := a_word "Number"; 2 := an_int 1; 3 := an_int 2;
                    4 := an_int 3; 5 := an_int 4 ]};
     max_row := 5 |}.

(** A request for three numbers from the default start. *)
Definition three_numbers : create_excel_request (value := sample_value) :=
  {| fileName := Some "three.xlsx"; startNum := None; count := Some (an_int 3) |}.

(** A request for 5001 numbers. *)
Definition too_many_numbers : create_excel_request (value := sample_value) :=
  {| fileName := None; startNum := Some (an_int 1); count := Some (an_int 5001) |}.

(** ** [encode_code128] (src/eg.py, lines 22-50)

    A character is one of the 256 characters of [ascii]; the table is the
    dictionary of the source, key by key. *)

Definition code128_table : gmap ascii Z :=
  list_to_map [
    (" "%char, 0); ("!"%char, 1); ("034"%char, 2); ("#"%char, 3); ("$"%char, 4);
    ("%"%char, 5); ("&"%char, 6); ("'"%char, 7); ("("%char, 8); (")"%char, 9);
    ("*"%char, 10); ("+"%char, 11); (","%char, 12); ("-"%char, 13); ("."%char, 14);
    ("/"%char, 15); ("0"%char, 16); ("1"%char, 17); ("2"%char, 18); ("3"%char, 19);
    ("4"%char, 20); ("5"%char, 21); ("6"%char, 22); ("7"%char, 23); ("8"%char, 24);
    ("9"%char, 25); (":"%char, 26); (";"%char, 27); ("<"%char, 28); ("="%char, 29);
    (">"%char, 30); ("?"%char, 31); ("@"%char, 32); ("A"%char, 33); ("B"%char, 34);
    ("C"%char, 35); ("D"%char, 36); ("E"%char, 37); ("F"%char, 38); ("G"%char, 39);
    ("H"%char, 40); ("I"%char, 41); ("J"%char, 42); ("K"%char, 43); ("L"%char, 44);
    ("M"%char, 45); ("N"%char, 46); ("O"%char, 47); ("P"%char, 48); ("Q"%char, 49);
    ("R"%char, 50); ("S"%char, 51); ("T"%char, 52); ("U"%char, 53); ("V"%char, 54);
    ("W"%char, 55); ("X"%char, 56); ("Y"%char, 57); ("Z"%char, 58); ("["%char, 59);
    ("\"%char, 60); ("]"%char, 61); ("^"%char, 62); ("_"%char, 63) ].

(** The loop of lines 39-43: [i] is the index of the head of [data],
    [encoded] and [checksum] are the values reached before it. *)
Fixpoint encode_chars (i : Z) (data : string) (encoded : list Z) (checksum : Z)
    : list Z * Z :=
  match data with
  | EmptyString => (encoded, checksum)
  | String char rest =>
      let code := default 0 (code128_table !! char) in
      encode_chars (i + 1) rest (encoded ++ [code])
        (if 0 <? i then checksum + code * (i + 1) else checksum)
  end.

Definition encode_code128 (data : string) : list Z :=
  let '(encoded, checksum) := encode_chars 0 data [] 104 in
  encoded ++ [checksum mod 103; 106].

(** The code of a character by its number: the table runs from the space,
    number 32, to the underscore, number 95. *)
Definition code_by_number (char : ascii) : Z :=
  let n := Z.of_nat (nat_of_ascii char) in
  if (32 <=? n) && (n <=? 95) then n - 32 else 0.

(** The codes of the characters of [data]. *)
Fixpoint codes_of (data : string) : list Z :=
  match data with
  | EmptyString => []
  | String char rest => code_by_number char :: codes_of rest
  end.

(** The sum of the codes weighted by their position plus one, from
    position [i]; position 0 has no weight. *)
Fixpoint weighted_sum (i : Z) (codes : list Z) : Z :=
  match codes with
  | [] => 0
  | code :: rest =>
      (if 0 <? i then code * (i + 1) else 0) + weighted_sum (i + 1) rest
  end.

(** A character the table does not have, replaced by a space. *)
Definition blank_unknown (char : ascii) : ascii :=
  if decide (is_Some (code128_table !! char)) then char else " "%char.

Fixpoint blank_unknowns (data : string) : string :=
  match data with
  | EmptyString => EmptyString
  | String char rest => String (blank_unknown char) (blank_unknowns rest)
  end.

(** All characters of [data] are keys of the table. *)
Fixpoint all_in_table (data : string) : bool :=
  match data with
  | EmptyString => true
  | String char rest =>
      bool_decide (is_Some (code128_table !! char)) && all_in_table rest
  end.

(** ** Workbooks

    A sheet as openpyxl keeps it, for the three columns the code uses: the
    values of the cells by row, the pictures anchored in column B in the
    order they were added (each with its row and the text of its barcode),
    and [max_row], the largest row that has a cell, 1 on a sheet without
    cells.  A picture is no cell: the cell under it keeps its value,
    [None] in Python when it has none, and a further picture at the same
    anchor is one picture more. *)

Record workbook (value : Type) : Type := {
  cells_A : gmap Z value;
  cells_B : gmap Z value;
  cells_C : gmap Z value;
  pictures : list (Z * string);
  wb_max_row : Z
}.

Arguments cells_A {value} _.
Arguments cells_B {value} _.
Arguments cells_C {value} _.
Arguments pictures {value} _.
Arguments wb_max_row {value} _.

Inductive column : Type := col_A | col_B | col_C.

(** What making the picture of one barcode comes to: the file is there,
    the file is missing or empty without an exception, or an exception
    with its text. *)
Inductive image_outcome : Type :=
| image_ready
| image_empty
| image_raised (message : string).

(** What is at a path: a workbook that openpyxl loads, or something that
    it does not load (any other file, a directory). *)
Inductive content (value : Type) : Type :=
| workbook_file (wb : workbook value)
| other_file.

Arguments workbook_file {value} wb.
Arguments other_file {value}.

(** What writing a file comes to: the file is written; or the writer
    raises before it opens the file, which is left as it was; or it raises
    after it has opened the file, which is left truncated or cut short. *)
Inductive write_outcome : Type :=
| written
| write_untouched
| write_broken.

(** A field of a JSON body that is meant to be a text: it is absent (or
    null), a text, or a value of another type, with its [str] and its
    truth value. *)
Inductive json_field : Type :=
| json_absent
| json_str (s : string)
| json_other (shown : string) (truthy : bool).

(** [bool(field)] *)
Definition truthy_field (field : json_field) : bool :=
  match field with
  | json_absent => false
  | json_str s => negb (String.eqb s "")
  | json_other _ truthy => truthy
  end.

(** [isinstance(field, str)] *)
Definition is_text (field : json_field) : bool :=
  match field with
  | json_str _ => true
  | _ => false
  end.

(** [str(field)] *)
Definition shown_field (field : json_field) : string :=
  match field with
  | json_absent => "None"
  | json_str s => s
  | json_other shown _ => shown
  end.

Section workbooks.
Context {value : Type}.
Variable py_int : value -> option Z.
Variable of_int : Z -> value.
Variable of_str : string -> value.

(** The files of the server are kept by the file, not by the text of the
    path: [resolve p] is what the operating system makes of the path [p]
    (the absolute path, without [.], [..] and links), so that two paths of
    one file are one key. *)
Variable resolve : string -> string.

(** [openpyxl.Workbook()] *)
Definition new_workbook : workbook value :=
  {| cells_A := ∅; cells_B := ∅; cells_C := ∅; pictures := []; wb_max_row := 1 |}.

(** [ws[f'{col}{row}'] = v] *)
Definition write_cell (col : column) (row : Z) (v : value)
    (wb : workbook value) : workbook value :=
  {| cells_A := if col is col_A then <[row := v]> (cells_A wb) else cells_A wb;
     cells_B := if col is col_B then <[row := v]> (cells_B wb) else cells_B wb;
     cells_C := if col is col_C then <[row := v]> (cells_C wb) else cells_C wb;
     pictures := pictures wb;
     wb_max_row := Z.max row (wb_max_row wb) |}.

(** [ws.add_image(img, f'B{row}')] *)
Definition add_image (row : Z) (data : string) (wb : workbook value)
    : workbook value :=
  {| cells_A := cells_A wb; cells_B := cells_B wb; cells_C := cells_C wb;
     pictures := pictures wb ++ [(row, data)];
     wb_max_row := wb_max_row wb |}.

(** The sheet as the readers of column A see it. *)
Definition sheet_of (wb : workbook value) : worksheet value :=
  {| column_A := cells_A wb; max_row := wb_max_row wb |}.

(** Lines 73-75 of barcode_app.py, 343-345 of eg.py: the header row. *)
Definition with_headers (wb : workbook value) : workbook value :=
  write_cell col_C 1 (of_str "Barcode Code")
    (write_cell col_B 1 (of_str "Barcode")
       (write_cell col_A 1 (of_str "Number") wb)).

(** Lines 96-113 of barcode_app.py (and 307-330): the barcode of [number]
    in [row]; the flag tells whether a picture was added. *)
Definition barcode_cells (outcome : image_outcome) (row number : Z)
    (wb : workbook value) : workbook value * bool :=
  match outcome with
  | image_ready =>
      (write_cell col_C row (of_str ("Code128: " +:+ py_str number))
         (add_image row (py_str number) wb), true)
  | image_empty => (wb, false)
  | image_raised message =>
      (write_cell col_C row (of_str ("Error: " +:+ String.substring 0 30 message))
         (write_cell col_B row (of_str "Error") wb), false)
  end.

(** Lines 93-113 of barcode_app.py: the rows of [numbers], the head of
    which is the [k]-th number. *)
Fixpoint fill_rows (barcode : nat -> Z -> image_outcome) (k : nat)
    (numbers : list Z) (wb : workbook value) : workbook value :=
  match numbers with
  | [] => wb
  | number :: rest =>
      let idx := 2 + Z.of_nat k in
      let wb := write_cell col_A idx (of_int number) wb in
      fill_rows barcode (S k) rest (barcode_cells (barcode k number) idx number wb).1
  end.

(** [create_excel_with_barcodes] (src/barcode_app.py, lines 66-120): the
    workbook it saves. *)
Definition create_excel_with_barcodes (barcode : nat -> Z -> image_outcome)
    (numbers : list Z) : workbook value :=
  fill_rows barcode 0 numbers (with_headers new_workbook).

(** Lines 300-330 of barcode_app.py: the rows [update_excel_api] adds for
    the indices [indices] of its loop, with the count of pictures added. *)
Fixpoint append_rows (barcode : nat -> Z -> image_outcome)
    (new_start_num next_row : Z) (indices : list Z)
    (wb : workbook value) (barcodes_added : Z) : workbook value * Z :=
  match indices with
  | [] => (wb, barcodes_added)
  | i :: rest =>
      let number := new_start_num + i in
      let row := next_row + i in
      let wb := write_cell col_A row (of_int number) wb in
      let '(wb, added) := barcode_cells (barcode (Z.to_nat i) number) row number wb in
      append_rows barcode new_start_num next_row rest wb
        (if added then barcodes_added + 1 else barcodes_added)
  end.

(** The JSON body of an update. *)
Record update_excel_request : Type := {
  filePath : json_field;
  newStartNum : option value;
  update_count : option value
}.

Inductive update_response : Type :=
| update_success (barcodesAdded first last : Z) (file_path : string)
| update_error (status_code : Z) (message : string)
| update_exception.

(** What a call of [update_excel_api] meets outside of the files:
    the outcome of the pictures; what [os.path.exists] answers for a
    [filePath] that is no text ([Some] for a number, which it takes for a
    file descriptor, [None] for the [TypeError] it raises otherwise);
    whether [print] can write the messages of the handler (they hold
    signs that not every console encodes; [print] raises when it cannot);
    whether [tempfile.mkdtemp] ends without an exception; the outcome of
    [wb.save]; and whether [shutil.rmtree] in the [finally] clause ends
    without an exception. *)
Record update_world : Type := {
  upd_barcode : nat -> Z -> image_outcome;
  upd_exists_other : option bool;
  upd_console : bool;
  upd_tmp_made : bool;
  upd_saved : write_outcome;
  upd_cleaned : bool
}.

(** [os.path.exists(path)]; [None] when it raises.  The empty path names
    no file. *)
Definition path_exists (exists_other : option bool)
    (files : gmap string (content value)) (path : json_field) : option bool :=
  match path with
  | json_absent => None
  | json_str s =>
      Some (negb (String.eqb s "") && bool_decide (is_Some (files !! resolve s)))
  | json_other _ _ => exists_other
  end.

(** [update_excel_api] (src/barcode_app.py, lines 275-355) on the files
    [files] of the server: the response and the files after it.  [data] is
    the JSON body, [None] when it is no JSON object.  The workbook is saved
    in place; the [finally] clause runs after the save, and an exception
    there makes the answer a 500 although the file is written.  The first
    message is printed before the file is loaded (line 286). *)
Definition update_excel_api (w : update_world)
    (files : gmap string (content value)) (data : option update_excel_request)
    : update_response * gmap string (content value) :=
  match data with
  | None => (update_exception, files)
  | Some data =>
      match get_int py_int (newStartNum data) 253310011,
            get_int py_int (update_count data) 10 with
      | Some new_start_num, Some count =>
          match path_exists (upd_exists_other w) files (filePath data) with
          | None => (update_exception, files)
          | Some false =>
              (update_error 404
                 ("File not found at: " +:+ shown_field (filePath data)), files)
          | Some true =>
              match filePath data with
              | json_str file_path =>
                  match files !! resolve file_path with
                  | Some (workbook_file wb) =>
                      let next_row := wb_max_row wb + 1 in
                      if upd_console w && upd_tmp_made w
                      then
                        let '(wb, barcodes_added) :=
                          append_rows (upd_barcode w) new_start_num next_row
                            (py_range 0 count) wb 0 in
                        match upd_saved w with
                        | written =>
                            let files :=
                              <[resolve file_path := workbook_file wb]> files in
                            if upd_cleaned w
                            then (update_success barcodes_added new_start_num
                                    (new_start_num + count - 1) file_path, files)
                            else (update_exception, files)
                        | write_untouched => (update_exception, files)
                        | write_broken =>
                            (update_exception,
                             <[resolve file_path := other_file]> files)
                        end
                      else (update_exception, files)
                  | _ => (update_exception, files)
                  end
              | _ => (update_exception, files)
              end
          end
      | _, _ => (update_exception, files)
      end
  end.

(** Lines 245-252 of barcode_app.py: the integers of column A. *)
Fixpoint read_ints (ws : worksheet value) (rows : list Z) (numbers : list Z)
    : list Z :=
  match rows with
  | [] => numbers
  | row :: rest =>
      read_ints ws rest
        (match column_A ws !! row with
         | None => numbers
         | Some cell_value =>
             match py_int cell_value with
             | Some n => numbers ++ [n]
             | None => numbers
             end
         end)
  end.

Definition extract_ints (ws : worksheet value) : list Z :=
  read_ints ws (py_range 2 (max_row ws + 1)) [].

(** [os.path.join(OUTPUT_FOLDER, name)], with OUTPUT_FOLDER = 'outputs': a
    name that starts with a slash is taken as it is. *)
Definition output_path (name : string) : string :=
  if String.prefix "/" name then name else "outputs/" +:+ name.

Inductive upload_response : Type :=
| upload_success (fileName file_path : string) (numbersFound : nat)
    (range_first range_last lastNumber : Z) (numbers : list Z)
| upload_error (status_code : Z) (message : string)
| upload_exception.

(** [max(numbers)] and [min(numbers)]; [None] for the [ValueError] on an
    empty list. *)
Definition py_max (numbers : list Z) : option Z :=
  match numbers with
  | [] => None
  | n :: rest => Some (foldl Z.max n rest)
  end.

Definition py_min (numbers : list Z) : option Z :=
  match numbers with
  | [] => None
  | n :: rest => Some (foldl Z.min n rest)
  end.

(** [upload_excel_api] (src/barcode_app.py, lines 223-272): [file] is the
    uploaded file, with its name and what it holds, when the request has
    one; [saved] is the outcome of [file.save] and [console] tells whether
    [print] can write the message of line 239.  The file is saved before
    it is read, and [load_workbook] raises for a file that is no
    workbook. *)
Definition upload_excel_api (saved : write_outcome) (console : bool)
    (files : gmap string (content value))
    (file : option (string * content value))
    : upload_response * gmap string (content value) :=
  match file with
  | None => (upload_error 400 "No file provided", files)
  | Some (filename, uploaded) =>
      if String.eqb filename ""
      then (upload_error 400 "No file selected", files)
      else
        let filepath := output_path filename in
        match saved with
        | write_untouched => (upload_exception, files)
        | write_broken =>
            (upload_exception, <[resolve filepath := other_file]> files)
        | written =>
            let files := <[resolve filepath := uploaded]> files in
            match console, uploaded with
            | false, _ => (upload_exception, files)
            | true, other_file => (upload_exception, files)
            | true, workbook_file wb =>
                let numbers := extract_ints (sheet_of wb) in
                match numbers with
                | [] => (upload_error 400 "No numbers found in Excel file", files)
                | _ =>
                    let numbers := merge_sort Z.le numbers in
                    match py_max numbers, py_min numbers with
                    | Some last_number, Some first_number =>
                        (upload_success filename filepath (length numbers)
                           first_number last_number last_number numbers, files)
                    | _, _ => (upload_exception, files)
                    end
                end
            end
        end
  end.

(** [s.endswith(suffix)]: one of the tails of [s] is [suffix]. *)
Fixpoint endswith (s suffix : string) : bool :=
  String.eqb s suffix ||
  match s with
  | EmptyString => false
  | String _ rest => endswith rest suffix
  end.

Record rename_request : Type := {
  rename_filePath : json_field;
  newFileName : json_field
}.

Inductive rename_response : Type :=
| rename_success (fileName : string)
| rename_error (status_code : Z) (message : string)
| rename_exception.

(** The double quote of the messages. *)
Definition quote : string := String "034"%char EmptyString.

(** [rename_and_download_api] (src/barcode_app.py, lines 358-394) on the
    files of the server.  [data] is the JSON body, [None] when it is no
    JSON object; [exists_other] is the answer of [os.path.exists] for a
    path that is no text; [renamed] tells whether [os.rename] ends without
    an exception (it changes nothing when it raises); [console] tells
    whether [print] can write the message of line 384, after the rename.
    A new name that is no text raises at [endswith], and [os.rename]
    raises for a path that is no text.  The two paths are compared as
    texts. *)
Definition rename_and_download_api (exists_other : option bool)
    (renamed console : bool)
    (files : gmap string (content value)) (data : option rename_request)
    : rename_response * gmap string (content value) :=
  match data with
  | None => (rename_exception, files)
  | Some data =>
      let old_file_path := rename_filePath data in
      if negb (truthy_field old_file_path) ||
         negb (truthy_field (newFileName data))
      then (rename_error 400 "Missing file path or new filename", files)
      else
        match path_exists exists_other files old_file_path with
        | None => (rename_exception, files)
        | Some false => (rename_error 404 "File not found", files)
        | Some true =>
            match newFileName data with
            | json_str new_filename =>
                let new_filename :=
                  if endswith new_filename ".xlsx" || endswith new_filename ".xls"
                  then new_filename else new_filename +:+ ".xlsx" in
                let new_file_path := output_path new_filename in
                let same_path :=
                  match old_file_path with
                  | json_str old => String.eqb new_file_path old
                  | _ => false
                  end in
                if bool_decide (is_Some (files !! resolve new_file_path)) &&
                   negb same_path
                then (rename_error 400
                        ("File " +:+ quote +:+ new_filename +:+ quote
                         +:+ " already exists"), files)
                else if negb same_path
                then
                  match old_file_path with
                  | json_str old =>
                      match files !! resolve old with
                      | Some held =>
                          if renamed
                          then (if console then rename_success new_filename
                                else rename_exception,
                                <[resolve new_file_path := held]>
                                  (delete (resolve old) files))
                          else (rename_exception, files)
                      | None => (rename_exception, files)
                      end
                  | _ => (rename_exception, files)
                  end
                else (rename_success new_filename, files)
            | _ => (rename_exception, files)
            end
        end
  end.

(** *** The workbooks of eg.py *)

(** Lines 369-399 and 287-317 of eg.py: the barcode of [number] in [row].
    A file that is missing or empty raises as well. *)
Definition eg_barcode_cells (outcome : image_outcome) (row number : Z)
    (wb : workbook value) : workbook value :=
  match outcome with
  | image_ready =>
      write_cell col_C row (of_str ("Code128: " +:+ py_str number))
        (add_image row (py_str number) wb)
  | image_empty =>
      let message := "Barcode image file was not created or is empty" in
      write_cell col_C row (of_str ("Error: " +:+ String.substring 0 50 message))
        (write_cell col_B row
           (of_str ("Error: " +:+ String.substring 0 50 message)) wb)
  | image_raised message =>
      write_cell col_C row (of_str ("Error: " +:+ String.substring 0 50 message))
        (write_cell col_B row
           (of_str ("Error: " +:+ String.substring 0 50 message)) wb)
  end.

(** Lines 365-399 of eg.py. *)
Fixpoint eg_fill_rows (barcode : nat -> Z -> image_outcome) (k : nat)
    (numbers : list Z) (wb : workbook value) : workbook value :=
  match numbers with
  | [] => wb
  | number :: rest =>
      let idx := 2 + Z.of_nat k in
      let wb := write_cell col_A idx (of_int number) wb in
      eg_fill_rows barcode (S k) rest
        (eg_barcode_cells (barcode k number) idx number wb)
  end.

(** [generate_barcodes_excel] (src/eg.py, lines 334-413): the workbook it
    saves. *)
Definition generate_barcodes_excel (barcode : nat -> Z -> image_outcome)
    (numbers : list Z) : workbook value :=
  eg_fill_rows barcode 0 numbers (with_headers new_workbook).

(** Lines 264-276 of eg.py: the rows, with their numbers, that have a
    number in column A and nothing in column B. *)
Fixpoint rows_needing_barcodes (wb : workbook value) (rows : list Z)
    (numbers_needing_barcodes : list (Z * Z)) : list (Z * Z) :=
  match rows with
  | [] => numbers_needing_barcodes
  | row :: rest =>
      rows_needing_barcodes wb rest
        (match cells_A wb !! row, cells_B wb !! row with
         | Some number_cell, None =>
             match py_int number_cell with
             | Some number => numbers_needing_barcodes ++ [(row, number)]
             | None => numbers_needing_barcodes
             end
         | _, _ => numbers_needing_barcodes
         end)
  end.

(** Lines 285-317 of eg.py: the barcodes of the rows found. *)
Fixpoint add_barcodes (barcode : Z -> Z -> image_outcome)
    (numbers_needing_barcodes : list (Z * Z)) (wb : workbook value)
    : workbook value :=
  match numbers_needing_barcodes with
  | [] => wb
  | (row, number) :: rest =>
      add_barcodes barcode rest
        (eg_barcode_cells (barcode row number) row number wb)
  end.

(** [generate_barcodes_from_sheet] (src/eg.py, lines 226-331): [input] is
    what is at [input_file], [None] when nothing is there; the result is
    the workbook handed to [wb.save], [None] when nothing is saved.  A
    file that is no workbook makes [load_workbook] raise, and the function
    with it.  [barcode row number] is the outcome for the number of a row
    of the sheet, [first_barcode] that for the numbers of a new file.
    The messages are taken to be printed: the script prints one before
    anything else, and ends there when it cannot. *)
Definition generate_barcodes_from_sheet (barcode : Z -> Z -> image_outcome)
    (first_barcode : nat -> Z -> image_outcome)
    (input : option (content value)) : result (option (workbook value)) :=
  match input with
  | None =>
      Ok (Some (generate_barcodes_excel first_barcode
                  [253320001; 253320002; 253320003; 253320004; 253320005;
                   253320006; 253320007; 253320008; 253320009; 253320010]))
  | Some other_file => Raise InvalidFileException
  | Some (workbook_file wb) =>
      let max_row := wb_max_row wb in
      match rows_needing_barcodes wb (py_range 2 (max_row + 1)) [] with
      | [] => Ok None
      | numbers_needing_barcodes =>
          Ok (Some (add_barcodes barcode numbers_needing_barcodes wb))
      end
  end.

(** The row and its number, when the row has a number in column A and
    nothing in column B. *)
Definition row_needs_barcode (wb : workbook value) (row : Z) : option (Z * Z) :=
  match cells_A wb !! row, cells_B wb !! row with
  | Some number_cell, None => (fun number => (row, number)) <$> py_int number_cell
  | _, _ => None
  end.

(** The rows a run of [generate_barcodes_from_sheet] works on. *)
Definition needing_barcodes (wb : workbook value) : list (Z * Z) :=
  rows_needing_barcodes wb (py_range 2 (wb_max_row wb + 1)) [].

Definition is_ready (outcome : image_outcome) : bool :=
  match outcome with
  | image_ready => true
  | _ => false
  end.

(** *** Column A after a run of writes *)

(** The sheet after [ws[f'A{row}'] = number]. *)
Definition put_number (row number : Z) (ws : worksheet value) : worksheet value :=
  {| column_A := <[row := of_int number]> (column_A ws);
     max_row := Z.max row (max_row ws) |}.

(** The sheet after the numbers [numbers] are written to column A in
    consecutive rows from [row] on. *)
Fixpoint put_numbers (row : Z) (numbers : list Z) (ws : worksheet value)
    : worksheet value :=
  match numbers with
  | [] => ws
  | number :: rest => put_numbers (row + 1) rest (put_number row number ws)
  end.

(** *** The prompts of eg.py *)

(** [input(...).strip() or default], on the text typed and stripped. *)
Definition or_default (typed default : string) : string :=
  if String.eqb typed "" then default else typed.

Section prompts.
Variable int_of_text : string -> option Z.

(** Lines 457-475 of eg.py: the numbers of a new file, from the start and
    the count typed.  [int_of_text s] is [int(s)], [None] for its
    [ValueError]. *)
Definition typed_numbers (start_typed count_typed : string) : list Z :=
  let start_num :=
    match int_of_text (or_default start_typed "253310001") with
    | Some n => n
    | None => 253310001
    end in
  let count :=
    match int_of_text (or_default count_typed "10") with
    | Some count => if (count <? 1) || (1000 <? count) then 10 else count
    | None => 10
    end in
  (fun i => start_num + i) <$> py_range 0 count.

(** Lines 428-435 of eg.py: the grid typed for the PDF. *)
Definition typed_grid (cols_typed rows_typed : string) : Z * Z :=
  match int_of_text (or_default cols_typed "4"),
        int_of_text (or_default rows_typed "8") with
  | Some cols, Some rows => (cols, rows)
  | _, _ => (4, 8)
  end.
End prompts.
End workbooks.

(** ** The picture drawn without the barcode library

    [generate_barcode_image] (src/barcode_app.py, lines 31-64; src/eg.py,
    lines 53-96) draws a pattern of its own when the import of the barcode
    library fails.  The model is this [except ImportError] branch: the
    rectangles and the text handed to [ImageDraw], in the order of the
    calls.  The characters of [data] are taken as ASCII.  Pillow is the
    one of the requirements (10 and later): [Image.new] raises
    [ValueError] for a negative width or height, and [draw.rectangle] for
    a rectangle whose lower edge [y1] is above its upper edge [y0]. *)

(** [draw.rectangle([x0, y0, x1, y1], fill='black')] *)
Record rectangle : Type := {
  rect_x0 : Z;
  rect_y0 : Z;
  rect_x1 : Z;
  rect_y1 : Q
}.

Record fallback_image : Type := {
  img_size : Z * Z;
  img_rectangles : list rectangle;
  img_text_at : Z * Z;
  img_text : string
}.

(** [ord(char)] *)
Definition ord (char : ascii) : Z := Z.of_nat (nat_of_ascii char).

Section fallback.
(** [bar_height_of height] is [int(height * 0.7)] in barcode_app.py and
    [height * 0.7] in eg.py, a float either way before it is made an
    integer. *)
Variable bar_height_of : Z -> Q.

(** The loop [for j in range(bar_count)]. *)
Fixpoint draw_bars (bar_width : Z) (bar_height : Q) (x_start bar_count : Z)
    (js : list Z) : result (list rectangle) :=
  match js with
  | [] => Ok []
  | j :: rest =>
      py_floordiv bar_width bar_count ≫= fun step =>
      let bar_x := x_start + j * step in
      if Qle_bool 10 (inject_Z bar_x + bar_height)
      then
        draw_bars bar_width bar_height x_start bar_count rest ≫= fun bars =>
        Ok ({| rect_x0 := bar_x; rect_y0 := 10; rect_x1 := bar_x + 2;
               rect_y1 := inject_Z bar_x + bar_height |} :: bars)
      else Raise ValueError
  end.

(** The loop [for i, char in enumerate(data)], from index [i] on. *)
Fixpoint draw_chars (bar_width : Z) (bar_height : Q) (i : Z) (data : string)
    : result (list rectangle) :=
  match data with
  | EmptyString => Ok []
  | String char rest =>
      let ascii_val := ord char in
      let bar_count := ascii_val mod 8 in
      let x_start := i * bar_width in
      draw_bars bar_width bar_height x_start bar_count (py_range 0 bar_count)
        ≫= fun bars =>
      draw_chars bar_width bar_height (i + 1) rest ≫= fun more =>
      Ok (bars ++ more)
  end.

Definition generate_barcode_image_fallback (data : string) (width height : Z)
    : result fallback_image :=
  if (width <? 0) || (height <? 0) then Raise ValueError
  else
    py_floordiv width (Z.of_nat (String.length data)) ≫= fun bar_width =>
    let bar_height := bar_height_of height in
    draw_chars bar_width bar_height 0 data ≫= fun bars =>
    Ok {| img_size := (width, height); img_rectangles := bars;
          img_text_at := (10, height - 20); img_text := data |}.
End fallback.

(** ** One call after another

    What a call of [generate_pdf_from_numbers] can leave behind is on the
    disk: [barcode_images], the canvas and the buffer are made anew in
    every call, and the module has no variable that the function writes.
    [disk] holds the directories and the files that exist, by path. *)

Record disk : Type := {
  disk_dirs : gset string;
  disk_files : gset string
}.

(** The path [path] lies under the directory [dir]. *)
Definition under (dir path : string) : bool := String.prefix (dir +:+ "/") path.

(** [shutil.rmtree(dir)], when it ends without an exception. *)
Definition rmtree (dir : string) (d : disk) : disk :=
  {| disk_dirs :=
       filter (fun path => path <> dir /\ under dir path = false) (disk_dirs d);
     disk_files := filter (fun path => under dir path = false) (disk_files d) |}.

(** [tempfile.mkdtemp] makes a directory that was not there: nothing is
    at its path, nor under it. *)
Definition fresh_directory (dir : string) (d : disk) : Prop :=
  (dir ∉ disk_dirs d) /\ (dir ∉ disk_files d) /\
  forall path, (path ∈ disk_dirs d) \/ (path ∈ disk_files d) ->
               under dir path = false.

(** What one call meets: the collaborators of [world]; whether
    [tempfile.mkdtemp] ends without an exception; for an image that is not
    saved, whether the failed [save] leaves a file behind; and what
    [shutil.rmtree] in the [finally] clause comes to, [None] when it ends
    and the disk it leaves when it raises. *)
Record call_world : Type := {
  collaborators : world;
  tmp_made : bool;
  left_behind : nat -> string -> bool;
  cleanup_failure : option disk
}.

(** Lines 128-135, on the disk: the files of the images. *)
Fixpoint save_images (c : call_world) (k : nat) (numbers : list string)
    (d : disk) : disk :=
  match numbers with
  | [] => d
  | number :: rest =>
      save_images c (S k) rest
        (if image_saved (collaborators c) k number || left_behind c k number
         then {| disk_dirs := disk_dirs d;
                 disk_files :=
                   {[ barcode_file (collaborators c) number ]} ∪ disk_files d |}
         else d)
  end.

(** [generate_pdf_from_numbers] (lines 122-184) on the disk [d]: what it
    returns or raises, and the disk after it.  The temporary directory is
    made before the [try] (line 124) and removed in its [finally] clause
    (lines 182-184), also when the body raises. *)
Definition generate_pdf_from_numbers_on (c : call_world) (d : disk)
    (numbers : list string) (cols rows : Z)
    : result (list canvas_op) * disk :=
  let w := collaborators c in
  if tmp_made c
  then
    let d := {| disk_dirs := {[ temp_dir w ]} ∪ disk_dirs d;
                disk_files := disk_files d |} in
    let d := save_images c 0 numbers d in
    let returned := generate_pdf_from_numbers w numbers cols rows in
    match cleanup_failure c with
    | None => (returned, rmtree (temp_dir w) d)
    | Some remains => (Raise OSError, remains)
    end
  else (Raise OSError, d).

(** The label [number] of [numbers] has an image: one of its occurrences
    had its image made and saved. *)
Definition has_image (w : world) (numbers : list string) (number : string)
    : Prop :=
  exists i : nat, numbers !! i = Some number /\ image_saved w i number = true.

(** The number of bars the pattern has for [data]. *)
Fixpoint bar_total (data : string) : nat :=
  match data with
  | EmptyString => 0
  | String char rest => (Z.to_nat (ord char mod 8) + bar_total rest)%nat
  end.

(** Two texts of one length whose characters agree modulo 8, place by
    place. *)
Fixpoint same_bar_counts (data data' : string) : Prop :=
  match data, data' with
  | EmptyString, EmptyString => True
  | String c rest, String c' rest' =>
      ord c mod 8 = ord c' mod 8 /\ same_bar_counts rest rest'
  | _, _ => False
  end.

(** ** More sample inputs *)

(** A sheet with a header and the numbers 9, 7 and 8; the row of 7 has a
    text in column B. *)
Definition sample_workbook : workbook sample_value :=
  {| cells_A := {[ 1 := a_word "Number"; 2 := an_int 9; 3 := an_int 7;
                   4 := an_int 8 ]};
     cells_B := {[ 1 := a_word "Barcode"; 3 := a_word "Error: disk full" ]};
     cells_C := {[ 1 := a_word "Barcode Code" ]};
     pictures := [];
     wb_max_row := 4 |}.

(** Every picture is made but the second. *)
Definition second_fails (k : nat) (number : Z) : image_outcome :=
  if (k =? 1)%nat then image_empty else image_ready.

(** The picture of row 4 is not made. *)
Definition row_4_fails (row number : Z) : image_outcome :=
  if row =? 4 then image_raised "cannot write" else image_ready.

(** Two more numbers from 10 on for the file outputs/stock.xlsx. *)
Definition sample_update : update_excel_request (value := sample_value) :=
  {| filePath := json_str "outputs/stock.xlsx"; newStartNum := Some (an_int 10);
     update_count := Some (an_int 2) |}.


(** Paths are taken from the working directory: a leading [./] names
    nothing. *)
Definition sample_resolve (path : string) : string :=
  if String.prefix "./" path
  then String.substring 2 (String.length path - 2) path else path.

(** The output folder with the one file outputs/stock.xlsx. *)
Definition stock_files : gmap string (content sample_value) :=
  {[ "outputs/stock.xlsx" := workbook_file sample_workbook ]}.


(** A call during which every picture but the second is made and nothing
    else fails. *)
Definition calm_update : update_world :=
  {| upd_barcode := second_fails; upd_exists_other := None;
     upd_console := true; upd_tmp_made := true; upd_saved := written;
     upd_cleaned := true |}.

(** The same call, when the temporary directory cannot be removed at its
    end. *)
Definition unclean_update : update_world :=
  {| upd_barcode := second_fails; upd_exists_other := None;
     upd_console := true; upd_tmp_made := true; upd_saved := written;
     upd_cleaned := false |}.

(** The sample sheet after the barcodes of its rows 2 and 4 are added. *)
Definition sample_workbook_after_run : workbook sample_value :=
  add_barcodes a_word row_4_fails [(2, 9); (4, 8)] sample_workbook.

(** A disk with the output folder and one file in it. *)
Definition sample_disk : disk :=
  {| disk_dirs := {[ "/tmp"; "outputs" ]};
     disk_files := {[ "outputs/stock.xlsx" ]} |}.

(** A call in which every image is made and drawn. *)
Definition calm_call : call_world :=
  {| collaborators := calm_world; tmp_made := true;
     left_behind := fun _ _ => false; cleanup_failure := None |}.

(** A later call, with a temporary directory of its own, in which the
    third image cannot be written: the disk is full. *)
Definition flaky_call : call_world :=
  {| collaborators := flaky_world; tmp_made := true;
     left_behind := fun k _ => (k =? 2)%nat; cleanup_failure := None |}.

(** A call in which the image of [a/b] cannot be saved. *)
Definition slash_call : call_world :=
  {| collaborators := slash_world; tmp_made := true;
     left_behind := fun _ _ => false; cleanup_failure := None |}.

(** A call in which the second image cannot be saved, whatever its label
    is, and a file cut short is left behind. *)
Definition second_image_fails_call : call_world :=
  {| collaborators :=
       {| temp_dir := "/tmp/barcode_pdf_d";
          image_saved := fun k _ => negb (k =? 1)%nat;
          image_drawn := fun _ _ => true |};
     tmp_made := true;
     left_behind := fun k _ => (k =? 1)%nat; cleanup_failure := None |}.

(** Seven tenths of a height, as a rational. *)
Definition seven_tenths (height : Z) : Q := (inject_Z height * 0.7)%Q.

(** ** Basic facts *)

Lemma bind_Ok {A B} (f : A -> result B) (a : A) : (Ok a ≫= f) = f a.
Proof. reflexivity. Qed.

Lemma bind_Raise {A B} (f : A -> result B) (e : exception) :
  (Raise e ≫= f) = Raise e.
Proof. reflexivity. Qed.

Lemma py_mod_ok a b : b <> 0 -> py_mod a b = Ok (a mod b).
Proof. intros Hb. unfold py_mod. by destruct (Z.eqb_spec b 0). Qed.

Lemma py_floordiv_ok a b : b <> 0 -> py_floordiv a b = Ok (a / b).
Proof. intros Hb. unfold py_floordiv. by destruct (Z.eqb_spec b 0). Qed.

Lemma py_truediv_ok a b : b <> 0 -> py_truediv a b = Ok (a / inject_Z b)%Q.
Proof. intros Hb. unfold py_truediv. by destruct (Z.eqb_spec b 0). Qed.

Lemma py_range_length lo hi : length (py_range lo hi) = Z.to_nat (hi - lo).
Proof. unfold py_range. by rewrite length_fmap, length_seq. Qed.

Lemma py_range_lookup lo hi (i : nat) :
  (i < Z.to_nat (hi - lo))%nat -> py_range lo hi !! i = Some (lo + Z.of_nat i).
Proof.
  intros Hi. unfold py_range.
  rewrite list_lookup_fmap, lookup_seq_lt by done. reflexivity.
Qed.

Lemma py_range_snoc lo hi : lo <= hi -> py_range lo (hi + 1) = py_range lo hi ++ [hi].
Proof.
  intros Hle. unfold py_range.
  replace (Z.to_nat (hi + 1 - lo)) with (Z.to_nat (hi - lo) + 1)%nat by lia.
  rewrite seq_app, fmap_app. cbn. do 3 f_equal. lia.
Qed.

Lemma cell_size_ok cols rows :
  cols <> 0 -> rows <> 0 ->
  cell_size cols rows =
    Ok ((available_width / inject_Z cols)%Q, (available_height / inject_Z rows)%Q).
Proof.
  intros Hc Hr. unfold cell_size.
  by rewrite (py_truediv_ok _ _ Hc), bind_Ok, (py_truediv_ok _ _ Hr).
Qed.

Lemma cell_size_zero cols rows :
  cols = 0 \/ rows = 0 -> cell_size cols rows = Raise ZeroDivisionError.
Proof.
  intros Hz. unfold cell_size, py_truediv.
  destruct (Z.eqb_spec cols 0) as [|Hc]; [done|].
  destruct (Z.eqb_spec rows 0) as [|Hr]; [done|]. lia.
Qed.

(** Row and column of the label at [idx]: the page break does not change
    them, for there the slot is 0. *)
Lemma grid_slot_ok cols rows idx :
  cols <> 0 -> rows <> 0 ->
  grid_slot cols rows idx =
    Ok ((idx mod (cols * rows)) / cols, (idx mod (cols * rows)) mod cols,
        (0 <? idx) && (idx mod (cols * rows) =? 0)).
Proof.
  intros Hc Hr. unfold grid_slot.
  rewrite py_mod_ok by nia. rewrite bind_Ok.
  rewrite (py_floordiv_ok _ _ Hc), bind_Ok, (py_mod_ok _ _ Hc), bind_Ok.
  destruct (0 <? idx); cbn; [|done].
  destruct (Z.eqb_spec (idx mod (cols * rows)) 0) as [->|]; [|done].
  by rewrite Z.div_0_l, Z.mod_0_l by done.
Qed.

Lemma grid_slot_spec cols rows idx :
  cols <> 0 -> rows <> 0 ->
  grid_slot cols rows idx =
    Ok (spec_row cols rows idx, spec_col cols rows idx,
        spec_page_break cols rows idx).
Proof. apply grid_slot_ok. Qed.

Lemma place_barcode_missing w barcode_images cw ch cols rows k number :
  barcode_images !! number = None ->
  place_barcode w barcode_images cw ch cols rows k number = Ok [].
Proof. intros Hm. unfold place_barcode. by rewrite Hm. Qed.

Lemma place_barcode_present w barcode_images cw ch cols rows k number path :
  cols <> 0 -> rows <> 0 ->
  barcode_images !! number = Some path ->
  place_barcode w barcode_images cw ch cols rows k number =
    Ok ((if spec_page_break cols rows (Z.of_nat k) then [showPage] else []) ++
        (if image_drawn w k number
         then draw_barcode cw ch
                (spec_row cols rows (Z.of_nat k))
                (spec_col cols rows (Z.of_nat k)) path number
         else [])).
Proof.
  intros Hc Hr Hp. unfold place_barcode.
  by rewrite Hp, (grid_slot_spec _ _ _ Hc Hr), bind_Ok.
Qed.

(** The layout loop always returns on a grid with cells. *)
Lemma layout_loop_total w barcode_images cw ch cols rows k numbers :
  cols <> 0 -> rows <> 0 ->
  exists ops, layout_loop w barcode_images cw ch cols rows k numbers = Ok ops.
Proof.
  intros Hc Hr. revert k.
  induction numbers as [|number rest IH]; intros k; cbn; [by eexists|].
  destruct (IH (S k)) as [more Hmore]. rewrite Hmore.
  destruct (barcode_images !! number) as [path|] eqn:Hl.
  - rewrite (place_barcode_present _ _ _ _ _ _ _ _ _ Hc Hr Hl). by eexists.
  - rewrite (place_barcode_missing _ _ _ _ _ _ _ _ Hl). by eexists.
Qed.


(** A label is a key of [barcode_images] exactly when one of the calls
    that make its image succeeds. *)
Lemma generate_images_is_Some w numbers k (m : gmap string string) n :
  is_Some (generate_images w k numbers m !! n) <->
  is_Some (m !! n) \/
  exists j : nat, numbers !! j = Some n /\ image_saved w (k + j) n = true.
Proof.
  revert k m. induction numbers as [|number rest IH]; intros k m; cbn.
  - split; [by left|]. intros [H|(j & Hj & _)]; [done|]. by destruct j.
  - rewrite IH. split.
    + intros [H|(j & Hj & Hs)].
      * destruct (image_saved w k number) eqn:Hsaved; [|by left].
        destruct (decide (number = n)) as [->|Hne].
        -- right. exists 0%nat. by rewrite Nat.add_0_r.
        -- left. by rewrite lookup_insert_ne in H.
      * right. exists (S j). by rewrite <- Nat.add_succ_comm.
    + intros [H|(j & Hj & Hs)].
      * left. destruct (image_saved w k number); [|done].
        destruct (decide (number = n)) as [->|Hne].
        -- rewrite lookup_insert_eq. by eexists.
        -- by rewrite lookup_insert_ne.
      * destruct j as [|j]; cbn in Hj.
        -- injection Hj as ->. rewrite Nat.add_0_r in Hs. rewrite Hs.
           left. rewrite lookup_insert_eq. by eexists.
        -- right. exists j. by rewrite Nat.add_succ_comm.
Qed.

(** The file recorded for a label is the one named after it. *)
Lemma generate_images_file w numbers k (m : gmap string string) n path :
  generate_images w k numbers m !! n = Some path ->
  path = barcode_file w n \/ m !! n = Some path.
Proof.
  revert k m. induction numbers as [|number rest IH]; intros k m; cbn.
  - by right.
  - intros H. destruct (IH _ _ H) as [->|Hm]; [by left|].
    destruct (image_saved w k number); [|by right].
    destruct (decide (number = n)) as [->|Hne].
    + rewrite lookup_insert_eq in Hm. left. congruence.
    + rewrite lookup_insert_ne in Hm by done. by right.
Qed.

Lemma barcode_images_Some w numbers n (j : nat) :
  numbers !! j = Some n -> image_saved w j n = true ->
  generate_images w 0 numbers ∅ !! n = Some (barcode_file w n).
Proof.
  intros Hj Hs.
  destruct (proj2 (generate_images_is_Some w numbers 0 ∅ n)) as [path Hp].
  { right. by exists j. }
  rewrite Hp. f_equal.
  destruct (generate_images_file _ _ _ _ _ _ Hp) as [->|Habs]; [done|].
  by rewrite lookup_empty in Habs.
Qed.


(** ** The cell *)

(** C6.  For every grid with at least one column and one row the cell is
    the printable area divided by the grid: its width is
    (page_width - 2 margin_x) / C and its height
    (page_height - 2 margin_y) / R, on the A4 page of 210mm by 297mm with
    margins of 12mm and 15mm; with 4 columns and 8 rows the cell is 46.5mm
    wide and 33.375mm high. *)
Theorem cell_size_formula (cols rows : Z) :
  1 <= cols -> 1 <= rows ->
  exists cell_width cell_height : Q,
    cell_size cols rows = Ok (cell_width, cell_height) /\
    cell_width = ((page_width - 2 * margin_x) / inject_Z cols)%Q /\
    cell_height = ((page_height - 2 * margin_y) / inject_Z rows)%Q /\
    (page_width == 210 * mm)%Q /\ (page_height == 297 * mm)%Q /\
    (margin_x == 12 * mm)%Q /\ (margin_y == 15 * mm)%Q /\
    (cols = 4 -> rows = 8 ->
     (cell_width == 46.5 * mm)%Q /\ (cell_height == 33.375 * mm)%Q).
Proof.
  intros Hc Hr. eexists _, _.
  split; [apply cell_size_ok; lia|].
  do 2 (split; [reflexivity|]).
  do 4 (split; [reflexivity|]).
  intros -> ->. split; vm_compute; reflexivity.
Qed.

Lemma cell_size_formula_A4 :
  1 <= 4 /\ 1 <= 8 /\
  exists cell_width cell_height : Q,
    cell_size 4 8 = Ok (cell_width, cell_height) /\
    (cell_width == 46.5 * mm)%Q /\ (cell_height == 33.375 * mm)%Q.
Proof.
  split; [lia|]. split; [lia|].
  destruct (cell_size_formula 4 8) as (cw & ch & Hs & _ & _ & _ & _ & _ & _ & Hmm);
    [lia|lia|].
  exists cw, ch. split; [exact Hs|]. exact (Hmm eq_refl eq_refl).
Defined.

(** C7, the counterexample.  A grid with -4 columns is not refused: the
    call returns a document on which the label is drawn. *)
Lemma negative_columns_are_laid_out :
  exists ops,
    generate_pdf_from_numbers calm_world ["1"] (-4) 8 = Ok ops /\
    captions_from 0 ops = [(0%nat, "1")].
Proof. eexists. split; vm_compute; reflexivity. Qed.

(** C7, as the code has it.  With no column or no row the call raises
    [ZeroDivisionError] while the cell size is computed, before any label
    is placed, and returns no document; [generate_pdf_api] answers with
    status 500.  Nothing else is checked: the margins are constants, below
    half of the page dimensions. *)
Theorem zero_grid_raises (w : world) (numbers : list string) (cols rows : Z) :
  cols = 0 \/ rows = 0 ->
  cell_size cols rows = Raise ZeroDivisionError /\
  generate_pdf_from_numbers w numbers cols rows = Raise ZeroDivisionError /\
  (forall (value : Type) (py_int : value -> option Z) (ws : worksheet value),
     extract_numbers py_int ws = numbers -> numbers <> [] ->
     (forall excel_source,
        generate_pdf_api py_int w excel_source (Some ws) cols rows =
          pdf_exception ZeroDivisionError) /\
     eg.generate_pdf_from_excel py_int w (Some ws) cols rows =
       Raise ZeroDivisionError) /\
  (margin_x < page_width / 2)%Q /\ (margin_y < page_height / 2)%Q.
Proof.
  intros Hz. pose proof (cell_size_zero cols rows Hz) as Hcell.
  assert (generate_pdf_from_numbers w numbers cols rows = Raise ZeroDivisionError)
    as Hgen by (unfold generate_pdf_from_numbers; by rewrite Hcell).
  split; [done|]. split; [done|]. split; [|by split; vm_compute].
  intros value py_int ws Hnum Hne. split.
  - intros excel_source.
    unfold generate_pdf_api. rewrite Hnum, Hgen. by destruct numbers.
  - unfold eg.generate_pdf_from_excel. rewrite Hnum, Hcell. by destruct numbers.
Qed.

Lemma zero_grid_raises_no_columns :
  (0 = 0 \/ 8 = 0) /\
  generate_pdf_from_numbers calm_world ["1"; "2"] 0 8 = Raise ZeroDivisionError.
Proof.
  split; [left; reflexivity|].
  exact (proj1 (proj2 (zero_grid_raises calm_world ["1"; "2"] 0 8
                         (or_introl eq_refl)))).
Defined.

(** ** The image and its caption in the cell *)

(** C5, the counterexample.  In the first cell of the 4 by 8 grid the lower
    edge of the image is not where an image hanging from the top of the
    padded cell would have it. *)
Lemma image_is_not_top_anchored :
  exists cell_width cell_height : Q,
    cell_size 4 8 = Ok (cell_width, cell_height) /\
    ~ (image_y cell_height 0 == spec_image_y cell_height 0)%Q.
Proof.
  eexists _, _. split; [reflexivity|].
  intros H. vm_compute in H. discriminate H.
Qed.

(** C5, as the code has it.  For every label that is drawn, the image is
    drawn with its lower left corner 5% of the cell width right of the
    left edge of its cell and 5% of the cell height above the lower edge,
    where the lower edge of the cell at [row] is
    page_height - margin_y - (row+1) cell_height; the image is 90% of the
    cell wide, so 5% of the width is left on its right, and 75% of the cell
    high, so 20% of the height is left above it: it sits at the bottom of
    the padded cell.  The caption baseline is 15% of the cell height below
    the lower edge of the image, and the caption starts 15 points left of
    the middle of the image. *)
Theorem image_and_caption_in_cell (w : world) (barcode_images : gmap string string)
    (cols rows : Z) (k : nat) (number path : string) :
  cols <> 0 -> rows <> 0 ->
  barcode_images !! number = Some path ->
  image_drawn w k number = true ->
  exists (cell_width cell_height : Q) (row col : Z) (page_break : bool)
         (x y width height tx ty : Q),
    cell_size cols rows = Ok (cell_width, cell_height) /\
    grid_slot cols rows (Z.of_nat k) = Ok (row, col, page_break) /\
    place_barcode w barcode_images cell_width cell_height cols rows k number =
      Ok ((if page_break then [showPage] else []) ++
          [drawImage path x y width height;
           setFont "Helvetica" 8;
           drawString tx ty number]) /\
    (x - spec_cell_left cell_width col == 0.05 * cell_width)%Q /\
    (spec_cell_left cell_width col + cell_width - (x + width)
       == 0.05 * cell_width)%Q /\
    (width == 0.9 * cell_width)%Q /\
    (height == 0.75 * cell_height)%Q /\
    (y - spec_cell_bottom cell_height row == 0.05 * cell_height)%Q /\
    (spec_cell_top cell_height row - (y + height) == 0.2 * cell_height)%Q /\
    (y - ty == 0.15 * cell_height)%Q /\
    (tx == x + width / 2 - 15)%Q.
Proof.
  intros Hc Hr Hp Hd.
  eexists _, _, _, _, _, _, _, _, _, _, _.
  split; [by apply cell_size_ok|].
  split; [by apply grid_slot_spec|].
  split.
  { rewrite (place_barcode_present _ _ _ _ _ _ _ _ _ Hc Hr Hp), Hd.
    unfold draw_barcode. reflexivity. }
  generalize (spec_row cols rows (Z.of_nat k)) (spec_col cols rows (Z.of_nat k)).
  intros row col.
  unfold text_x, text_y, spec_cell_top.
  unfold image_x, image_y, barcode_width, barcode_height,
    spec_cell_left, spec_cell_bottom.
  repeat split; ring.
Qed.

Lemma image_and_caption_in_first_cell :
  (4 <> 0 /\ 8 <> 0 /\
   ({["1" := "/tmp/barcode_pdf_a/barcode_1.png"]} : gmap string string) !! "1"
     = Some "/tmp/barcode_pdf_a/barcode_1.png" /\
   image_drawn calm_world 0 "1" = true) /\
  exists (cell_width cell_height : Q) (x y width height tx ty : Q),
    cell_size 4 8 = Ok (cell_width, cell_height) /\
    place_barcode calm_world {["1" := "/tmp/barcode_pdf_a/barcode_1.png"]}
        cell_width cell_height 4 8 0 "1" =
      Ok [drawImage "/tmp/barcode_pdf_a/barcode_1.png" x y width height;
          setFont "Helvetica" 8; drawString tx ty "1"] /\
    (spec_cell_top cell_height 0 - (y + height) == 0.2 * cell_height)%Q.
Proof.
  split; [repeat split; (lia || reflexivity)|].
  destruct (image_and_caption_in_cell calm_world
              {["1" := "/tmp/barcode_pdf_a/barcode_1.png"]} 4 8 0 "1"
              "/tmp/barcode_pdf_a/barcode_1.png")
    as (cw & ch & row & col & brk & x & y & wd & ht & tx & ty &
        Hcell & Hslot & Hplace & _ & _ & _ & _ & _ & Htop & _);
    [lia|lia|reflexivity|reflexivity|].
  injection Hslot as <- <- <-.
  exists cw, ch, x, y, wd, ht, tx, ty. repeat split; assumption.
Defined.

(** ** Labels without an image *)

(** A label without an image is passed over, and the index moves on. *)
Lemma layout_loop_missing w barcode_images cw ch cols rows k number rest :
  barcode_images !! number = None ->
  layout_loop w barcode_images cw ch cols rows k (number :: rest) =
  layout_loop w barcode_images cw ch cols rows (S k) rest.
Proof.
  intros Hm. cbn. rewrite (place_barcode_missing _ _ _ _ _ _ _ _ Hm), bind_Ok.
  by destruct (layout_loop _ _ _ _ _ _ (S k) rest).
Qed.




(** ** Pages when the image of a label at a page boundary is missing

    The page break is made inside the iteration of the label that opens a
    page, after the test that passes over a label without an image: when
    that label has no image, the break is lost and the labels after it are
    drawn over the page before. *)

(** C1, on 35 labels in the 4 by 8 grid when the label at ordinal 32 has no
    image.  The label at ordinal 33 belongs on page 33 div 32 = 1; it is
    drawn on page 0, on the very spot of the label at ordinal 1. *)
Theorem label_after_missing_boundary_image_stays_on_page_0 :
  exists (ops : list canvas_op) (x y : Q),
    generate_pdf_from_numbers slash_world labels_with_slash 4 8 = Ok ops /\
    labels_with_slash !! 32%nat = Some "a/b" /\
    labels_with_slash !! 33%nat = Some "34" /\
    spec_page 4 8 33 = 1 /\
    filter (fun c => c.2 = "34") (captions_from 0 ops) = [(0%nat, "34")] /\
    images_from 0 ops !! 1%nat =
      Some (0%nat, barcode_file slash_world "2", x, y) /\
    images_from 0 ops !! 32%nat =
      Some (0%nat, barcode_file slash_world "34", x, y).
Proof. eexists _, _, _. repeat split; vm_compute; reflexivity. Qed.

(** C2, on six labels in the 2 by 2 grid when the label at ordinal 4 has no
    image.  Ordinal 4 opens a page (4 mod 4 = 0 and 4 > 0), yet no page
    break is made, and all labels are on page 0. *)
Theorem page_break_lost_with_missing_image :
  exists ops : list canvas_op,
    generate_pdf_from_numbers slash_world ["1"; "2"; "3"; "4"; "a/b"; "6"] 2 2
      = Ok ops /\
    spec_page_break 2 2 4 = true /\
    page_breaks ops = 0%nat /\
    captions_from 0 ops =
      [(0, "1"); (0, "2"); (0, "3"); (0, "4"); (0, "6")]%nat.
Proof. eexists. repeat split; vm_compute; reflexivity. Qed.

(** C4, on four labels in the 2 by 1 grid when the label at ordinal 2 has
    no image.  Four labels need ceil(4 / 2) = 2 pages; the document has
    the single page 0.  The twin of eg.py, on a sheet with the numbers 1 to
    4 whose third image cannot be written, counts one page as well. *)
Theorem page_count_short_with_missing_image :
  exists (ops : list canvas_op) (report : eg.pdf_report),
    generate_pdf_from_numbers slash_world ["1"; "2"; "a/b"; "4"] 2 1 = Ok ops /\
    spec_page_count 2 1 4 = 2 /\
    distinct_pages ops = [0%nat] /\
    captions_from 0 ops = [(0, "1"); (0, "2"); (0, "4")]%nat /\
    eg.generate_pdf_from_excel sample_int flaky_world (Some four_rows) 2 1
      = Ok (Some report) /\
    eg.page_num report = 1 /\
    eg.barcode_count report = 3.
Proof. eexists _, _. repeat split; vm_compute; reflexivity. Qed.

(** ** One call and the next *)

Lemma place_barcode_placements w1 w2 (imgs1 imgs2 : gmap string string)
    cw ch cols rows k number :
  (is_Some (imgs1 !! number) <-> is_Some (imgs2 !! number)) ->
  image_drawn w1 k number = image_drawn w2 k number ->
  placements (place_barcode w1 imgs1 cw ch cols rows k number) =
  placements (place_barcode w2 imgs2 cw ch cols rows k number).
Proof.
  intros Hdom Hd. unfold place_barcode.
  destruct (imgs1 !! number) as [p1|], (imgs2 !! number) as [p2|]; cbn.
  - destruct (grid_slot cols rows (Z.of_nat k)) as [[[row col] brk]|e];
      [|done].
    cbn. rewrite Hd. by destruct brk, (image_drawn w2 k number).
  - destruct (proj1 Hdom) as [? [=]]. by eexists.
  - destruct (proj2 Hdom) as [? [=]]. by eexists.
  - done.
Qed.

Lemma placements_app (a1 a2 b1 b2 : result (list canvas_op)) :
  placements a1 = placements a2 -> placements b1 = placements b2 ->
  placements (ops ← a1; more ← b1; mret (ops ++ more)) =
  placements (ops ← a2; more ← b2; mret (ops ++ more)).
Proof.
  destruct a1, a2, b1, b2; cbn; intros Ha Hb; try congruence.
  rewrite !fmap_app. congruence.
Qed.

Lemma layout_loop_placements w1 w2 (imgs1 imgs2 : gmap string string)
    cw ch cols rows k numbers :
  (forall n, is_Some (imgs1 !! n) <-> is_Some (imgs2 !! n)) ->
  (forall k data, image_drawn w1 k data = image_drawn w2 k data) ->
  placements (layout_loop w1 imgs1 cw ch cols rows k numbers) =
  placements (layout_loop w2 imgs2 cw ch cols rows k numbers).
Proof.
  intros Hdom Hd. revert k.
  induction numbers as [|number rest IH]; intros k; [done|].
  cbn [layout_loop]. apply placements_app; [|apply IH].
  by apply place_barcode_placements.
Qed.

(** Two worlds whose collaborators answer alike place the same things. *)
Lemma placements_agree (w1 w2 : world) (numbers : list string) (cols rows : Z) :
  (forall k data, image_saved w1 k data = image_saved w2 k data) ->
  (forall k data, image_drawn w1 k data = image_drawn w2 k data) ->
  placements (generate_pdf_from_numbers w1 numbers cols rows) =
  placements (generate_pdf_from_numbers w2 numbers cols rows).
Proof.
  intros Hs Hd. unfold generate_pdf_from_numbers.
  destruct (cell_size cols rows) as [[cw ch]|e]; [|done].
  rewrite !bind_Ok. apply layout_loop_placements; [|done].
  intros n. rewrite !generate_images_is_Some.
  by setoid_rewrite Hs.
Qed.

Lemma place_barcode_placements_on w1 w2 (imgs1 imgs2 : gmap string string)
    cw ch cols rows k number :
  (is_Some (imgs1 !! number) <-> is_Some (imgs2 !! number)) ->
  (is_Some (imgs1 !! number) ->
   image_drawn w1 k number = image_drawn w2 k number) ->
  placements (place_barcode w1 imgs1 cw ch cols rows k number) =
  placements (place_barcode w2 imgs2 cw ch cols rows k number).
Proof.
  intros Hdom Hd. unfold place_barcode.
  destruct (imgs1 !! number) as [p1|], (imgs2 !! number) as [p2|]; cbn.
  - destruct (grid_slot cols rows (Z.of_nat k)) as [[[row col] brk]|e];
      [|done].
    cbn. rewrite Hd by (by eexists).
    by destruct brk, (image_drawn w2 k number).
  - destruct (proj1 Hdom) as [? [=]]. by eexists.
  - destruct (proj2 Hdom) as [? [=]]. by eexists.
  - done.
Qed.

Lemma layout_loop_placements_on w1 w2 (imgs1 imgs2 : gmap string string)
    cw ch cols rows numbers :
  forall k : nat,
    (forall (j : nat) n, numbers !! j = Some n ->
       (is_Some (imgs1 !! n) <-> is_Some (imgs2 !! n)) /\
       (is_Some (imgs1 !! n) ->
        image_drawn w1 (k + j) n = image_drawn w2 (k + j) n)) ->
    placements (layout_loop w1 imgs1 cw ch cols rows k numbers) =
    placements (layout_loop w2 imgs2 cw ch cols rows k numbers).
Proof.
  induction numbers as [|number rest IH]; intros k Hsame; [done|].
  cbn [layout_loop]. apply placements_app.
  - destruct (Hsame 0%nat number eq_refl) as [Hdom Hd].
    rewrite Nat.add_0_r in Hd. by apply place_barcode_placements_on.
  - apply IH. intros j n Hj. destruct (Hsame (S j) n Hj) as [Hdom Hd].
    split; [done|]. by rewrite Nat.add_succ_comm.
Qed.

Lemma has_image_spec w numbers number :
  is_Some (generate_images w 0 numbers ∅ !! number) <-> has_image w numbers number.
Proof.
  rewrite generate_images_is_Some. unfold has_image. split.
  - intros [Hempty|Hsaved]; [|done].
    rewrite lookup_empty in Hempty. by destruct Hempty.
  - by right.
Qed.

(** ** What a call leaves on the disk *)

Lemma prefix_app_slash (s t : string) :
  String.prefix (s +:+ "/") (s +:+ String "/" t) = true.
Proof.
  induction s as [|c s IH].
  - change (String.prefix "/" (String "/" t) = true). cbn.
    destruct (ascii_dec "/" "/"); [by destruct t|done].
  - change (String.prefix (String c (s +:+ "/")) (String c (s +:+ String "/" t))
            = true).
    cbn. by destruct (ascii_dec c c).
Qed.

Lemma under_barcode_file w number : under (temp_dir w) (barcode_file w number) = true.
Proof. unfold under, barcode_file. apply prefix_app_slash. Qed.

Lemma save_images_dirs c numbers : forall k d,
  disk_dirs (save_images c k numbers d) = disk_dirs d.
Proof.
  induction numbers as [|number rest IH]; intros k d; cbn; [done|].
  rewrite IH. by destruct (_ || _).
Qed.

Lemma save_images_files c numbers path : forall k d,
  path ∈ disk_files (save_images c k numbers d) <->
  path ∈ disk_files d \/
  exists (j : nat) (number : string),
    numbers !! j = Some number /\ path = barcode_file (collaborators c) number /\
    (image_saved (collaborators c) (k + j) number = true \/
     left_behind c (k + j) number = true).
Proof.
  induction numbers as [|number rest IH]; intros k d; cbn [save_images].
  { split; [by left|]. intros [|(j & n & Hj & _)]; [done|]. by destruct j. }
  rewrite IH. split.
  - intros [Hd|(j & n & Hj & -> & Hmade)].
    + destruct (_ || _) eqn:Hmade; [|by left]. cbn in Hd.
      apply elem_of_union in Hd as [Hnew|Hold]; [|by left].
      apply elem_of_singleton in Hnew as ->. right. exists 0%nat, number.
      rewrite Nat.add_0_r. split; [done|]. split; [done|].
      by apply orb_true_iff.
    + right. exists (S j), n. by rewrite <- Nat.add_succ_comm.
  - intros [Hd|(j & n & Hj & -> & Hmade)].
    + left. destruct (_ || _); [|done]. cbn. apply elem_of_union. by right.
    + destruct j as [|j].
      * injection Hj as <-. rewrite Nat.add_0_r in Hmade. left.
        rewrite (proj2 (orb_true_iff _ _) Hmade). cbn.
        apply elem_of_union. left. by apply elem_of_singleton.
      * right. exists j, n. by rewrite Nat.add_succ_comm.
Qed.

(** The files of the images are under the temporary directory, and the
    [finally] clause removes it with them: the disk is as it was. *)
Lemma rmtree_restores c (d : disk) numbers :
  fresh_directory (temp_dir (collaborators c)) d ->
  rmtree (temp_dir (collaborators c))
    (save_images c 0 numbers
       {| disk_dirs := {[ temp_dir (collaborators c) ]} ∪ disk_dirs d;
          disk_files := disk_files d |}) = d.
Proof.
  intros (Hdir & Hfile & Hunder). destruct d as [dirs files]. cbn in *.
  unfold rmtree. rewrite save_images_dirs. cbn. f_equal.
  - apply set_eq. intros path. rewrite elem_of_filter, elem_of_union,
      elem_of_singleton. split.
    + intros [[Hne _] [->|Hin]]; done.
    + intros Hin. split; [|by right]. split.
      * by intros ->.
      * apply Hunder. by left.
  - apply set_eq. intros path. rewrite elem_of_filter, save_images_files.
    cbn. split.
    + intros [Hout [Hin|(j & n & _ & -> & _)]]; [done|].
      by rewrite under_barcode_file in Hout.
    + intros Hin. split; [|by left]. apply Hunder. by right.
Qed.

(** C8, the counterexample.  Two calls with the same three labels and the
    same 2 by 1 grid; during the second one the third image cannot be
    written.  The first call draws the third label on a second page, the
    second call draws neither the label nor the page break: what is
    placed is not a function of the labels and the grid alone. *)
Lemma same_labels_another_layout :
  exists ops1 ops2 : list canvas_op,
    generate_pdf_from_numbers_on calm_call sample_disk ["1"; "2"; "3"] 2 1
      = (Ok ops1, sample_disk) /\
    generate_pdf_from_numbers_on flaky_call sample_disk ["1"; "2"; "3"] 2 1
      = (Ok ops2, sample_disk) /\
    captions_from 0 ops1 = [(0, "1"); (0, "2"); (1, "3")]%nat /\
    captions_from 0 ops2 = [(0, "1"); (0, "2")]%nat /\
    placements (Ok ops1) <> placements (Ok ops2).
Proof.
  eexists _, _. split; [vm_compute; reflexivity|].
  split; [vm_compute; reflexivity|].
  split; [vm_compute; reflexivity|]. split; [vm_compute; reflexivity|].
  vm_compute. discriminate.
Qed.

(** C8, as the code has it.  A call keeps nothing for the next one: its
    temporary directory is new, the files of its images are under it, and
    when the [finally] clause ends the disk is as it was before the call.
    Of two calls, one after the other, with the same labels and the same
    grid, in which the same labels have an image and the same draw calls
    end, the second places what the first does: the same page breaks,
    images at the same positions and in the same sizes, and captions. *)
Theorem calls_keep_no_state (first second : call_world) (d : disk)
    (numbers : list string) (cols rows : Z) :
  let w1 := collaborators first in
  let w2 := collaborators second in
  let call1 := generate_pdf_from_numbers_on first d numbers cols rows in
  let call2 := generate_pdf_from_numbers_on second call1.2 numbers cols rows in
  fresh_directory (temp_dir w1) d -> fresh_directory (temp_dir w2) d ->
  tmp_made first = true -> tmp_made second = true ->
  cleanup_failure first = None -> cleanup_failure second = None ->
  (forall number, number ∈ numbers ->
     has_image w1 numbers number <-> has_image w2 numbers number) ->
  (forall (j : nat) number, numbers !! j = Some number ->
     has_image w1 numbers number ->
     image_drawn w1 j number = image_drawn w2 j number) ->
  call1.2 = d /\ call2.2 = d /\
  call1.1 = generate_pdf_from_numbers w1 numbers cols rows /\
  call2.1 = generate_pdf_from_numbers w2 numbers cols rows /\
  placements call1.1 = placements call2.1.
Proof.
  intros w1 w2 call1 call2 Hfresh1 Hfresh2 Htmp1 Htmp2 Hclean1 Hclean2
    Himages Hdraws.
  assert (call1 = (generate_pdf_from_numbers w1 numbers cols rows, d)) as Hcall1.
  { unfold call1, generate_pdf_from_numbers_on. rewrite Htmp1, Hclean1.
    fold w1. f_equal. by apply rmtree_restores. }
  assert (call2 = (generate_pdf_from_numbers w2 numbers cols rows, d)) as Hcall2.
  { unfold call2. rewrite Hcall1. cbn [snd].
    unfold generate_pdf_from_numbers_on. rewrite Htmp2, Hclean2.
    fold w2. f_equal. by apply rmtree_restores. }
  rewrite Hcall1, Hcall2. cbn [fst snd].
  split; [done|]. split; [done|]. split; [done|]. split; [done|].
  unfold generate_pdf_from_numbers.
  destruct (cell_size cols rows) as [[cw ch]|e]; [|done].
  rewrite !bind_Ok. apply layout_loop_placements_on.
  intros j n Hj. rewrite !has_image_spec. cbn [Nat.add].
  assert (n ∈ numbers) as Hin by (by eapply list_elem_of_lookup_2).
  split; [by apply Himages|]. intros Himage. by apply Hdraws.
Qed.

Lemma calls_keep_no_state_sample :
  (fresh_directory (temp_dir slash_world) sample_disk /\
   fresh_directory "/tmp/barcode_pdf_d" sample_disk /\
   (forall number, number ∈ ["1"; "a/b"; "3"] ->
      has_image slash_world ["1"; "a/b"; "3"] number <->
      has_image (collaborators second_image_fails_call) ["1"; "a/b"; "3"] number)) /\
  let call1 :=
    generate_pdf_from_numbers_on slash_call sample_disk ["1"; "a/b"; "3"] 4 8 in
  let call2 :=
    generate_pdf_from_numbers_on second_image_fails_call call1.2
      ["1"; "a/b"; "3"] 4 8 in
  call1.2 = sample_disk /\ call2.2 = sample_disk /\
  placements call1.1 = placements call2.1.
Proof.
  assert (forall dir, dir = "/tmp/barcode_pdf_b" \/ dir = "/tmp/barcode_pdf_d" ->
                      fresh_directory dir sample_disk) as Hfresh.
  { intros dir Hdir. unfold fresh_directory, sample_disk. cbn.
    split; [destruct Hdir as [->| ->]; set_unfold; by intros [|]|].
    split; [destruct Hdir as [->| ->]; by set_unfold|].
    intros path [Hpath|Hpath]; set_unfold;
      destruct Hdir as [->| ->];
      repeat match goal with H : _ \/ _ |- _ => destruct H end;
      subst; reflexivity. }
  assert (forall number, number ∈ ["1"; "a/b"; "3"] ->
            has_image slash_world ["1"; "a/b"; "3"] number <->
            has_image (collaborators second_image_fails_call)
              ["1"; "a/b"; "3"] number) as Himages.
  { intros number Hin. unfold has_image.
    set_unfold. destruct Hin as [->|[->|[->|[]]]].
    - split; intros _; by exists 0%nat.
    - split; intros ([|[|[|i]]] & Hi & Hsaved); done.
    - split; intros _; by exists 2%nat. }
  split.
  { split; [apply Hfresh; by left|]. split; [apply Hfresh; by right|].
    exact Himages. }
  destruct (calls_keep_no_state slash_call second_image_fails_call sample_disk
              ["1"; "a/b"; "3"] 4 8)
    as (Hdisk1 & Hdisk2 & _ & _ & Hplaced);
    [apply Hfresh; by left|apply Hfresh; by right| reflexivity | reflexivity
    | reflexivity | reflexivity | exact Himages | reflexivity |].
  cbn zeta. split; [exact Hdisk1|]. split; [exact Hdisk2|exact Hplaced].
Defined.

(** ** The labels of a sheet *)

Lemma py_range_split lo mid hi :
  lo <= mid <= hi -> py_range lo hi = py_range lo mid ++ py_range mid hi.
Proof.
  intros H. unfold py_range.
  replace (Z.to_nat (hi - lo)) with (Z.to_nat (mid - lo) + Z.to_nat (hi - mid))%nat
    by lia.
  rewrite seq_app, fmap_app. f_equal. cbn [Nat.add].
  rewrite <- (Nat.add_0_r (Z.to_nat (mid - lo))).
  rewrite <- fmap_add_seq, <- list_fmap_compose.
  apply list_fmap_ext. intros _ i _. cbn. lia.
Qed.

Lemma py_range_cons lo hi : lo < hi -> py_range lo hi = lo :: py_range (lo + 1) hi.
Proof.
  intros H. rewrite (py_range_split lo (lo + 1) hi) by lia.
  replace (py_range lo (lo + 1)) with [lo]; [done|].
  unfold py_range. replace (lo + 1 - lo) with 1 by lia.
  change (Z.to_nat 1) with 1%nat. cbn. f_equal. lia.
Qed.

Section sheet_facts.
Context {value : Type}.
Variable py_int : value -> option Z.

Lemma read_numbers_spec (ws : worksheet value) rows numbers :
  read_numbers py_int ws rows numbers =
  numbers ++ omap (spec_label_of_row py_int ws) rows.
Proof.
  revert numbers. induction rows as [|row rest IH]; intros numbers; cbn.
  - by rewrite app_nil_r.
  - rewrite IH. unfold spec_label_of_row at 2.
    destruct (column_A ws !! row) as [v|]; cbn; [|done].
    destruct (py_int v) as [n|]; cbn; [|done]. by rewrite <- app_assoc.
Qed.

(** C9.  The labels are read from column A, rows 2 to [max_row], in row
    order: a row contributes the string form of the integer of its cell
    when the cell is not empty and [int] accepts its value, and nothing
    otherwise.  A row that contributes nothing takes no ordinal: the
    label of a row sits at the ordinal that counts the contributing rows
    above it.  A label without an image, in contrast, keeps its ordinal
    in the layout loop: the loop goes on with the next index. *)
Theorem labels_of_sheet (ws : worksheet value) :
  extract_numbers py_int ws = spec_label_sequence py_int ws /\
  (forall label : string,
     label ∈ extract_numbers py_int ws <->
     exists row, 2 <= row <= max_row ws /\
                 spec_label_of_row py_int ws row = Some label) /\
  (forall (row : Z) (label : string),
     2 <= row <= max_row ws ->
     spec_label_of_row py_int ws row = Some label ->
     extract_numbers py_int ws
       !! length (omap (spec_label_of_row py_int ws) (py_range 2 row))
       = Some label) /\
  (forall row : Z,
     2 <= row <= max_row ws ->
     spec_label_of_row py_int ws row = None ->
     omap (spec_label_of_row py_int ws) (py_range 2 (row + 1)) =
     omap (spec_label_of_row py_int ws) (py_range 2 row)) /\
  (forall w (barcode_images : gmap string string) cw ch cols rows k number rest,
     barcode_images !! number = None ->
     layout_loop w barcode_images cw ch cols rows k (number :: rest) =
     layout_loop w barcode_images cw ch cols rows (S k) rest).
Proof.
  assert (extract_numbers py_int ws = spec_label_sequence py_int ws) as Heq
    by apply read_numbers_spec.
  split; [done|]. rewrite Heq. unfold spec_label_sequence.
  split; [|split; [|split]].
  - intros label. rewrite list_elem_of_omap. split.
    + intros (row & Hin & Hl). exists row. split; [|done].
      apply list_elem_of_lookup in Hin as [i Hi].
      pose proof (lookup_lt_Some _ _ _ Hi) as Hlt.
      rewrite py_range_length in Hlt.
      rewrite py_range_lookup in Hi by done. injection Hi as <-. lia.
    + intros (row & Hrow & Hl). exists row. split; [|done].
      apply list_elem_of_lookup. exists (Z.to_nat (row - 2)).
      rewrite py_range_lookup by lia. f_equal. lia.
  - intros row label Hrow Hl.
    rewrite (py_range_split 2 row (max_row ws + 1)) by lia.
    rewrite (py_range_cons row) by lia.
    rewrite omap_app. cbn [omap list_omap]. rewrite Hl.
    rewrite lookup_app_r by lia. by rewrite Nat.sub_diag.
  - intros row Hrow Hl. rewrite py_range_snoc by lia.
    rewrite omap_app. cbn [omap list_omap]. rewrite Hl. by rewrite app_nil_r.
  - intros. by apply layout_loop_missing.
Qed.
End sheet_facts.

Lemma labels_of_sample_sheet :
  (2 <= 5 <= max_row sample_sheet /\
   spec_label_of_row sample_int sample_sheet 5 = Some "9") /\
  extract_numbers sample_int sample_sheet = ["7"; "9"] /\
  extract_numbers sample_int sample_sheet !! 1%nat = Some "9".
Proof.
  split; [split; [cbn; lia|reflexivity]|].
  split; [reflexivity|].
  apply (proj1 (proj2 (proj2 (labels_of_sheet sample_int sample_sheet))) 5 "9");
    [cbn; lia|reflexivity].
Defined.

(** ** Creating a sheet of consecutive numbers *)

Section create_excel_facts.
Context {value : Type}.
Variable py_int : value -> option Z.

(** C10.  A count below 1 or above 5000 is answered with an error and
    [create_excel_with_barcodes] is not called, so that no file is written:
    the error is status 400 when [startNum] reads as an integer, and the
    status 500 of the exception [int] raises on it otherwise.  With a count
    from 1 to 5000 the numbers handed to [create_excel_with_barcodes] are
    the [count] consecutive integers from [startNum] on, in increasing
    order, and the call that writes them without an exception is answered
    with the range they span. *)
Theorem create_excel_count_range (saved : bool)
    (data : create_excel_request (value := value)) (cnt : Z) :
  get_int py_int (count data) 10 = Some cnt ->
  (cnt < 1 \/ 5000 < cnt ->
   (create_excel_api py_int saved data).2 = None /\
   (create_excel_api py_int saved data).1 =
     match get_int py_int (startNum data) 253310001 with
     | Some _ => excel_error 400 "Count must be between 1 and 5000"
     | None => excel_exception
     end) /\
  (1 <= cnt <= 5000 ->
   forall start_num : Z,
     get_int py_int (startNum data) 253310001 = Some start_num ->
     exists numbers : list Z,
       (create_excel_api py_int saved data).2 =
         Some (default "barcodes.xlsx" (fileName data), numbers) /\
       length numbers = Z.to_nat cnt /\
       (forall i : Z, 0 <= i < cnt ->
                      numbers !! Z.to_nat i = Some (start_num + i)) /\
       (saved = true ->
        (create_excel_api py_int saved data).1 =
          excel_success (default "barcodes.xlsx" (fileName data)) cnt
            start_num (start_num + cnt - 1))).
Proof.
  intros Hcount. unfold create_excel_api. rewrite Hcount.
  split.
  - intros Hout.
    destruct (get_int py_int (startNum data) 253310001); [|done].
    destruct (Z.ltb_spec cnt 1); [done|].
    destruct (Z.ltb_spec 5000 cnt); [done|]. lia.
  - intros Hin start_num ->.
    destruct (Z.ltb_spec cnt 1); [lia|].
    destruct (Z.ltb_spec 5000 cnt); [lia|]. cbn.
    eexists. split; [reflexivity|].
    split; [by rewrite length_fmap, py_range_length, Z.sub_0_r|].
    split; [|by intros ->].
    intros i Hi. rewrite list_lookup_fmap, py_range_lookup by lia.
    cbn. do 2 f_equal. lia.
Qed.
End create_excel_facts.

Lemma create_excel_three_numbers :
  (get_int sample_int (count three_numbers) 10 = Some 3 /\
   1 <= 3 <= 5000 /\
   get_int sample_int (startNum three_numbers) 253310001 = Some 253310001) /\
  exists numbers : list Z,
    (create_excel_api sample_int true three_numbers).2 =
      Some ("three.xlsx", numbers) /\
    numbers !! 2%nat = Some 253310003.
Proof.
  split; [repeat split; (reflexivity || lia)|].
  destruct (proj2 (create_excel_count_range sample_int true three_numbers
                     3 eq_refl) ltac:(lia) 253310001 eq_refl)
    as (numbers & Hcall & _ & Hnth & _).
  exists numbers. split; [exact Hcall|].
  apply (Hnth 2). lia.
Defined.

(** 5001 numbers are refused and nothing is written. *)
Example create_excel_too_many :
  create_excel_api sample_int true too_many_numbers =
    (excel_error 400 "Count must be between 1 and 5000", None).
Proof. reflexivity. Qed.

(** ** Pages when the labels at the page boundaries have their images *)

Lemma captions_from_app p ops1 ops2 :
  captions_from p (ops1 ++ ops2) =
  captions_from p ops1 ++ captions_from (p + page_breaks ops1) ops2.
Proof.
  revert p. induction ops1 as [|op ops1 IH]; intros p; cbn.
  - by rewrite Nat.add_0_r.
  - destruct op; cbn; rewrite IH; try done.
    by rewrite Nat.add_succ_r.
Qed.

Lemma page_breaks_app ops1 ops2 :
  page_breaks (ops1 ++ ops2) = (page_breaks ops1 + page_breaks ops2)%nat.
Proof.
  induction ops1 as [|op ops1 IH]; cbn; [done|].
  destruct op; cbn; by rewrite IH.
Qed.

Lemma spec_page_before_S cols rows k :
  spec_page_before cols rows (S k) = Z.to_nat (spec_page cols rows (Z.of_nat k)).
Proof.
  unfold spec_page_before, spec_page. do 2 f_equal. lia.
Qed.

(** A page is closed exactly at the ordinals that open the next one. *)
Lemma spec_page_step cols rows k :
  0 < cols -> 0 < rows ->
  spec_page_before cols rows (S k) =
    (spec_page_before cols rows k +
     (if spec_page_break cols rows (Z.of_nat k) then 1 else 0))%nat.
Proof.
  intros Hc Hr. unfold spec_page_before, spec_page_break, spec_slot.
  assert (0 < spec_capacity cols rows) as Hcap by (unfold spec_capacity; nia).
  generalize dependent (spec_capacity cols rows). intros cap Hcap.
  replace (Z.of_nat (S k) - 1) with (Z.of_nat k) by lia.
  destruct (Z.ltb_spec 0 (Z.of_nat k)) as [Hpos|Hzero]; cbn.
  - assert (0 <= (Z.of_nat k - 1) / cap)
      by (Z.div_mod_to_equations; nia).
    destruct (Z.eqb_spec (Z.of_nat k mod cap) 0) as [Hm|Hm].
    + assert (Z.of_nat k / cap = (Z.of_nat k - 1) / cap + 1) as ->
        by (Z.div_mod_to_equations; nia).
      lia.
    + assert ((Z.of_nat k - 1) / cap = Z.of_nat k / cap) as ->
        by (Z.div_mod_to_equations; nia).
      lia.
  - replace (Z.of_nat k) with 0 by lia.
    rewrite Z.div_0_l by lia.
    assert ((0 - 1) / cap < 0) by (Z.div_mod_to_equations; nia). lia.
Qed.

Lemma spec_page_before_0 cols rows :
  0 < cols -> 0 < rows -> spec_page_before cols rows 0 = 0%nat.
Proof.
  intros Hc Hr. unfold spec_page_before.
  assert (0 < spec_capacity cols rows) as Hcap by (unfold spec_capacity; nia).
  change (Z.of_nat 0 - 1) with (-1).
  assert (-1 / spec_capacity cols rows < 0) by (Z.div_mod_to_equations; nia).
  lia.
Qed.

(** Within the first page no ordinal opens a page. *)
Lemma no_boundary_within_capacity cols rows j :
  0 < cols -> 0 < rows -> Z.of_nat j < spec_capacity cols rows ->
  spec_page_break cols rows (Z.of_nat j) = false.
Proof.
  intros Hc Hr Hlt. unfold spec_page_break, spec_slot.
  destruct (Z.ltb_spec 0 (Z.of_nat j)); [|done]. cbn.
  rewrite Z.mod_small by lia. apply Z.eqb_neq. lia.
Qed.

(** The layout loop from ordinal [k] on, when every label that opens a
    page has an image: each caption is on the page of its ordinal, and the
    page breaks are those of the ordinals passed. *)
Lemma layout_loop_pages w (barcode_images : gmap string string) cw ch cols rows :
  0 < cols -> 0 < rows ->
  forall (numbers : list string) (k : nat) (ops : list canvas_op),
    (forall (j : nat) number,
       numbers !! j = Some number ->
       spec_page_break cols rows (Z.of_nat (k + j)) = true ->
       is_Some (barcode_images !! number)) ->
    layout_loop w barcode_images cw ch cols rows k numbers = Ok ops ->
    captions_from (spec_page_before cols rows k) ops =
      spec_captions w barcode_images cols rows k numbers /\
    (spec_page_before cols rows k + page_breaks ops)%nat =
      spec_page_before cols rows (k + length numbers).
Proof.
  intros Hc Hr.
  assert (cols <> 0) as Hc0 by lia. assert (rows <> 0) as Hr0 by lia.
  induction numbers as [|number rest IH]; intros k ops Hbound; cbn.
  - intros [= <-]. cbn. by rewrite !Nat.add_0_r.
  - assert (forall (j : nat) n, rest !! j = Some n ->
              spec_page_break cols rows (Z.of_nat (S k + j)) = true ->
              is_Some (barcode_images !! n)) as Hrest.
    { intros j n Hj Hb. apply (Hbound (S j)); [done|].
      by rewrite <- Nat.add_succ_comm. }
    pose proof (spec_page_step cols rows k Hc Hr) as Hstep.
    destruct (barcode_images !! number) as [path|] eqn:Hl.
    + rewrite (place_barcode_present _ _ _ _ _ _ _ _ _ Hc0 Hr0 Hl), bind_Ok.
      destruct (layout_loop _ _ _ _ _ _ (S k) rest) as [more|] eqn:Hmore; [|done].
      rewrite bind_Ok. intros [= <-].
      destruct (IH (S k) more Hrest Hmore) as [IHc IHp].
      rewrite bool_decide_eq_true_2 by (by eexists). cbn [andb].
      rewrite <- IHc, <- Nat.add_succ_comm, <- IHp, Hstep.
      rewrite <- (spec_page_before_S cols rows k), Hstep.
      rewrite !captions_from_app, !page_breaks_app.
      destruct (spec_page_break cols rows (Z.of_nat k)),
        (image_drawn w k number); cbn; rewrite ?Nat.add_0_r, ?Nat.add_1_r;
        split; (done || lia).
    + rewrite (place_barcode_missing _ _ _ _ _ _ _ _ Hl), bind_Ok.
      destruct (layout_loop _ _ _ _ _ _ (S k) rest) as [more|] eqn:Hmore; [|done].
      rewrite bind_Ok. intros [= <-]. cbn.
      destruct (IH (S k) more Hrest Hmore) as [IHc IHp].
      assert (spec_page_break cols rows (Z.of_nat k) = false) as Hnb.
      { destruct (spec_page_break cols rows (Z.of_nat k)) eqn:Hb; [|done].
        assert (is_Some (barcode_images !! number)) as [? Hsome]; [|congruence].
        apply (Hbound 0%nat); [done|]. by rewrite Nat.add_0_r. }
      rewrite Hnb, Nat.add_0_r in Hstep.
      rewrite <- IHc, <- Nat.add_succ_comm, <- IHp, Hstep. done.
Qed.

(** When every label that opens a page has an image, each caption drawn is
    on page [i div capacity] of its ordinal [i], and the number of page
    breaks is that of the page of the last label. *)
Theorem pages_follow_ordinals (w : world) (numbers : list string)
    (cols rows : Z) (ops : list canvas_op) :
  0 < cols -> 0 < rows ->
  (forall (j : nat) number,
     numbers !! j = Some number ->
     spec_page_break cols rows (Z.of_nat j) = true ->
     exists i : nat, numbers !! i = Some number /\ image_saved w i number = true) ->
  generate_pdf_from_numbers w numbers cols rows = Ok ops ->
  captions_from 0 ops =
    spec_captions w (generate_images w 0 numbers ∅) cols rows 0 numbers /\
  page_breaks ops = spec_page_before cols rows (length numbers).
Proof.
  intros Hc Hr Hbound. unfold generate_pdf_from_numbers.
  rewrite cell_size_ok, bind_Ok by lia. intros Hloop.
  destruct (layout_loop_pages w (generate_images w 0 numbers ∅)
              (available_width / inject_Z cols)%Q
              (available_height / inject_Z rows)%Q cols rows Hc Hr numbers 0 ops)
    as [Hcap Hbr]; [|exact Hloop|].
  - intros j number Hj Hb. destruct (Hbound j number Hj Hb) as (i & Hi & Hs).
    exists (barcode_file w number). by apply barcode_images_Some with (j := i).
  - rewrite spec_page_before_0 in Hcap, Hbr by done. done.
Qed.

Lemma spec_captions_lookup w (barcode_images : gmap string string) cols rows
    numbers (k j : nat) number :
  (forall (i : nat) n, numbers !! i = Some n ->
     is_Some (barcode_images !! n) /\ image_drawn w (k + i) n = true) ->
  numbers !! j = Some number ->
  spec_captions w barcode_images cols rows k numbers !! j =
    Some (Z.to_nat (spec_page cols rows (Z.of_nat (k + j))), number).
Proof.
  revert k j. induction numbers as [|n rest IH]; intros k j Hall Hj; [done|].
  cbn [spec_captions].
  destruct (Hall 0%nat n eq_refl) as [Hi Hd]. rewrite Nat.add_0_r in Hd.
  rewrite bool_decide_eq_true_2, Hd by done. cbn [andb app].
  destruct j as [|j]; cbn in Hj |- *.
  - injection Hj as <-. by rewrite Nat.add_0_r.
  - rewrite <- Nat.add_succ_comm. apply IH; [|done].
    intros i n' Hi'. rewrite Nat.add_succ_comm. by apply (Hall (S i)).
Qed.

(** X23.  In a world where every image is made and drawn, the label at ordinal
    [i] is captioned on page [i div capacity], and its image is drawn in
    row [(i mod capacity) div C] and column [(i mod capacity) mod C]. *)
Theorem pages_rows_and_columns_without_failure (w : world)
    (numbers : list string) (cols rows : Z) (i : nat) (number : string) :
  0 < cols -> 0 < rows ->
  (forall k data, image_saved w k data = true) ->
  (forall k data, image_drawn w k data = true) ->
  numbers !! i = Some number ->
  exists (ops : list canvas_op) (cell_width cell_height : Q),
    generate_pdf_from_numbers w numbers cols rows = Ok ops /\
    cell_size cols rows = Ok (cell_width, cell_height) /\
    captions_from 0 ops !! i =
      Some (Z.to_nat (spec_page cols rows (Z.of_nat i)), number) /\
    place_barcode w (generate_images w 0 numbers ∅) cell_width cell_height
        cols rows i number =
      Ok ((if spec_page_break cols rows (Z.of_nat i) then [showPage] else []) ++
          draw_barcode cell_width cell_height
            (spec_row cols rows (Z.of_nat i)) (spec_col cols rows (Z.of_nat i))
            (barcode_file w number) number).
Proof.
  intros Hc Hr Hs Hd Hi.
  assert (cols <> 0) as Hc0 by lia. assert (rows <> 0) as Hr0 by lia.
  assert (forall (j : nat) n, numbers !! j = Some n ->
            generate_images w 0 numbers ∅ !! n = Some (barcode_file w n)) as Himg.
  { intros j n Hj. by apply barcode_images_Some with (j := j). }
  destruct (layout_loop_total w (generate_images w 0 numbers ∅)
              (available_width / inject_Z cols)%Q
              (available_height / inject_Z rows)%Q cols rows 0 numbers Hc0 Hr0)
    as [ops Hops].
  assert (generate_pdf_from_numbers w numbers cols rows = Ok ops) as Hgen.
  { unfold generate_pdf_from_numbers. by rewrite cell_size_ok, bind_Ok. }
  exists ops. eexists _, _.
  split; [done|]. split; [by apply cell_size_ok|]. split.
  - destruct (pages_follow_ordinals w numbers cols rows ops Hc Hr) as [-> _];
      [|done|].
    + intros j n Hj _. exists j. by rewrite Hs.
    + apply (spec_captions_lookup _ _ _ _ _ 0 i); [|done].
      intros j n Hj. rewrite (Himg j n Hj), Hd. split; [by eexists|done].
  - rewrite (place_barcode_present _ _ _ _ _ _ _ _ _ Hc0 Hr0 (Himg i number Hi)).
    by rewrite Hd.
Qed.

Lemma label_32_opens_page_1 :
  (0 < 4 /\ 0 < 8 /\
   (forall k data, image_saved calm_world k data = true) /\
   (forall k data, image_drawn calm_world k data = true) /\
   labels_upto 35 !! 32%nat = Some "33") /\
  exists (ops : list canvas_op) (cell_width cell_height : Q),
    generate_pdf_from_numbers calm_world (labels_upto 35) 4 8 = Ok ops /\
    cell_size 4 8 = Ok (cell_width, cell_height) /\
    captions_from 0 ops !! 32%nat = Some (1%nat, "33") /\
    place_barcode calm_world (generate_images calm_world 0 (labels_upto 35) ∅)
        cell_width cell_height 4 8 32 "33" =
      Ok (showPage :: draw_barcode cell_width cell_height 0 0
                        (barcode_file calm_world "33") "33").
Proof.
  split; [repeat split; (lia || reflexivity)|].
  destruct (pages_rows_and_columns_without_failure calm_world (labels_upto 35)
              4 8 32 "33") as (ops & cw & ch & Hgen & Hcell & Hcap & Hplace);
    [lia|lia|reflexivity|reflexivity|vm_compute; reflexivity|].
  exists ops, cw, ch.
  split; [exact Hgen|]. split; [exact Hcell|]. split; [exact Hcap|].
  exact Hplace.
Defined.

Lemma captions_on_one_page ops p :
  page_breaks ops = 0%nat -> Forall (fun c => c.1 = p) (captions_from p ops).
Proof.
  induction ops as [|op ops IH]; intros Hz; cbn; [done|].
  destruct op; cbn in Hz; try done; try (by apply IH).
  constructor; [done|]. by apply IH.
Qed.

(** X24.  With no more labels than one page holds, no page break is made,
    whatever images are missing: all captions are on page 0. *)
Theorem no_page_break_within_capacity (w : world) (numbers : list string)
    (cols rows : Z) :
  0 < cols -> 0 < rows ->
  Z.of_nat (length numbers) <= spec_capacity cols rows ->
  exists ops : list canvas_op,
    generate_pdf_from_numbers w numbers cols rows = Ok ops /\
    page_breaks ops = 0%nat /\
    Forall (fun c => c.1 = 0%nat) (captions_from 0 ops).
Proof.
  intros Hc Hr Hn.
  assert (cols <> 0) as Hc0 by lia. assert (rows <> 0) as Hr0 by lia.
  destruct (layout_loop_total w (generate_images w 0 numbers ∅)
              (available_width / inject_Z cols)%Q
              (available_height / inject_Z rows)%Q cols rows 0 numbers Hc0 Hr0)
    as [ops Hops].
  exists ops. unfold generate_pdf_from_numbers.
  rewrite cell_size_ok, bind_Ok by done. split; [done|].
  destruct (layout_loop_pages w (generate_images w 0 numbers ∅)
              (available_width / inject_Z cols)%Q
              (available_height / inject_Z rows)%Q cols rows Hc Hr numbers 0 ops)
    as [_ Hbr]; [|exact Hops|].
  { intros j number Hj Hb. apply lookup_lt_Some in Hj.
    rewrite no_boundary_within_capacity in Hb by (cbn; lia). done. }
  assert (page_breaks ops = 0%nat) as Hzero.
  { assert (spec_page_before cols rows (0 + length numbers) = 0%nat) as Hlast;
      [|lia].
    unfold spec_page_before.
    assert ((Z.of_nat (0 + length numbers) - 1) / spec_capacity cols rows <= 0);
      [|lia].
    assert (0 < spec_capacity cols rows) by (unfold spec_capacity; nia).
    cbn [Nat.add]. Z.div_mod_to_equations. nia. }
  split; [done|]. by apply captions_on_one_page.
Qed.

(** No labels: an empty canvas, and no error. *)
Lemma empty_labels_empty_canvas w cols rows :
  cols <> 0 -> rows <> 0 -> generate_pdf_from_numbers w [] cols rows = Ok [].
Proof.
  intros Hc Hr. unfold generate_pdf_from_numbers.
  by rewrite cell_size_ok, bind_Ok.
Qed.

(** ** The twin of eg.py *)

Lemma captions_length_page ops q r :
  length (captions_from q ops) = length (captions_from r ops).
Proof.
  revert q r. induction ops as [|op ops IH]; intros q r; cbn; [done|].
  destruct op; cbn; auto.
Qed.

(** The loop of eg.py makes the canvas calls of the loop of barcode_app.py;
    it counts the captions drawn and the pages opened. *)
Lemma eg_layout_loop_twin w (barcode_images : gmap string string) cw ch cols rows
    numbers k st :
  eg.layout_loop w barcode_images cw ch cols rows k numbers st =
  match layout_loop w barcode_images cw ch cols rows k numbers with
  | Ok ops =>
      Ok {| eg.pdf := eg.pdf st ++ ops;
            eg.barcode_count :=
              eg.barcode_count st + Z.of_nat (length (captions_from 0 ops));
            eg.page_num := eg.page_num st + Z.of_nat (page_breaks ops) |}
  | Raise e => Raise e
  end.
Proof.
  revert k st. induction numbers as [|number rest IH]; intros k st.
  - destruct st. cbn. rewrite app_nil_r. do 2 f_equal; lia.
  - cbn [eg.layout_loop layout_loop]. unfold place_barcode, grid_slot.
    destruct (barcode_images !! number) as [path|].
    + destruct (py_mod (Z.of_nat k) (cols * rows)) as [slot|]; [|done].
      rewrite !bind_Ok.
      destruct (py_floordiv slot cols) as [row|]; [|done]. rewrite !bind_Ok.
      destruct (py_mod slot cols) as [col|]; [|done]. rewrite !bind_Ok.
      destruct ((0 <? Z.of_nat k) && (slot =? 0)), (image_drawn w k number);
        cbn; rewrite IH;
        destruct (layout_loop _ _ _ _ _ _ (S k) rest) as [more|]; cbn;
        try done; rewrite <- ?app_assoc; cbn; do 2 f_equal;
        rewrite ?(captions_length_page more 1 0); lia.
    + cbn. rewrite IH.
      by destruct (layout_loop _ _ _ _ _ _ (S k) rest).
Qed.

(** [generate_pdf_from_excel] writes the document [generate_pdf_from_numbers]
    returns for the labels of the sheet, and reports one page more than
    there are page breaks. *)
Theorem generate_pdf_from_excel_twin {value : Type} (py_int : value -> option Z)
    (w : world) (ws : worksheet value) (cols rows : Z) :
  extract_numbers py_int ws <> [] ->
  eg.generate_pdf_from_excel py_int w (Some ws) cols rows =
  match generate_pdf_from_numbers w (extract_numbers py_int ws) cols rows with
  | Ok ops =>
      Ok (Some {| eg.pdf := ops;
                  eg.barcode_count := Z.of_nat (length (captions_from 0 ops));
                  eg.page_num := 1 + Z.of_nat (page_breaks ops) |})
  | Raise e => Raise e
  end.
Proof.
  intros Hne. unfold eg.generate_pdf_from_excel, generate_pdf_from_numbers.
  destruct (extract_numbers py_int ws) as [|number rest] eqn:Hnum; [done|].
  destruct (cell_size cols rows) as [[cw ch]|e]; [|done].
  rewrite !bind_Ok, eg_layout_loop_twin.
  by destruct (layout_loop _ _ _ _ _ _ 0 (number :: rest)).
Qed.

Lemma spec_page_count_before cols rows (n : nat) :
  0 < cols -> 0 < rows -> (0 < n)%nat ->
  1 + Z.of_nat (spec_page_before cols rows n) =
  spec_page_count cols rows (Z.of_nat n).
Proof.
  intros Hc Hr Hn. unfold spec_page_before, spec_page_count.
  assert (0 < spec_capacity cols rows) as Hcap by (unfold spec_capacity; nia).
  generalize dependent (spec_capacity cols rows). intros cap Hcap.
  assert (0 <= (Z.of_nat n - 1) / cap) by (Z.div_mod_to_equations; nia).
  rewrite Z2Nat.id by done.
  replace (Z.of_nat n + cap - 1) with (Z.of_nat n - 1 + 1 * cap) by lia.
  rewrite Z.div_add by lia. lia.
Qed.

(** X25.  When every label that opens a page has an image, the pages opened
    for [n >= 1] labels are ceil(n / capacity): the count eg.py reports. *)
Theorem page_count_when_boundary_images_exist {value : Type}
    (py_int : value -> option Z) (w : world) (ws : worksheet value)
    (cols rows : Z) :
  let numbers := extract_numbers py_int ws in
  0 < cols -> 0 < rows -> numbers <> [] ->
  (forall (j : nat) number,
     numbers !! j = Some number ->
     spec_page_break cols rows (Z.of_nat j) = true ->
     exists i : nat, numbers !! i = Some number /\ image_saved w i number = true) ->
  exists report : eg.pdf_report,
    eg.generate_pdf_from_excel py_int w (Some ws) cols rows = Ok (Some report) /\
    generate_pdf_from_numbers w numbers cols rows = Ok (eg.pdf report) /\
    eg.page_num report = spec_page_count cols rows (Z.of_nat (length numbers)).
Proof.
  intros numbers Hc Hr Hne Hbound.
  assert (cols <> 0) as Hc0 by lia. assert (rows <> 0) as Hr0 by lia.
  destruct (layout_loop_total w (generate_images w 0 numbers ∅)
              (available_width / inject_Z cols)%Q
              (available_height / inject_Z rows)%Q cols rows 0 numbers Hc0 Hr0)
    as [ops Hops].
  assert (generate_pdf_from_numbers w numbers cols rows = Ok ops) as Hgen.
  { unfold generate_pdf_from_numbers. by rewrite cell_size_ok, bind_Ok. }
  rewrite (generate_pdf_from_excel_twin py_int w ws cols rows Hne).
  fold numbers. rewrite Hgen. eexists. split; [done|]. split; [done|]. cbn.
  destruct (pages_follow_ordinals w numbers cols rows ops Hc Hr Hbound Hgen)
    as [_ ->].
  apply spec_page_count_before; [done..|].
  destruct numbers; [done|cbn; lia].
Qed.

(** ** The grid and the page *)

Lemma inject_Z_le a b : a <= b -> (inject_Z a <= inject_Z b)%Q.
Proof. intros H. by rewrite <- Zle_Qle. Qed.

Lemma available_area_positive :
  (0 < available_width)%Q /\ (0 < available_height)%Q /\
  (0.05 * available_height < margin_y)%Q /\
  (margin_y < 0.1 * available_height)%Q /\ (0 < margin_x - 15)%Q.
Proof. by vm_compute. Qed.

Lemma spec_row_col_bounds cols rows idx :
  0 < cols -> 0 < rows ->
  0 <= spec_row cols rows idx < rows /\ 0 <= spec_col cols rows idx < cols.
Proof.
  intros Hc Hr. unfold spec_row, spec_col, spec_slot, spec_capacity.
  assert (0 <= idx mod (cols * rows) < cols * rows) as Hslot
    by (apply Z.mod_pos_bound; nia).
  split; [split|by apply Z.mod_pos_bound].
  - apply Z.div_pos; lia.
  - apply Z.div_lt_upper_bound; lia.
Qed.

(** X1.  On a grid with at least one column and one row, the row and the
    column computed for a label are inside the grid, and together with
    [idx div capacity], the number of the block of [capacity] consecutive
    ordinals the label is in, they give the ordinal back: two labels of
    one block never get the same row and column.  (The blocks are the
    pages of the document when no page break is lost.) *)
Theorem cell_determines_ordinal (cols rows i j row col : Z) (b1 b2 : bool) :
  1 <= cols -> 1 <= rows ->
  grid_slot cols rows i = Ok (row, col, b1) ->
  grid_slot cols rows j = Ok (row, col, b2) ->
  i / (cols * rows) = j / (cols * rows) ->
  0 <= row < rows /\ 0 <= col < cols /\
  i = (i / (cols * rows)) * (cols * rows) + row * cols + col /\
  i = j.
Proof.
  intros Hc Hr Hi Hj Hpage.
  rewrite grid_slot_spec in Hi, Hj by lia.
  injection Hi as Hri Hci _. injection Hj as Hrj Hcj _.
  destruct (spec_row_col_bounds cols rows i) as [Hrb Hcb]; [lia..|].
  rewrite Hri in Hrb. rewrite Hci in Hcb.
  assert (forall k, k = (k / (cols * rows)) * (cols * rows)
                        + spec_row cols rows k * cols + spec_col cols rows k)
    as Hdecomp.
  { intros k. unfold spec_row, spec_col, spec_slot, spec_capacity.
    pose proof (Z.div_mod k (cols * rows) ltac:(nia)).
    pose proof (Z.div_mod (k mod (cols * rows)) cols ltac:(lia)). lia. }
  split; [done|]. split; [done|].
  pose proof (Hdecomp i) as Hdi. pose proof (Hdecomp j) as Hdj.
  rewrite Hri, Hci in Hdi. rewrite Hrj, Hcj, <- Hpage in Hdj.
  split; [done|]. congruence.
Qed.

Lemma cell_determines_ordinal_sample :
  (1 <= 4 /\ 1 <= 8 /\
   grid_slot 4 8 38 = Ok (1, 2, false) /\ 38 / (4 * 8) = 38 / (4 * 8)) /\
  38 = (38 / (4 * 8)) * (4 * 8) + 1 * 4 + 2.
Proof.
  split; [repeat split; (lia || reflexivity)|].
  destruct (cell_determines_ordinal 4 8 38 38 1 2 false false)
    as (_ & _ & Hdecomp & _); [lia|lia|reflexivity|reflexivity|reflexivity|].
  exact Hdecomp.
Defined.

(** X2.  On a grid with at least one column and one row every image lies
    inside the printable area, between the margins, and the caption starts
    on the page, to the right of its left edge and under the image.  The
    caption baseline is above the lower edge of the page exactly when the
    grid has two rows or more: with a single row the caption falls off
    the page. *)
Theorem image_inside_printable_area (cols rows idx : Z) :
  1 <= cols -> 1 <= rows ->
  exists (cell_width cell_height : Q) (row col : Z) (page_break : bool),
    cell_size cols rows = Ok (cell_width, cell_height) /\
    grid_slot cols rows idx = Ok (row, col, page_break) /\
    (margin_x < image_x cell_width col)%Q /\
    (image_x cell_width col + barcode_width cell_width
       < page_width - margin_x)%Q /\
    (margin_y < image_y cell_height row)%Q /\
    (image_y cell_height row + barcode_height cell_height
       < page_height - margin_y)%Q /\
    (0 < text_x cell_width col)%Q /\
    (text_y cell_height row < image_y cell_height row)%Q /\
    ((0 < text_y cell_height row)%Q <-> 2 <= rows).
Proof.
  intros Hc Hr.
  exists (available_width / inject_Z cols)%Q, (available_height / inject_Z rows)%Q,
    (spec_row cols rows idx), (spec_col cols rows idx),
    (spec_page_break cols rows idx).
  split; [apply cell_size_ok; lia|]. split; [apply grid_slot_spec; lia|].
  destruct (spec_row_col_bounds cols rows idx) as [Hrow Hcol]; [lia..|].
  generalize dependent (spec_row cols rows idx).
  generalize dependent (spec_col cols rows idx). intros col Hcol row Hrow.
  set (cw := (available_width / inject_Z cols)%Q).
  set (ch := (available_height / inject_Z rows)%Q).
  assert (cw * inject_Z cols == available_width)%Q as Hcw.
  { unfold cw. field. intros H. apply (inject_Z_injective cols 0) in H. lia. }
  assert (ch * inject_Z rows == available_height)%Q as Hch.
  { unfold ch. field. intros H. apply (inject_Z_injective rows 0) in H. lia. }
  destruct available_area_positive as (Haw & Hah & Hmy & Hmy' & Hmx).
  assert (available_width == page_width - 2 * margin_x)%Q as Hw by reflexivity.
  assert (available_height == page_height - 2 * margin_y)%Q as Hh by reflexivity.
  pose proof (inject_Z_le 1 cols Hc) as Hc1.
  pose proof (inject_Z_le 1 rows Hr) as Hr1.
  pose proof (inject_Z_le (col + 1) cols ltac:(lia)) as Hc2.
  pose proof (inject_Z_le (row + 1) rows ltac:(lia)) as Hr2.
  pose proof (inject_Z_le 0 col ltac:(lia)) as Hc3.
  pose proof (inject_Z_le 0 row ltac:(lia)) as Hr3.
  assert (inject_Z (col + 1) == inject_Z col + 1)%Q as Hc4
    by (by rewrite inject_Z_plus).
  assert (inject_Z (row + 1) == inject_Z row + 1)%Q as Hr4
    by (by rewrite inject_Z_plus).
  assert (2 <= rows -> (2 <= inject_Z rows)%Q) as Hr5
    by (intros H2; apply (inject_Z_le 2 rows H2)).
  assert (rows = 1 -> (inject_Z rows == 1)%Q) as Hr6 by (by intros ->).
  unfold text_x, text_y, image_x, image_y, barcode_width, barcode_height.
  change (inject_Z 1) with 1%Q in *. change (inject_Z 0) with 0%Q in *.
  remember (inject_Z rows) as qrows eqn:E1. clear E1.
  remember (inject_Z cols) as qcols eqn:E2. clear E2.
  remember (inject_Z (row + 1)) as qrow1 eqn:E3. clear E3.
  remember (inject_Z (col + 1)) as qcol1 eqn:E4. clear E4.
  remember (inject_Z row) as qrow eqn:E5. clear E5.
  remember (inject_Z col) as qcol eqn:E6. clear E6.
  clearbody cw ch.
  assert (0 < cw)%Q by nra. assert (0 < ch)%Q by nra.
  repeat split; try nra.
  - assert (0 <= qcol * cw)%Q by nra.
    assert (cw * 0.9 / 2 == cw * 0.45)%Q as -> by field. lra.
  - intros Hpos. destruct (Z.le_gt_cases 2 rows) as [|Hone]; [done|].
    assert (rows = 1) as Hrows by lia. specialize (Hr6 Hrows). exfalso.
    assert (qrow1 == 1)%Q as Hone1 by lra. rewrite Hone1 in Hpos.
    assert (ch == available_height)%Q as Hch1 by (rewrite <- Hch, Hr6; ring).
    rewrite Hch1 in Hpos. lra.
  - intros H2. specialize (Hr5 H2). nra.
Qed.

Lemma image_inside_printable_area_single_row :
  (1 <= 4 /\ 1 <= 1) /\
  exists cell_width cell_height : Q,
    cell_size 4 1 = Ok (cell_width, cell_height) /\
    (margin_y < image_y cell_height 0)%Q /\
    ~ (0 < text_y cell_height 0)%Q.
Proof.
  split; [lia|].
  destruct (image_inside_printable_area 4 1 2)
    as (cw & ch & row & col & brk & Hcell & Hslot & _ & _ & Hy & _ & _ & _ & Hty);
    [lia|lia|].
  injection Hslot as <- _ _.
  exists cw, ch. split; [exact Hcell|]. split; [exact Hy|].
  intros Hpos. apply Hty in Hpos. lia.
Defined.

(** ** What is drawn and what is reported *)

(** X3.  [barcode_images] is keyed by the label: when one occurrence of a
    label has its image made, every occurrence of that label is drawn with
    that image, also the occurrences whose own image could not be made. *)
Theorem one_image_serves_every_occurrence (w : world) (numbers : list string)
    (cols rows : Z) (cw ch : Q) (i j : nat) (number : string) :
  cols <> 0 -> rows <> 0 ->
  numbers !! i = Some number -> image_saved w i number = true ->
  numbers !! j = Some number -> image_drawn w j number = true ->
  place_barcode w (generate_images w 0 numbers ∅) cw ch cols rows j number =
    Ok ((if spec_page_break cols rows (Z.of_nat j) then [showPage] else []) ++
        draw_barcode cw ch (spec_row cols rows (Z.of_nat j))
          (spec_col cols rows (Z.of_nat j)) (barcode_file w number) number).
Proof.
  intros Hc Hr Hi Hs Hj Hd.
  rewrite (place_barcode_present _ _ _ _ _ _ _ _ (barcode_file w number) Hc Hr).
  - by rewrite Hd.
  - by apply barcode_images_Some with (j := i).
Qed.

Lemma one_image_serves_every_occurrence_sample :
  (2 <> 0 /\ 1 <> 0 /\
   ["7"; "8"; "7"] !! 0%nat = Some "7" /\ image_saved flaky_world 0 "7" = true /\
   ["7"; "8"; "7"] !! 2%nat = Some "7" /\ image_drawn flaky_world 2 "7" = true) /\
  image_saved flaky_world 2 "7" = false /\
  place_barcode flaky_world (generate_images flaky_world 0 ["7"; "8"; "7"] ∅)
      0 0 2 1 2 "7" =
    Ok (showPage :: draw_barcode 0 0 0 0 (barcode_file flaky_world "7") "7").
Proof.
  split; [repeat split; (lia || reflexivity)|]. split; [reflexivity|].
  exact (one_image_serves_every_occurrence flaky_world ["7"; "8"; "7"] 2 1
           0 0 0 2 "7" ltac:(lia) ltac:(lia) eq_refl eq_refl eq_refl eq_refl).
Defined.

Lemma spec_captions_length_le w (barcode_images : gmap string string) cols rows
    k numbers :
  (length (spec_captions w barcode_images cols rows k numbers) <= length numbers)%nat.
Proof.
  revert k. induction numbers as [|number rest IH]; intros k; cbn; [done|].
  specialize (IH (S k)). rewrite length_app.
  destruct (_ && _); cbn; lia.
Qed.

(** The captions drawn are those of the labels that have an image and are
    drawn, whatever pages they land on. *)
Lemma layout_loop_caption_count w (barcode_images : gmap string string)
    cw ch cols rows numbers k ops :
  layout_loop w barcode_images cw ch cols rows k numbers = Ok ops ->
  length (captions_from 0 ops) =
  length (spec_captions w barcode_images cols rows k numbers).
Proof.
  revert k ops. induction numbers as [|number rest IH]; intros k ops; cbn.
  - by intros [= <-].
  - unfold place_barcode.
    destruct (barcode_images !! number) as [path|].
    + destruct (grid_slot cols rows (Z.of_nat k)) as [[[row col] brk]|]; [|done].
      rewrite !bind_Ok.
      destruct (layout_loop _ _ _ _ _ _ (S k) rest) as [more|] eqn:Hmore; [|done].
      rewrite bind_Ok. intros [= <-].
      rewrite bool_decide_eq_true_2 by (by eexists). cbn [andb].
      rewrite captions_from_app, !length_app, <- (IH (S k) more Hmore).
      rewrite (captions_length_page more _ 0), captions_from_app, length_app.
      destruct brk, (image_drawn w k number); cbn; lia.
    + rewrite bind_Ok.
      destruct (layout_loop _ _ _ _ _ _ (S k) rest) as [more|] eqn:Hmore; [|done].
      rewrite bind_Ok. intros [= <-]. cbn. by apply IH.
Qed.

Lemma generate_pdf_zero_grid w numbers cols rows :
  cols = 0 \/ rows = 0 ->
  generate_pdf_from_numbers w numbers cols rows = Raise ZeroDivisionError.
Proof.
  intros Hz. unfold generate_pdf_from_numbers. by rewrite (cell_size_zero _ _ Hz).
Qed.

Section pdf_api_facts.
Context {value : Type}.
Variable py_int : value -> option Z.

(** X4.  A successful answer of [generate_pdf_api] means that the file
    exists, that its sheet holds at least one label and that the grid has
    columns and rows.  The count it reports, barcodesInPDF, is the number
    of labels read from the sheet, not the number of labels drawn: the
    captions drawn are at most as many. *)
Theorem generate_pdf_api_success (w : world) (excel_source : string)
    (excel : option (worksheet value)) (cols rows : Z)
    (pdf : list canvas_op) (n : nat) :
  generate_pdf_api py_int w excel_source excel cols rows = pdf_success pdf n ->
  exists ws : worksheet value,
    excel = Some ws /\
    n = length (extract_numbers py_int ws) /\ (0 < n)%nat /\
    cols <> 0 /\ rows <> 0 /\
    generate_pdf_from_numbers w (extract_numbers py_int ws) cols rows = Ok pdf /\
    (length (captions_from 0 pdf) <= n)%nat.
Proof.
  unfold generate_pdf_api. destruct excel as [ws|]; [|done].
  destruct (extract_numbers py_int ws) as [|number rest] eqn:Hnum; [done|].
  destruct (generate_pdf_from_numbers w (number :: rest) cols rows)
    as [ops|e] eqn:Hgen; [|done].
  intros [= <- <-]. exists ws. rewrite Hnum.
  split; [done|]. split; [done|]. split; [cbn; lia|].
  assert (cols <> 0 /\ rows <> 0) as [Hc Hr].
  { split; intros ->; rewrite generate_pdf_zero_grid in Hgen by lia; done. }
  split; [done|]. split; [done|]. split; [done|].
  unfold generate_pdf_from_numbers in Hgen.
  rewrite cell_size_ok, bind_Ok in Hgen by done.
  rewrite (layout_loop_caption_count _ _ _ _ _ _ _ _ _ Hgen).
  apply spec_captions_length_le.
Qed.
End pdf_api_facts.

Lemma generate_pdf_api_success_sample :
  exists pdf : list canvas_op,
    generate_pdf_api sample_int flaky_world "four.xlsx" (Some four_rows) 2 1
      = pdf_success pdf 4 /\
    (length (captions_from 0 pdf) <= 4)%nat /\
    length (captions_from 0 pdf) = 3%nat.
Proof.
  eexists. split; [reflexivity|]. split.
  - destruct (generate_pdf_api_success sample_int flaky_world "four.xlsx"
                (Some four_rows) 2 1 _ 4 eq_refl)
      as (ws & _ & _ & _ & _ & _ & _ & Hle).
    exact Hle.
  - vm_compute. reflexivity.
Defined.

Lemma no_page_break_within_capacity_sample :
  (0 < 4 /\ 0 < 8 /\
   Z.of_nat (length ["1"; "a/b"; "3"]) <= spec_capacity 4 8) /\
  exists ops : list canvas_op,
    generate_pdf_from_numbers slash_world ["1"; "a/b"; "3"] 4 8 = Ok ops /\
    page_breaks ops = 0%nat.
Proof.
  split; [repeat split; (lia || (vm_compute; discriminate))|].
  destruct (no_page_break_within_capacity slash_world ["1"; "a/b"; "3"] 4 8)
    as (ops & Hgen & Hbr & _); [lia|lia|vm_compute; discriminate|].
  exists ops. split; [exact Hgen|exact Hbr].
Defined.

Lemma page_count_of_four_rows :
  (0 < 2 /\ 0 < 1 /\ extract_numbers sample_int four_rows <> []) /\
  exists report : eg.pdf_report,
    eg.generate_pdf_from_excel sample_int calm_world (Some four_rows) 2 1
      = Ok (Some report) /\
    eg.page_num report = 2.
Proof.
  split; [repeat split; (lia || discriminate)|].
  destruct (page_count_when_boundary_images_exist sample_int calm_world
              four_rows 2 1) as (report & Heg & _ & Hpages);
    [lia|lia|discriminate|by intros j number Hj _; exists j|].
  exists report. split; [exact Heg|exact Hpages].
Defined.

Section front_ends.
Context {value : Type}.
Variable py_int : value -> option Z.

End front_ends.

(** ** The Code128 symbols of eg.py *)

Lemma code128_table_lookup (char : ascii) :
  default 0 (code128_table !! char) = code_by_number char.
Proof. destruct char as [[] [] [] [] [] [] [] []]; vm_compute; reflexivity. Qed.

Lemma code_by_number_bounds (char : ascii) : 0 <= code_by_number char <= 63.
Proof.
  unfold code_by_number.
  destruct (Z.leb_spec 32 (Z.of_nat (nat_of_ascii char)));
    destruct (Z.leb_spec (Z.of_nat (nat_of_ascii char)) 95); cbn; lia.
Qed.

Lemma encode_chars_closed (i : Z) (data : string) (encoded : list Z) (checksum : Z) :
  encode_chars i data encoded checksum =
    (encoded ++ codes_of data, checksum + weighted_sum i (codes_of data)).
Proof.
  revert i encoded checksum.
  induction data as [|char rest IH]; intros i encoded checksum; cbn.
  - by rewrite app_nil_r, Z.add_0_r.
  - rewrite IH, code128_table_lookup, <- app_assoc. cbn. f_equal.
    destruct (0 <? i); lia.
Qed.

Lemma codes_of_length data : length (codes_of data) = String.length data.
Proof. induction data; cbn; auto. Qed.

Lemma codes_of_bounds data : Forall (fun code => 0 <= code <= 63) (codes_of data).
Proof.
  induction data; cbn; constructor; [apply code_by_number_bounds|done].
Qed.

Lemma encode_code128_unfold (data : string) :
  encode_code128 data =
    codes_of data ++ [(104 + weighted_sum 0 (codes_of data)) mod 103; 106].
Proof. unfold encode_code128. by rewrite encode_chars_closed. Qed.

(** X6.  [encode_code128] returns the codes of the characters, then the
    check symbol, then the stop code 106: two symbols more than the data
    has characters, each between 0 and 106.  The code of a character is
    its number minus 32 from the space to the underscore and 0 otherwise,
    and the check symbol is 104 plus the codes weighted by position plus
    one, modulo 103. *)
Theorem encode_code128_closed_form (data : string) :
  encode_code128 data =
    codes_of data ++ [(104 + weighted_sum 0 (codes_of data)) mod 103; 106] /\
  length (encode_code128 data) = (String.length data + 2)%nat /\
  Forall (fun symbol => 0 <= symbol <= 106) (encode_code128 data) /\
  last (encode_code128 data) = Some 106.
Proof.
  rewrite encode_code128_unfold. split; [done|]. split; [|split].
  - rewrite length_app, codes_of_length. cbn. lia.
  - apply Forall_app. split.
    + eapply Forall_impl; [apply codes_of_bounds|]. cbn. lia.
    + pose proof (Z.mod_pos_bound (104 + weighted_sum 0 (codes_of data)) 103).
      repeat constructor; lia.
  - change [?cs; 106] with ([cs] ++ [106]). by rewrite app_assoc, last_snoc.
Qed.

(** X7.  The first character has no weight in the check symbol: two data
    that differ in their first character only are encoded with the same
    check symbol, and differ in their first symbol at most. *)
Theorem checksum_ignores_first_character (first other : ascii) (rest : string) :
  drop 1 (encode_code128 (String first rest)) =
  drop 1 (encode_code128 (String other rest)).
Proof.
  rewrite !encode_code128_unfold. cbn [codes_of weighted_sum app drop].
  reflexivity.
Qed.

Lemma in_table_by_number (char : ascii) :
  bool_decide (is_Some (code128_table !! char)) =
  (32 <=? Z.of_nat (nat_of_ascii char)) && (Z.of_nat (nat_of_ascii char) <=? 95).
Proof. destruct char as [[] [] [] [] [] [] [] []]; vm_compute; reflexivity. Qed.

Lemma blank_unknown_code (char : ascii) :
  code_by_number (blank_unknown char) = code_by_number char.
Proof. destruct char as [[] [] [] [] [] [] [] []]; vm_compute; reflexivity. Qed.

(** X8.  A character that is no key of the table (a lower-case letter, a
    control character, a character above the underscore) is encoded as a
    space is: the symbols of a datum are those of the datum with every such
    character replaced by a space. *)
Theorem unknown_characters_encode_as_space (data : string) :
  encode_code128 data = encode_code128 (blank_unknowns data).
Proof.
  rewrite !encode_code128_unfold.
  assert (codes_of (blank_unknowns data) = codes_of data) as ->; [|done].
  induction data as [|char rest IH]; cbn; [done|].
  by rewrite blank_unknown_code, IH.
Qed.

Lemma codes_of_inj (data1 data2 : string) :
  all_in_table data1 = true -> all_in_table data2 = true ->
  codes_of data1 = codes_of data2 -> data1 = data2.
Proof.
  revert data2. induction data1 as [|c1 rest1 IH]; intros [|c2 rest2]; cbn;
    try done.
  rewrite !in_table_by_number, !andb_true_iff, !Z.leb_le.
  intros [[Hlo1 Hhi1] Hrest1] [[Hlo2 Hhi2] Hrest2] [= Hcode Hcodes].
  f_equal; [|by apply IH].
  unfold code_by_number in Hcode.
  rewrite !(proj2 (Z.leb_le _ _)) in Hcode by done. cbn in Hcode.
  rewrite <- (ascii_nat_embedding c1), <- (ascii_nat_embedding c2).
  f_equal. lia.
Qed.

(** X9.  On data written with the characters of the table only, the
    encoding loses nothing: two such data with the same symbols are the
    same datum. *)
Theorem encode_code128_inj (data1 data2 : string) :
  all_in_table data1 = true -> all_in_table data2 = true ->
  encode_code128 data1 = encode_code128 data2 -> data1 = data2.
Proof.
  intros H1 H2. rewrite !encode_code128_unfold. intros Heq.
  apply app_inj_2 in Heq as [Hcodes _]; [|done].
  by apply codes_of_inj.
Qed.

Lemma encode_code128_inj_sample :
  (all_in_table "AB-12" = true /\ all_in_table "AB-12" = true /\
   encode_code128 "AB-12" = encode_code128 "AB-12") /\
  encode_code128 "AB-12" = [33; 34; 13; 17; 18; 60; 106] /\
  "AB-12" = "AB-12".
Proof.
  split; [repeat split; reflexivity|]. split; [reflexivity|].
  exact (encode_code128_inj "AB-12" "AB-12" eq_refl eq_refl eq_refl).
Defined.

(** ** Sheets written and read back *)

Lemma omap_ext_in {A B} (f g : A -> option B) (l : list A) :
  (forall x, x ∈ l -> f x = g x) -> omap f l = omap g l.
Proof.
  induction l as [|x l IH]; intros Hext; cbn; [done|].
  rewrite (Hext x) by left. rewrite IH; [done|].
  intros y Hy. apply Hext. by right.
Qed.

Lemma elem_of_py_range lo hi x : x ∈ py_range lo hi <-> lo <= x < hi.
Proof.
  unfold py_range. rewrite list_elem_of_fmap. split.
  - intros (k & -> & Hk). apply elem_of_seq in Hk. lia.
  - intros Hx. exists (Z.to_nat (x - lo)). split; [lia|].
    apply elem_of_seq. lia.
Qed.

Section workbook_facts.
Context {value : Type}.
Variable py_int : value -> option Z.
Variable of_int : Z -> value.
Variable of_str : string -> value.

(** [int] gives back the integer a cell was given. *)
Hypothesis py_int_of_int : forall n : Z, py_int (of_int n) = Some n.

Lemma read_ints_spec (ws : worksheet value) rows numbers :
  read_ints py_int ws rows numbers =
  numbers ++ omap (fun row => column_A ws !! row ≫= py_int) rows.
Proof.
  revert numbers. induction rows as [|row rest IH]; intros numbers; cbn.
  - by rewrite app_nil_r.
  - rewrite IH. destruct (column_A ws !! row) as [v|]; cbn; [|done].
    destruct (py_int v) as [n|]; cbn; [|done]. by rewrite <- app_assoc.
Qed.

Lemma extract_numbers_ints (ws : worksheet value) :
  extract_numbers py_int ws = py_str <$> extract_ints py_int ws.
Proof.
  unfold extract_numbers, extract_ints.
  rewrite read_numbers_spec, read_ints_spec. cbn.
  induction (py_range 2 (max_row ws + 1)) as [|row rest IH]; cbn; [done|].
  unfold spec_label_of_row at 1.
  destruct (column_A ws !! row) as [v|]; cbn; [|done].
  destruct (py_int v) as [n|]; cbn; [|done]. by rewrite IH.
Qed.

Lemma extract_ints_put_number (ws : worksheet value) (n : Z) :
  1 <= max_row ws ->
  extract_ints py_int (put_number of_int (max_row ws + 1) n ws) =
  extract_ints py_int ws ++ [n].
Proof.
  intros Hmax. unfold extract_ints. rewrite !read_ints_spec. cbn.
  replace (Z.max (max_row ws + 1) (max_row ws)) with (max_row ws + 1) by lia.
  rewrite (py_range_snoc 2 (max_row ws + 1)) by lia.
  rewrite omap_app. cbn [omap list_omap].
  rewrite lookup_insert_eq. cbn. rewrite py_int_of_int. f_equal.
  apply omap_ext_in. intros row Hrow. apply elem_of_py_range in Hrow.
  by rewrite lookup_insert_ne by lia.
Qed.

Lemma put_numbers_max_row (ws : worksheet value) row numbers :
  row = max_row ws + 1 ->
  max_row (put_numbers of_int row numbers ws) =
  max_row ws + Z.of_nat (length numbers).
Proof.
  revert row ws. induction numbers as [|n rest IH]; intros row ws ->; cbn.
  - lia.
  - rewrite IH; cbn; lia.
Qed.

Lemma extract_ints_put_numbers (ws : worksheet value) numbers :
  1 <= max_row ws ->
  extract_ints py_int (put_numbers of_int (max_row ws + 1) numbers ws) =
  extract_ints py_int ws ++ numbers.
Proof.
  revert ws. induction numbers as [|n rest IH]; intros ws Hmax; cbn.
  - by rewrite app_nil_r.
  - pose proof (IH (put_number of_int (max_row ws + 1) n ws)) as IH'.
    cbn in IH'.
    replace (Z.max (max_row ws + 1) (max_row ws)) with (max_row ws + 1)
      in IH' by lia.
    rewrite IH' by lia. rewrite extract_ints_put_number by done.
    by rewrite <- app_assoc.
Qed.

Lemma sheet_of_barcode_cells outcome row number (wb : workbook value) :
  sheet_of (barcode_cells of_str outcome row number
              (write_cell col_A row (of_int number) wb)).1 =
  put_number of_int row number (sheet_of wb).
Proof.
  unfold sheet_of, put_number. destruct outcome; cbn; f_equal; lia.
Qed.

Lemma sheet_of_eg_barcode_cells outcome row number (wb : workbook value) :
  sheet_of (eg_barcode_cells of_str outcome row number
              (write_cell col_A row (of_int number) wb)) =
  put_number of_int row number (sheet_of wb).
Proof.
  unfold sheet_of, put_number. destruct outcome; cbn; f_equal; lia.
Qed.

Lemma sheet_of_fill_rows barcode k numbers (wb : workbook value) :
  sheet_of (fill_rows of_int of_str barcode k numbers wb) =
  put_numbers of_int (2 + Z.of_nat k) numbers (sheet_of wb).
Proof.
  revert k wb. induction numbers as [|n rest IH]; intros k wb; cbn; [done|].
  rewrite IH, sheet_of_barcode_cells. f_equal. lia.
Qed.

Lemma sheet_of_eg_fill_rows barcode k numbers (wb : workbook value) :
  sheet_of (eg_fill_rows of_int of_str barcode k numbers wb) =
  put_numbers of_int (2 + Z.of_nat k) numbers (sheet_of wb).
Proof.
  revert k wb. induction numbers as [|n rest IH]; intros k wb; cbn; [done|].
  rewrite IH, sheet_of_eg_barcode_cells. f_equal. lia.
Qed.

Lemma extract_ints_headers :
  extract_ints py_int (sheet_of (with_headers of_str new_workbook)) = [] /\
  max_row (sheet_of (with_headers of_str (new_workbook (value := value)))) = 1.
Proof. split; reflexivity. Qed.

Lemma create_excel_sheet (barcode : nat -> Z -> image_outcome)
    (numbers : list Z) :
  sheet_of (create_excel_with_barcodes of_int of_str barcode numbers) =
    put_numbers of_int 2 numbers (sheet_of (with_headers of_str new_workbook)) /\
  extract_ints py_int
    (sheet_of (create_excel_with_barcodes of_int of_str barcode numbers))
    = numbers.
Proof.
  unfold create_excel_with_barcodes. rewrite sheet_of_fill_rows.
  split; [done|]. destruct extract_ints_headers as [Hints Hmax].
  change (2 + Z.of_nat 0) with
    (max_row (sheet_of (with_headers of_str (new_workbook (value := value)))) + 1).
  rewrite extract_ints_put_numbers by (rewrite Hmax; lia).
  by rewrite Hints.
Qed.

(** X10.  A sheet written by [create_excel_with_barcodes], or by
    [generate_barcodes_excel] of eg.py, reads back as the numbers it was
    given, in order, whatever happened to the pictures: the readers of
    column A find the integers, the PDF generator their string forms, and
    [max_row] is the header row plus one row per number. *)
Theorem created_sheet_reads_back (barcode : nat -> Z -> image_outcome)
    (numbers : list Z) :
  let wb := create_excel_with_barcodes of_int of_str barcode numbers in
  let wb' := generate_barcodes_excel of_int of_str barcode numbers in
  extract_ints py_int (sheet_of wb) = numbers /\
  extract_numbers py_int (sheet_of wb) = py_str <$> numbers /\
  wb_max_row wb = 1 + Z.of_nat (length numbers) /\
  sheet_of wb' = sheet_of wb.
Proof.
  cbn zeta. destruct (create_excel_sheet barcode numbers) as [Hsheet Hints].
  rewrite extract_numbers_ints, Hints.
  split; [done|]. split; [done|]. split.
  - change (wb_max_row ?wb) with (max_row (sheet_of wb)).
    rewrite Hsheet, put_numbers_max_row by done. cbn. lia.
  - unfold generate_barcodes_excel. by rewrite sheet_of_eg_fill_rows, Hsheet.
Qed.

Lemma sheet_of_append_rows barcode start next (n : nat) :
  forall (a : Z) (wb : workbook value) (added : Z),
    sheet_of (append_rows of_int of_str barcode start next
                (py_range a (a + Z.of_nat n)) wb added).1 =
    put_numbers of_int (next + a)
      ((fun i => start + i) <$> py_range a (a + Z.of_nat n)) (sheet_of wb).
Proof.
  induction n as [|n IH]; intros a wb added.
  - assert (py_range a (a + Z.of_nat 0) = []) as ->; [|done].
    unfold py_range. by replace (a + Z.of_nat 0 - a) with 0 by lia.
  - rewrite py_range_cons by lia. cbn [append_rows fmap list_fmap put_numbers].
    pose proof (sheet_of_barcode_cells (barcode (Z.to_nat a) (start + a))
                  (next + a) (start + a) wb) as Hstep.
    destruct (barcode_cells of_str (barcode (Z.to_nat a) (start + a))
                (next + a) (start + a)
                (write_cell col_A (next + a) (of_int (start + a)) wb))
      as [wb1 flag]. cbn in Hstep.
    replace (a + Z.of_nat (S n)) with (a + 1 + Z.of_nat n) by lia.
    rewrite IH, Hstep. f_equal. lia.
Qed.

Lemma append_rows_added barcode start next indices (wb : workbook value) added :
  added <= (append_rows of_int of_str barcode start next indices wb added).2
        <= added + Z.of_nat (length indices).
Proof.
  revert wb added. induction indices as [|i rest IH]; intros wb added; cbn.
  - lia.
  - destruct (barcode_cells _ _ _ _ _) as [wb1 [|]].
    + specialize (IH wb1 (added + 1)). lia.
    + specialize (IH wb1 added). lia.
Qed.

(** The rows outside of those the loop writes keep their cells and their
    pictures. *)
Lemma append_rows_elsewhere barcode start next indices (wb : workbook value)
    added (r : Z) :
  (forall i, i ∈ indices -> next + i <> r) ->
  let wb' := (append_rows of_int of_str barcode start next indices wb added).1 in
  cells_A wb' !! r = cells_A wb !! r /\ cells_B wb' !! r = cells_B wb !! r /\
  cells_C wb' !! r = cells_C wb !! r /\
  filter (fun p => p.1 = r) (pictures wb') = filter (fun p => p.1 = r) (pictures wb).
Proof.
  revert wb added. induction indices as [|i rest IH]; intros wb added Hne; cbn.
  - done.
  - assert (next + i <> r) as Hi by (apply Hne; left).
    assert (forall j, j ∈ rest -> next + j <> r) as Hrest
      by (intros j Hj; apply Hne; by right).
    destruct (barcode (Z.to_nat i) (start + i)) as [| |message]; cbn;
      match goal with
      | |- context [append_rows _ _ _ _ _ _ ?w ?a] =>
          destruct (IH w a Hrest) as (HA & HB & HC & HP)
      end;
      rewrite HA, HB, HC, HP; cbn; rewrite ?lookup_insert_ne by done;
      rewrite ?filter_app, ?filter_cons_False, ?filter_nil, ?app_nil_r by done;
      done.
Qed.
End workbook_facts.

(** ** Updating a sheet *)

Section update_facts.
Context {value : Type}.
Variable py_int : value -> option Z.
Variable of_int : Z -> value.
Variable of_str : string -> value.
Variable resolve : string -> string.
Hypothesis py_int_of_int : forall n : Z, py_int (of_int n) = Some n.

(** X11.  [update_excel_api] appends.  Let [int] read back every integer
    written to a cell.  On a file that is a workbook, when the messages
    are printed, the temporary directory is made and the save ends, the
    file is replaced by the workbook with the new rows, whatever the
    answer: a success with the
    range of the new numbers when the temporary directory is removed, a
    500 when it is not.  The stored sheet reads back as the numbers it
    held followed by the [count] consecutive numbers from [newStartNum]
    on; no row the sheet had is touched, in any column, nor its pictures;
    [max_row] grows by [count]; and the pictures counted are at most
    [count].  The count is not bounded as it is for a new file: a count of
    0 or less adds nothing and is answered as a success. *)
Theorem update_appends (w : update_world)
    (files : gmap string (content value)) (data : update_excel_request)
    (new_start_num count : Z) (file_path : string) (wb : workbook value) :
  get_int py_int (newStartNum data) 253310011 = Some new_start_num ->
  get_int py_int (update_count data) 10 = Some count ->
  filePath data = json_str file_path -> file_path <> "" ->
  files !! resolve file_path = Some (workbook_file wb) ->
  1 <= wb_max_row wb ->
  upd_console w = true -> upd_tmp_made w = true -> upd_saved w = written ->
  exists (wb' : workbook value) (barcodes_added : Z),
    update_excel_api py_int of_int of_str resolve w files (Some data) =
      (if upd_cleaned w
       then update_success barcodes_added new_start_num
              (new_start_num + count - 1) file_path
       else update_exception,
       <[resolve file_path := workbook_file wb']> files) /\
    0 <= barcodes_added <= Z.max 0 count /\
    extract_ints py_int (sheet_of wb') =
      extract_ints py_int (sheet_of wb) ++
      ((fun i => new_start_num + i) <$> py_range 0 count) /\
    extract_numbers py_int (sheet_of wb') =
      extract_numbers py_int (sheet_of wb) ++
      ((fun i => py_str (new_start_num + i)) <$> py_range 0 count) /\
    wb_max_row wb' = wb_max_row wb + Z.max 0 count /\
    (forall r : Z, r <= wb_max_row wb ->
       cells_A wb' !! r = cells_A wb !! r /\ cells_B wb' !! r = cells_B wb !! r /\
       cells_C wb' !! r = cells_C wb !! r /\
       filter (fun p => p.1 = r) (pictures wb') =
         filter (fun p => p.1 = r) (pictures wb)) /\
    (count <= 0 -> wb' = wb /\ barcodes_added = 0).
Proof.
  intros Hstart Hcount Hpath Hname Hfile Hmax Hconsole Htmp Hsaved.
  unfold update_excel_api, path_exists. rewrite Hstart, Hcount, Hpath, Hfile.
  rewrite (proj2 (String.eqb_neq file_path "")) by done.
  rewrite bool_decide_eq_true_2 by (by eexists). cbn [negb andb].
  rewrite Hconsole, Htmp, Hsaved. cbn [andb].
  pose proof (append_rows_added of_int of_str (upd_barcode w) new_start_num
                (wb_max_row wb + 1) (py_range 0 count) wb 0) as Hadded.
  pose proof (append_rows_elsewhere of_int of_str (upd_barcode w) new_start_num
                (wb_max_row wb + 1) (py_range 0 count) wb 0) as Helse.
  pose proof (sheet_of_append_rows of_int of_str (upd_barcode w) new_start_num
                (wb_max_row wb + 1) (Z.to_nat count) 0 wb 0) as Hsheet.
  replace (0 + Z.of_nat (Z.to_nat count)) with (Z.max 0 count) in Hsheet by lia.
  assert (py_range 0 (Z.max 0 count) = py_range 0 count) as Hrange.
  { unfold py_range. do 2 f_equal. lia. }
  rewrite Hrange in Hsheet.
  assert (count <= 0 -> py_range 0 count = []) as Hempty.
  { intros Hle. unfold py_range. by replace (Z.to_nat (count - 0)) with 0%nat by lia. }
  destruct (append_rows of_int of_str (upd_barcode w) new_start_num
              (wb_max_row wb + 1) (py_range 0 count) wb 0) as [wb' added] eqn:Hloop.
  cbn [fst snd] in *.
  exists wb', added. split; [by destruct (upd_cleaned w)|].
  rewrite py_range_length in Hadded. split; [lia|].
  assert (extract_ints py_int (sheet_of wb') =
          extract_ints py_int (sheet_of wb) ++
          ((fun i => new_start_num + i) <$> py_range 0 count)) as Hints.
  { rewrite Hsheet, Z.add_0_r.
    change (wb_max_row wb) with (max_row (sheet_of wb)).
    by apply extract_ints_put_numbers. }
  split; [done|]. split.
  { rewrite !(extract_numbers_ints py_int), Hints, fmap_app.
    by rewrite <- list_fmap_compose. }
  split.
  { change (wb_max_row wb') with (max_row (sheet_of wb')).
    rewrite Hsheet, Z.add_0_r.
    change (wb_max_row wb) with (max_row (sheet_of wb)).
    rewrite put_numbers_max_row by done.
    rewrite length_fmap, py_range_length. lia. }
  split.
  { intros r Hr. apply Helse. intros i Hi. apply elem_of_py_range in Hi. lia. }
  intros Hle. rewrite (Hempty Hle) in Hloop. cbn in Hloop.
  by injection Hloop as <- <-.
Qed.

End update_facts.

(** ** Uploading a sheet *)

Lemma foldl_max_spec (n : Z) (l : list Z) :
  n <= foldl Z.max n l /\ Forall (fun x => x <= foldl Z.max n l) l /\
  foldl Z.max n l ∈ n :: l.
Proof.
  revert n. induction l as [|x l IH]; intros n; cbn.
  - split; [lia|]. split; [done|]. left.
  - destruct (IH (Z.max n x)) as (Hle & Hall & Hin).
    split; [lia|]. split; [constructor; [lia|done]|].
    apply elem_of_cons in Hin as [->|Hin]; [|by do 2 right].
    destruct (Z.max_spec n x) as [[_ ->]|[_ ->]]; [right|]; left.
Qed.

Lemma foldl_min_spec (n : Z) (l : list Z) :
  foldl Z.min n l <= n /\ Forall (fun x => foldl Z.min n l <= x) l /\
  foldl Z.min n l ∈ n :: l.
Proof.
  revert n. induction l as [|x l IH]; intros n; cbn.
  - split; [lia|]. split; [done|]. left.
  - destruct (IH (Z.min n x)) as (Hle & Hall & Hin).
    split; [lia|]. split; [constructor; [lia|done]|].
    apply elem_of_cons in Hin as [->|Hin]; [|by do 2 right].
    destruct (Z.min_spec n x) as [[_ ->]|[_ ->]]; [|right]; left.
Qed.

Section upload_facts.
Context {value : Type}.
Variable py_int : value -> option Z.
Variable resolve : string -> string.

(** X13.  What [upload_excel_api] does with an upload that has a name.
    When [file.save] ends, the upload is stored under its name in the
    output folder before it is read, so it is there whatever the answer:
    also for the 400 of a sheet without numbers and for the 500 of a file
    that is no workbook.  No other file is touched in any case.  A
    successful answer lists the integers of column A in ascending order,
    each as often as the sheet has it; lastNumber and the upper end of the
    range are the largest of them, the lower end the smallest.  A 500
    means that the save failed, that the message could not be printed or
    that the upload is no workbook. *)
Theorem upload_stores_and_sorts (saved : write_outcome) (console : bool)
    (files : gmap string (content value))
    (filename : string) (uploaded : content value) :
  filename <> "" ->
  let answer :=
    (upload_excel_api py_int resolve saved console files
       (Some (filename, uploaded))).1 in
  let files' :=
    (upload_excel_api py_int resolve saved console files
       (Some (filename, uploaded))).2 in
  (saved = written ->
   files' = <[resolve (output_path filename) := uploaded]> files) /\
  (forall q, q <> resolve (output_path filename) -> files' !! q = files !! q) /\
  match answer with
  | upload_success name path found first last last_number numbers =>
      saved = written /\ console = true /\
      exists wb : workbook value,
        uploaded = workbook_file wb /\
        name = filename /\ path = output_path filename /\
        Sorted Z.le numbers /\
        numbers ≡ₚ extract_ints py_int (sheet_of wb) /\
        found = length (extract_ints py_int (sheet_of wb)) /\
        last = last_number /\
        first ∈ numbers /\ last_number ∈ numbers /\
        Forall (fun n => first <= n <= last_number) numbers
  | upload_error code _ =>
      code = 400 /\ saved = written /\
      exists wb : workbook value,
        uploaded = workbook_file wb /\ extract_ints py_int (sheet_of wb) = []
  | upload_exception =>
      saved <> written \/ console = false \/ uploaded = other_file
  end.
Proof.
  intros Hname. cbn zeta. unfold upload_excel_api.
  destruct (String.eqb_spec filename "") as [|_]; [done|].
  destruct saved; cbn [fst snd].
  2:{ split; [done|]. split; [done|]. by left. }
  2:{ split; [done|]. split; [|by left].
      intros q Hq. by rewrite lookup_insert_ne. }
  destruct console; cbn [fst snd].
  2:{ split; [done|]. split; [|by right; left].
      intros q Hq. by rewrite lookup_insert_ne. }
  destruct uploaded as [wb|]; cbn [fst snd].
  2:{ split; [done|]. split; [|by right; right].
      intros q Hq. by rewrite lookup_insert_ne. }
  destruct (extract_ints py_int (sheet_of wb)) as [|n0 rest0] eqn:Hints;
    cbn [fst snd].
  { split; [done|]. split; [intros q Hq; by rewrite lookup_insert_ne|].
    split; [done|]. split; [done|]. by exists wb. }
  pose proof (merge_sort_Permutation Z.le (n0 :: rest0)) as Hperm.
  pose proof (Sorted_merge_sort Z.le (n0 :: rest0)) as Hsorted.
  destruct (merge_sort Z.le (n0 :: rest0)) as [|n rest] eqn:Hsort.
  { by apply Permutation_nil_cons in Hperm. }
  cbn. split; [done|]. split; [intros q Hq; by rewrite lookup_insert_ne|].
  split; [done|]. split; [done|]. exists wb. rewrite Hints.
  split; [done|]. split; [done|]. split; [done|].
  split; [done|]. split; [done|].
  split; [exact (Permutation_length Hperm)|]. split; [done|].
  destruct (foldl_max_spec n rest) as (Hmax1 & Hmax2 & Hmax3).
  destruct (foldl_min_spec n rest) as (Hmin1 & Hmin2 & Hmin3).
  split; [done|]. split; [done|].
  constructor; [lia|].
  rewrite Forall_forall in Hmax2, Hmin2 |- *.
  intros x Hx. specialize (Hmax2 x Hx). specialize (Hmin2 x Hx). lia.
Qed.
End upload_facts.

(** ** From a new file to its PDF, and on to the next numbers *)

Section flows.
Context {value : Type}.
Variable py_int : value -> option Z.
Variable of_int : Z -> value.
Variable of_str : string -> value.
Variable resolve : string -> string.
Hypothesis py_int_of_int : forall n : Z, py_int (of_int n) = Some n.

Lemma consecutive_elem_of (start count x : Z) :
  x ∈ (fun i => start + i) <$> py_range 0 count <-> start <= x < start + count.
Proof.
  rewrite list_elem_of_fmap. split.
  - intros (i & -> & Hi). apply elem_of_py_range in Hi. lia.
  - intros Hx. exists (x - start). split; [lia|].
    apply elem_of_py_range. lia.
Qed.


Lemma py_range_sorted (n : nat) : forall lo, Sorted Z.le (py_range lo (lo + Z.of_nat n)).
Proof.
  induction n as [|n IH]; intros lo.
  - assert (py_range lo (lo + Z.of_nat 0) = []) as ->; [|constructor].
    unfold py_range. by replace (lo + Z.of_nat 0 - lo) with 0 by lia.
  - rewrite py_range_cons by lia.
    replace (lo + Z.of_nat (S n)) with (lo + 1 + Z.of_nat n) by lia.
    constructor; [apply IH|].
    destruct n as [|n].
    + assert (py_range (lo + 1) (lo + 1 + Z.of_nat 0) = []) as ->; [|constructor].
      unfold py_range. by replace (lo + 1 + Z.of_nat 0 - (lo + 1)) with 0 by lia.
    + rewrite py_range_cons by lia. constructor. lia.
Qed.

Lemma consecutive_sorted (start cnt : Z) :
  Sorted Z.le ((fun i => start + i) <$> py_range 0 cnt).
Proof.
  apply (Sorted_fmap _ Z.le Z.le); [intros x y; lia|].
  assert (py_range 0 cnt = py_range 0 (0 + Z.of_nat (Z.to_nat cnt))) as ->.
  { unfold py_range. do 2 f_equal. lia. }
  apply py_range_sorted.
Qed.

Lemma output_path_not_empty (name : string) : output_path name <> "".
Proof.
  unfold output_path. destruct (String.prefix "/" name) eqn:Hprefix; [|done].
  by destruct name.
Qed.

(** X15.  The interface can chain its three steps.  Let [int] read back
    every integer written to a cell, and let the saves, the messages and
    the cleaning up of both calls end without an exception.  Uploading the file made for
    [cnt >= 1] numbers from [start_num] finds exactly these numbers, in
    order, and reports [lastNumber = start_num + cnt - 1]; an update of
    the stored file that starts at [lastNumber + 1] leaves a sheet that
    reads as one run of consecutive numbers from [start_num]: no gap and
    no number twice. *)
Theorem next_numbers_follow (barcode : nat -> Z -> image_outcome)
    (w : update_world) (files : gmap string (content value)) (name : string)
    (start_num cnt cnt' : Z) (data : update_excel_request (value := value)) :
  name <> "" -> 1 <= cnt ->
  filePath data = json_str (output_path name) ->
  get_int py_int (newStartNum data) 253310011 = Some (start_num + cnt) ->
  get_int py_int (update_count data) 10 = Some cnt' ->
  upd_console w = true -> upd_tmp_made w = true ->
  upd_saved w = written -> upd_cleaned w = true ->
  let numbers := (fun i => start_num + i) <$> py_range 0 cnt in
  let wb := create_excel_with_barcodes of_int of_str barcode numbers in
  exists (files1 : gmap string (content value)) (wb2 : workbook value)
         (added : Z),
    upload_excel_api py_int resolve written true files
        (Some (name, workbook_file wb)) =
      (upload_success name (output_path name) (Z.to_nat cnt) start_num
         (start_num + cnt - 1) (start_num + cnt - 1) numbers, files1) /\
    update_excel_api py_int of_int of_str resolve w files1 (Some data) =
      (update_success added (start_num + cnt) (start_num + cnt + cnt' - 1)
         (output_path name),
       <[resolve (output_path name) := workbook_file wb2]> files1) /\
    extract_ints py_int (sheet_of wb2) =
      (fun i => start_num + i) <$> py_range 0 (cnt + Z.max 0 cnt').
Proof.
  intros Hname Hcnt Hpath Hstart Hcount Hconsole Htmp Hsaved Hcleaned numbers wb.
  destruct (create_excel_sheet py_int of_int of_str py_int_of_int barcode numbers)
    as [Hsheet Hints]. fold wb in Hsheet, Hints.
  assert (wb_max_row wb = 1 + cnt) as Hmax.
  { change (wb_max_row wb) with (max_row (sheet_of wb)).
    rewrite Hsheet, put_numbers_max_row by done. cbn.
    unfold numbers. rewrite length_fmap, py_range_length. lia. }
  assert (merge_sort Z.le numbers = numbers) as Hsort.
  { apply (Sorted_unique Z.le).
    - apply Sorted_merge_sort; apply _.
    - apply consecutive_sorted.
    - apply merge_sort_Permutation. }
  assert (numbers = start_num :: ((fun i => start_num + i) <$> py_range 1 cnt))
    as Hcons.
  { unfold numbers. rewrite (py_range_cons 0 cnt) by lia. cbn. f_equal. lia. }
  assert (py_max numbers = Some (start_num + cnt - 1)) as Hpmax.
  { rewrite Hcons. cbn. f_equal.
    destruct (foldl_max_spec start_num ((fun i => start_num + i) <$> py_range 1 cnt))
      as (Hge & Hall & Hin).
    rewrite <- Hcons in Hin. apply consecutive_elem_of in Hin.
    assert (start_num + (cnt - 1) ∈ numbers) as Hlast
      by (apply consecutive_elem_of; lia).
    rewrite Hcons in Hlast. apply elem_of_cons in Hlast as [Heq|Hlast].
    - lia.
    - rewrite Forall_forall in Hall. specialize (Hall _ Hlast). lia. }
  assert (py_min numbers = Some start_num) as Hpmin.
  { rewrite Hcons. cbn. f_equal.
    destruct (foldl_min_spec start_num ((fun i => start_num + i) <$> py_range 1 cnt))
      as (Hle & Hall & Hin).
    rewrite <- Hcons in Hin. apply consecutive_elem_of in Hin. lia. }
  pose proof (sheet_of_append_rows of_int of_str (upd_barcode w) (start_num + cnt)
                (wb_max_row wb + 1) (Z.to_nat cnt') 0 wb 0) as Hsheet2.
  assert (py_range 0 (0 + Z.of_nat (Z.to_nat cnt')) = py_range 0 cnt') as Hrange.
  { unfold py_range. do 2 f_equal. lia. }
  rewrite Hrange in Hsheet2.
  destruct (append_rows of_int of_str (upd_barcode w) (start_num + cnt)
              (wb_max_row wb + 1) (py_range 0 cnt') wb 0) as [wb2 added] eqn:Hloop.
  exists (<[resolve (output_path name) := workbook_file wb]> files), wb2, added.
  split; [|split].
  - unfold upload_excel_api.
    destruct (String.eqb_spec name "") as [|_]; [done|].
    fold wb. rewrite Hints, Hsort, Hpmax, Hpmin.
    assert (length numbers = Z.to_nat cnt) as ->
      by (unfold numbers; rewrite length_fmap, py_range_length; lia).
    rewrite Hcons at 1. done.
  - unfold update_excel_api, path_exists.
    rewrite Hstart, Hcount, Hpath, lookup_insert_eq.
    rewrite (proj2 (String.eqb_neq (output_path name) ""))
      by apply output_path_not_empty.
    rewrite bool_decide_eq_true_2 by (by eexists). cbn [negb andb].
    by rewrite Hconsole, Htmp, Hloop, Hsaved, Hcleaned.
  - cbn [fst] in Hsheet2. rewrite Hsheet2, Z.add_0_r.
    change (wb_max_row wb) with (max_row (sheet_of wb)).
    rewrite (extract_ints_put_numbers py_int of_int py_int_of_int) by
      (change (max_row (sheet_of wb)) with (wb_max_row wb); lia).
    rewrite Hints. unfold numbers.
    assert (forall a b, (fun i => start_num + i) <$> py_range a b
                        = py_range (start_num + a) (start_num + b)) as Hshift.
    { intros a b. unfold py_range. rewrite <- list_fmap_compose.
      replace (start_num + b - (start_num + a)) with (b - a) by lia.
      apply list_fmap_ext. intros _ k _. cbn. lia. }
    assert ((fun i => start_num + cnt + i) <$> py_range 0 cnt'
            = py_range (start_num + cnt) (start_num + cnt + Z.max 0 cnt')) as ->.
    { unfold py_range. rewrite <- list_fmap_compose.
      replace (Z.to_nat (start_num + cnt + Z.max 0 cnt' - (start_num + cnt)))
        with (Z.to_nat (cnt' - 0)) by lia.
      apply list_fmap_ext. intros _ k _. cbn. lia. }
    rewrite !Hshift, Z.add_0_r.
    rewrite (py_range_split start_num (start_num + cnt)
               (start_num + (cnt + Z.max 0 cnt'))) by lia.
    do 2 f_equal. lia.
Qed.
End flows.

(** ** Renaming a file *)



Section rename_facts.
Context {value : Type}.
Variable resolve : string -> string.


(** X17.  A rename that is answered with an error of the handler's own
    changes no file.  These errors are 400 and 404; it is 404 exactly when
    the body has a path and a new name that are both true values and
    [os.path.exists] answers no for the path.  A 500 changes no file
    either, and then [os.rename] failed, or the body is no JSON object, or
    the path or the new name is no text; except when the rename was done
    and the message after it could not be printed: then the answer is a
    500 and the file has its new name. *)
Theorem rename_failure_changes_nothing (exists_other : option bool)
    (renamed console : bool) (files : gmap string (content value))
    (data : option rename_request) :
  let answer :=
    (rename_and_download_api resolve exists_other renamed console files data).1 in
  let files' :=
    (rename_and_download_api resolve exists_other renamed console files data).2 in
  match answer with
  | rename_success _ => True
  | rename_error code _ =>
      files' = files /\
      (code = 400 \/ code = 404) /\
      (code = 404 <->
       exists request : rename_request,
         data = Some request /\
         truthy_field (rename_filePath request) = true /\
         truthy_field (newFileName request) = true /\
         path_exists resolve exists_other files (rename_filePath request)
           = Some false)
  | rename_exception =>
      (files' = files /\
       (renamed = false \/ data = None \/
        exists request : rename_request,
          data = Some request /\
          (is_text (rename_filePath request) = false \/
           is_text (newFileName request) = false))) \/
      (renamed = true /\ console = false /\
       exists (request : rename_request) (old new_path : string)
              (held : content value),
         data = Some request /\ rename_filePath request = json_str old /\
         files !! resolve old = Some held /\
         files !! resolve new_path = None /\
         files' = <[resolve new_path := held]> (delete (resolve old) files))
  end.
Proof.
  cbn zeta. unfold rename_and_download_api.
  destruct data as [request|]; [|cbn; left; split; [done|]; right; by left].
  cbv zeta.
  destruct (truthy_field (rename_filePath request)) eqn:Hold; cbn [negb orb].
  2:{ cbn. split; [done|]. split; [by left|]. split; [done|].
      intros (r & [= <-] & Ht & _). congruence. }
  destruct (truthy_field (newFileName request)) eqn:Hnew; cbn [negb orb].
  2:{ cbn. split; [done|]. split; [by left|]. split; [done|].
      intros (r & [= <-] & _ & Ht & _). congruence. }
  destruct (path_exists resolve exists_other files (rename_filePath request))
    as [[|]|] eqn:Hexists.
  - destruct (newFileName request) as [|typed|shown truthy] eqn:Htyped.
    + done.
    + destruct (bool_decide _ && negb _) eqn:Htaken; cbn.
      { split; [done|]. split; [by left|]. split; [done|].
        intros (r & [= <-] & _ & _ & Hfalse). congruence. }
      destruct (negb _) eqn:Hsame; [|done].
      rewrite andb_true_r in Htaken.
      apply bool_decide_eq_false in Htaken.
      destruct (rename_filePath request) as [|old|] eqn:Hpath.
      * done.
      * destruct (files !! resolve old) as [held|] eqn:Hfile.
        -- destruct renamed; [|cbn; left; split; [done|]; by left].
           destruct console; [done|]. cbn. right.
           split; [done|]. split; [done|].
           eexists request, old, _, held.
           split; [done|]. split; [by rewrite Hpath|]. split; [done|].
           split; [|done]. by apply eq_None_not_Some.
        -- cbn in Hexists. rewrite Hfile in Hexists.
           rewrite bool_decide_eq_false_2 in Hexists by (by intros [? [=]]).
           by rewrite andb_false_r in Hexists.
      * cbn. left. split; [done|]. right; right. exists request.
        split; [done|]. left. by rewrite Hpath.
    + cbn. left. split; [done|]. right; right. exists request.
      split; [done|]. right. by rewrite Htyped.
  - cbn. split; [done|]. split; [by right|]. split; [|done].
    intros _. by exists request.
  - cbn. left. split; [done|]. right; right. exists request.
    split; [done|]. left.
    destruct (rename_filePath request) as [|old|]; [done| |done].
    cbn in Hexists. done.
Qed.
End rename_facts.

(** ** A second run over a sheet (eg.py) *)

Lemma py_range_NoDup lo hi : NoDup (py_range lo hi).
Proof.
  unfold py_range. apply NoDup_fmap_2; [|apply NoDup_seq].
  intros x y Hxy. lia.
Qed.

Section second_run.
Context {value : Type}.
Variable py_int : value -> option Z.
Variable of_str : string -> value.

Lemma rows_needing_barcodes_spec (wb : workbook value) rows needing :
  rows_needing_barcodes py_int wb rows needing =
  needing ++ omap (row_needs_barcode py_int wb) rows.
Proof.
  revert needing. induction rows as [|row rest IH]; intros needing; cbn.
  - by rewrite app_nil_r.
  - rewrite IH. unfold row_needs_barcode at 2.
    destruct (cells_A wb !! row) as [v|]; [|done].
    destruct (cells_B wb !! row); [done|].
    destruct (py_int v) as [n|]; cbn; [|done]. by rewrite <- app_assoc.
Qed.

Lemma row_needs_barcode_fst (wb : workbook value) row p :
  row_needs_barcode py_int wb row = Some p -> p.1 = row.
Proof.
  unfold row_needs_barcode.
  destruct (cells_A wb !! row) as [v|]; [|done].
  destruct (cells_B wb !! row); [done|].
  destruct (py_int v); cbn; [|done]. by intros [= <-].
Qed.

Lemma needing_rows_NoDup (wb : workbook value) rows :
  NoDup rows -> NoDup ((omap (row_needs_barcode py_int wb) rows).*1).
Proof.
  induction 1 as [|row rest Hnotin Hnodup IH]; cbn; [constructor|].
  destruct (row_needs_barcode py_int wb row) as [p|] eqn:Hrow; [|done].
  cbn. apply row_needs_barcode_fst in Hrow as ->. constructor; [|done].
  intros Hin. apply Hnotin.
  apply list_elem_of_fmap in Hin as (q & -> & Hq).
  apply list_elem_of_omap in Hq as (r & Hr & Hq).
  by apply row_needs_barcode_fst in Hq as ->.
Qed.

(** What [add_barcodes] does to a sheet: column A is kept, a row that is
    not worked on keeps its cell of column B, and a row that is worked on
    once keeps it when its picture is made and gets a text there when it
    is not. *)
Lemma add_barcodes_cells barcode (needing : list (Z * Z)) (wb : workbook value) :
  let wb' := add_barcodes of_str barcode needing wb in
  cells_A wb' = cells_A wb /\
  (forall r, r ∉ needing.*1 -> cells_B wb' !! r = cells_B wb !! r) /\
  (forall r n, (r, n) ∈ needing -> NoDup needing.*1 ->
     is_ready (barcode r n) = true -> cells_B wb' !! r = cells_B wb !! r) /\
  (forall r n, (r, n) ∈ needing -> NoDup needing.*1 ->
     is_ready (barcode r n) = false -> is_Some (cells_B wb' !! r)) /\
  (Forall (fun p => p.1 <= wb_max_row wb) needing ->
   wb_max_row wb' = wb_max_row wb).
Proof.
  revert wb. induction needing as [|[r0 n0] rest IH]; intros wb; cbn zeta.
  { cbn. repeat split; try done; intros r n Hin; by apply elem_of_nil in Hin. }
  cbn [add_barcodes].
  set (wb1 := eg_barcode_cells of_str (barcode r0 n0) r0 n0 wb).
  destruct (IH wb1) as (HA & HB & HC & HD & HM). cbn zeta in *.
  assert (cells_A wb1 = cells_A wb) as HA1
    by (unfold wb1; by destruct (barcode r0 n0)).
  assert (forall r, r <> r0 -> cells_B wb1 !! r = cells_B wb !! r) as HB1.
  { intros r Hr. unfold wb1. destruct (barcode r0 n0); cbn; [done|..];
      by rewrite lookup_insert_ne. }
  assert (is_ready (barcode r0 n0) = true -> cells_B wb1 = cells_B wb) as HC0
    by (unfold wb1; by destruct (barcode r0 n0)).
  assert (is_ready (barcode r0 n0) = false -> is_Some (cells_B wb1 !! r0)) as HD0.
  { unfold wb1. destruct (barcode r0 n0); cbn; [done|..]; intros _;
      rewrite lookup_insert_eq; by eexists. }
  assert (r0 <= wb_max_row wb -> wb_max_row wb1 = wb_max_row wb) as HM1.
  { intros Hle. unfold wb1. destruct (barcode r0 n0); cbn; lia. }
  assert (forall r n, (r, n) ∈ rest -> r ∈ rest.*1) as Hfst.
  { intros r n Hin. apply list_elem_of_fmap. by exists (r, n). }
  split; [by rewrite HA|]. split; [|split; [|split]].
  - intros r Hr. cbn in Hr. apply not_elem_of_cons in Hr as [Hr0 Hr].
    rewrite HB by done. by apply HB1.
  - intros r n Hin Hnodup Hready. cbn in Hnodup.
    apply NoDup_cons in Hnodup as [Hnotin Hnodup].
    apply elem_of_cons in Hin as [[= -> ->]|Hin].
    + rewrite HB by done. by rewrite HC0.
    + rewrite (HC r n) by done. apply HB1. intros ->. eauto.
  - intros r n Hin Hnodup Hfail. cbn in Hnodup.
    apply NoDup_cons in Hnodup as [Hnotin Hnodup].
    apply elem_of_cons in Hin as [[= -> ->]|Hin].
    + rewrite HB by done. by apply HD0.
    + by apply (HD r n).
  - intros Hall. apply Forall_cons in Hall as [Hle Hall]. cbn in Hle.
    rewrite HM; [by apply HM1|].
    by rewrite HM1.
Qed.

(** Every picture that is made is one picture more on the sheet. *)
Lemma add_barcodes_pictures barcode (needing : list (Z * Z)) (wb : workbook value) :
  pictures (add_barcodes of_str barcode needing wb) =
  pictures wb ++
  ((fun p => (p.1, py_str p.2)) <$>
     filter (fun p => is_ready (barcode p.1 p.2) = true) needing).
Proof.
  revert wb. induction needing as [|[r n] rest IH]; intros wb.
  { cbn. by rewrite app_nil_r. }
  cbn [add_barcodes]. rewrite IH, filter_cons. cbn [fst snd].
  destruct (barcode r n); cbn; [by rewrite <- app_assoc|done|done].
Qed.

Lemma generate_barcodes_from_workbook barcode first_barcode (of_int : Z -> value)
    (wb : workbook value) :
  generate_barcodes_from_sheet py_int of_int of_str barcode first_barcode
    (Some (workbook_file wb)) =
  match needing_barcodes py_int wb with
  | [] => Ok None
  | _ => Ok (Some (add_barcodes of_str barcode (needing_barcodes py_int wb) wb))
  end.
Proof.
  unfold generate_barcodes_from_sheet. fold (needing_barcodes py_int wb).
  by destruct (needing_barcodes py_int wb) as [|[] ?].
Qed.

(** The rows a run leaves for the next one are those whose picture it
    made. *)
Lemma needing_after_run barcode (wb : workbook value) :
  let wb' := add_barcodes of_str barcode (needing_barcodes py_int wb) wb in
  sheet_of wb' = sheet_of wb /\
  needing_barcodes py_int wb' =
    filter (fun p => is_ready (barcode p.1 p.2) = true) (needing_barcodes py_int wb).
Proof.
  cbn zeta.
  unfold needing_barcodes. rewrite !rows_needing_barcodes_spec. cbn [app].
  set (needing := omap (row_needs_barcode py_int wb) (py_range 2 (wb_max_row wb + 1))).
  destruct (add_barcodes_cells barcode needing wb) as (HA & HB & HC & HD & HM).
  cbn zeta in *.
  assert (NoDup needing.*1) as Hnodup
    by apply needing_rows_NoDup, py_range_NoDup.
  assert (forall r n, (r, n) ∈ needing <->
            2 <= r < wb_max_row wb + 1 /\
            row_needs_barcode py_int wb r = Some (r, n)) as Hin.
  { intros r n. unfold needing. rewrite list_elem_of_omap. split.
    - intros (row & Hrow & Hsome).
      pose proof (row_needs_barcode_fst _ _ _ Hsome) as Hfst. cbn in Hfst.
      subst row. by apply elem_of_py_range in Hrow.
    - intros [Hr Hsome]. exists r. split; [|done]. by apply elem_of_py_range. }
  assert (wb_max_row (add_barcodes of_str barcode needing wb) = wb_max_row wb)
    as Hmax.
  { apply HM, Forall_forall. intros [r n] Hp. apply Hin in Hp. cbn. lia. }
  split; [unfold sheet_of; by rewrite HA, Hmax|].
  rewrite Hmax. fold needing.
  assert (forall row, row ∈ py_range 2 (wb_max_row wb + 1) ->
            row_needs_barcode py_int (add_barcodes of_str barcode needing wb) row =
            row_needs_barcode py_int wb row ≫=
              (fun p => if is_ready (barcode p.1 p.2) then Some p else None))
    as Hrow.
  { intros row Hrange. apply elem_of_py_range in Hrange.
    unfold row_needs_barcode at 1. rewrite HA.
    destruct (row_needs_barcode py_int wb row) as [[r n]|] eqn:Hwb.
    - pose proof (row_needs_barcode_fst _ _ _ Hwb) as Hfst. cbn in Hfst. subst r.
      assert ((row, n) ∈ needing) as Hmem by (by apply Hin).
      unfold row_needs_barcode in Hwb.
      destruct (cells_A wb !! row) as [v|]; [|done].
      destruct (cells_B wb !! row) eqn:HBrow; [done|].
      cbn. destruct (is_ready (barcode row n)) eqn:Hready.
      + rewrite (HC row n Hmem Hnodup Hready), HBrow. done.
      + destruct (HD row n Hmem Hnodup Hready) as [v' ->]. done.
    - cbn. unfold row_needs_barcode in Hwb.
      destruct (cells_A wb !! row) as [v|]; [|done].
      destruct (cells_B wb !! row) as [b|] eqn:HBrow.
      + rewrite HB, HBrow; [done|].
        intros Hmem. apply list_elem_of_fmap in Hmem as ([r n] & -> & Hmem).
        apply Hin in Hmem as [_ Hsome]. cbn [fst] in HBrow.
        unfold row_needs_barcode in Hsome.
        destruct (cells_A wb !! r); [|done]. by rewrite HBrow in Hsome.
      + destruct (py_int v); [done|].
        by destruct (cells_B (add_barcodes of_str barcode needing wb) !! row). }
  unfold needing at 2. clearbody needing. revert Hrow.
  induction (py_range 2 (wb_max_row wb + 1)) as [|row rows IHrows];
    intros Hrow; [done|].
  cbn [omap list_omap]. rewrite Hrow by left.
  rewrite IHrows by (intros r Hr; apply Hrow; by right).
  destruct (row_needs_barcode py_int wb row) as [p|]; cbn; [|done].
  destruct (is_ready (barcode p.1 p.2));
    by rewrite ?decide_True, ?decide_False by done.
Qed.

(** X18.  A run of [generate_barcodes_from_sheet] that saves a workbook
    found rows with a number in column A and no value in column B; it
    keeps column A and [max_row] and adds one picture for each of these
    rows whose picture is made.  A picture is no value of the cell under
    it: the rows the next run works on are exactly the rows whose picture
    this run made, so the next run adds a further picture to each of them
    whose picture it makes, while a row whose picture failed holds an
    error text in column B and is never tried again. *)
Theorem second_run_repeats_successes (barcode barcode' : Z -> Z -> image_outcome)
    (first_barcode : nat -> Z -> image_outcome) (of_int : Z -> value)
    (wb wb' : workbook value) :
  generate_barcodes_from_sheet py_int of_int of_str barcode first_barcode
    (Some (workbook_file wb)) = Ok (Some wb') ->
  let made :=
    filter (fun p => is_ready (barcode p.1 p.2) = true)
      (needing_barcodes py_int wb) in
  let made' := filter (fun p => is_ready (barcode' p.1 p.2) = true) made in
  needing_barcodes py_int wb <> [] /\
  sheet_of wb' = sheet_of wb /\
  pictures wb' = pictures wb ++ ((fun p => (p.1, py_str p.2)) <$> made) /\
  needing_barcodes py_int wb' = made /\
  generate_barcodes_from_sheet py_int of_int of_str barcode' first_barcode
    (Some (workbook_file wb')) =
    match made with
    | [] => Ok None
    | _ => Ok (Some (add_barcodes of_str barcode' made wb'))
    end /\
  pictures (add_barcodes of_str barcode' made wb') =
    pictures wb ++ ((fun p => (p.1, py_str p.2)) <$> made) ++
    ((fun p => (p.1, py_str p.2)) <$> made').
Proof.
  rewrite generate_barcodes_from_workbook. intros Hsaved made made'.
  assert (wb' = add_barcodes of_str barcode (needing_barcodes py_int wb) wb /\
          needing_barcodes py_int wb <> []) as [-> Hsome].
  { destruct (needing_barcodes py_int wb) as [|p0 rest0]; [done|].
    split; [congruence|done]. }
  destruct (needing_after_run barcode wb) as [Hsheet Hneeding].
  cbn zeta in Hsheet, Hneeding. fold made in Hneeding.
  pose proof (add_barcodes_pictures barcode (needing_barcodes py_int wb) wb)
    as Hpictures. fold made in Hpictures.
  split; [done|]. split; [done|]. split; [done|]. split; [done|]. split.
  - rewrite generate_barcodes_from_workbook, Hneeding. done.
  - rewrite add_barcodes_pictures, Hpictures. fold made'.
    by rewrite <- app_assoc.
Qed.
End second_run.

(** ** The picture drawn without the barcode library *)

Section fallback_facts.
Variable bar_height_of : Z -> Q.

Lemma ord_mod_8 (char : ascii) : 0 <= ord char mod 8 < 8.
Proof. apply Z.mod_pos_bound. lia. Qed.

(** What the loop over the bars of one character draws when it ends. *)
Lemma draw_bars_Ok (bar_width : Z) (bar_height : Q) (x_start bar_count : Z)
    (js : list Z) (bars : list rectangle) :
  bar_count <> 0 ->
  draw_bars bar_width bar_height x_start bar_count js = Ok bars ->
  bars =
    (fun j => let bar_x := x_start + j * (bar_width / bar_count) in
              {| rect_x0 := bar_x; rect_y0 := 10; rect_x1 := bar_x + 2;
                 rect_y1 := inject_Z bar_x + bar_height |}) <$> js.
Proof.
  intros Hcount. revert bars.
  induction js as [|j rest IH]; intros bars; cbn [draw_bars].
  { by intros [= <-]. }
  rewrite py_floordiv_ok by done. rewrite bind_Ok.
  destruct (Qle_bool 10 _); [|done].
  destruct (draw_bars bar_width bar_height x_start bar_count rest)
    as [more|e]; [|done].
  rewrite bind_Ok. intros [= <-]. cbn. f_equal. by apply IH.
Qed.

(** It raises nothing but [ValueError], for a bar that ends above y = 10. *)
Lemma draw_bars_Raise (bar_width : Z) (bar_height : Q) (x_start bar_count : Z)
    (js : list Z) (e : exception) :
  bar_count <> 0 ->
  draw_bars bar_width bar_height x_start bar_count js = Raise e ->
  e = ValueError /\
  exists j, j ∈ js /\
    ~ (10 <= inject_Z (x_start + j * (bar_width / bar_count)) + bar_height)%Q.
Proof.
  intros Hcount.
  induction js as [|j rest IH]; cbn [draw_bars]; [done|].
  rewrite py_floordiv_ok by done. rewrite bind_Ok.
  destruct (Qle_bool 10 _) eqn:Hle.
  - destruct (draw_bars bar_width bar_height x_start bar_count rest)
      as [more|e']; [done|].
    intros [= <-]. destruct (IH eq_refl) as (-> & j' & Hj' & Hlow).
    split; [done|]. exists j'. split; [by right|done].
  - intros [= <-]. split; [done|]. exists j. split; [left|].
    intros Hge. apply Qle_bool_iff in Hge. congruence.
Qed.

(** What the loop over the characters draws when it ends. *)
Lemma draw_chars_Ok (bar_width : Z) (bar_height : Q) (data : string) :
  forall (i : Z) (bars : list rectangle),
    draw_chars bar_width bar_height i data = Ok bars ->
    length bars = bar_total data /\
    Forall (fun r => rect_y0 r = 10 /\ rect_x1 r = rect_x0 r + 2 /\
                     rect_y1 r = (inject_Z (rect_x0 r) + bar_height)%Q) bars /\
    (0 <= bar_width -> 0 <= i ->
     Forall (fun r =>
               i * bar_width <= rect_x0 r
                 <= (i + Z.of_nat (String.length data)) * bar_width /\
               (0 < bar_width ->
                rect_x0 r < (i + Z.of_nat (String.length data)) * bar_width))
            bars).
Proof.
  induction data as [|char rest IH]; intros i bars; cbn [draw_chars].
  { intros [= <-]. repeat split; constructor. }
  pose proof (ord_mod_8 char) as Hmod.
  assert (Z.of_nat (String.length (String char rest))
          = 1 + Z.of_nat (String.length rest)) as ->
    by (cbn [String.length]; lia).
  pose proof (Nat2Z.is_nonneg (String.length rest)) as Hrest.
  destruct (draw_bars bar_width bar_height (i * bar_width) (ord char mod 8)
              (py_range 0 (ord char mod 8))) as [first|e] eqn:Hfirst; [|done].
  rewrite bind_Ok.
  destruct (draw_chars bar_width bar_height (i + 1) rest) as [more|e] eqn:Hmore;
    [|done].
  rewrite bind_Ok. intros [= <-].
  destruct (IH (i + 1) more Hmore) as (Hlen & Hshape & Hx). clear IH.
  revert Hx Hrest. generalize (Z.of_nat (String.length rest)).
  intros len Hx Hrest.
  assert (first =
          (fun j => let bar_x := i * bar_width + j * (bar_width / (ord char mod 8)) in
                    {| rect_x0 := bar_x; rect_y0 := 10; rect_x1 := bar_x + 2;
                       rect_y1 := inject_Z bar_x + bar_height |})
            <$> py_range 0 (ord char mod 8)) as ->.
  { destruct (decide (ord char mod 8 = 0)) as [Hzero|Hpos].
    - rewrite Hzero in Hfirst |- *. by injection Hfirst as <-.
    - by apply draw_bars_Ok. }
  split.
  { rewrite length_app, length_fmap, py_range_length, Hlen. cbn [bar_total].
    f_equal. lia. }
  split.
  { apply Forall_app. split; [|done].
    apply Forall_fmap, Forall_forall. by intros j _. }
  intros Hbw Hi. apply Forall_app. split.
  - apply Forall_fmap, Forall_forall. intros j Hj.
    apply elem_of_py_range in Hj. cbn.
    set (bar_count := ord char mod 8) in *.
    assert (0 <= bar_width / bar_count) as Hstep
      by (apply Z.div_pos; lia).
    assert (bar_count * (bar_width / bar_count) <= bar_width) as Hmul
      by (apply Z.mul_div_le; lia).
    split; [nia|]. intros Hbw'.
    destruct (decide (bar_width / bar_count = 0)) as [->|Hne]; nia.
  - eapply Forall_impl; [apply Hx; lia|].
    intros r [Hr Hr']. cbn beta in *.
    split; [nia|]. intros Hbw'. specialize (Hr' Hbw'). nia.
Qed.

(** It raises nothing but [ValueError], and only when [bar_height] is
    under 10. *)
Lemma draw_chars_Raise (bar_width : Z) (bar_height : Q) (data : string) :
  forall (i : Z) (e : exception),
    draw_chars bar_width bar_height i data = Raise e ->
    e = ValueError /\ (0 <= bar_width -> 0 <= i -> (bar_height < 10)%Q).
Proof.
  induction data as [|char rest IH]; intros i e; cbn [draw_chars]; [done|].
  pose proof (ord_mod_8 char) as Hmod.
  destruct (draw_bars bar_width bar_height (i * bar_width) (ord char mod 8)
              (py_range 0 (ord char mod 8))) as [first|e'] eqn:Hfirst.
  - rewrite bind_Ok.
    destruct (draw_chars bar_width bar_height (i + 1) rest) as [more|e'] eqn:Hmore;
      [done|].
    intros [= <-]. destruct (IH (i + 1) e' Hmore) as [-> Hlow].
    split; [done|]. intros Hbw Hi. apply Hlow; lia.
  - intros [= <-].
    destruct (decide (ord char mod 8 = 0)) as [Hzero|Hpos].
    { rewrite Hzero in Hfirst. done. }
    destruct (draw_bars_Raise _ _ _ _ _ _ Hpos Hfirst) as (-> & j & Hj & Hlow).
    split; [done|]. intros Hbw Hi. apply elem_of_py_range in Hj.
    apply Qnot_le_lt in Hlow.
    assert (0 <= i * bar_width + j * (bar_width / (ord char mod 8))) as Hx.
    { assert (0 <= bar_width / (ord char mod 8)) by (apply Z.div_pos; lia). nia. }
    revert Hx Hlow. generalize (i * bar_width + j * (bar_width / (ord char mod 8))).
    intros x Hx Hlow.
    assert (0 <= inject_Z x)%Q as Hq by (change 0%Q with (inject_Z 0);
                                          by rewrite <- Zle_Qle).
    lra.
Qed.

Lemma same_bar_counts_length (data data' : string) :
  same_bar_counts data data' -> String.length data = String.length data'.
Proof.
  revert data'. induction data as [|c rest IH]; intros [|c' rest']; cbn;
    try done.
  intros [_ Hrest]. f_equal. by apply IH.
Qed.

Lemma draw_chars_same_bar_counts (bar_width : Z) (bar_height : Q)
    (data data' : string) :
  same_bar_counts data data' ->
  forall i, draw_chars bar_width bar_height i data =
            draw_chars bar_width bar_height i data'.
Proof.
  revert data'. induction data as [|c rest IH]; intros [|c' rest']; cbn;
    try done.
  intros [Hc Hrest] i. by rewrite Hc, (IH rest' Hrest).
Qed.

(** X19.  What the picture drawn without the barcode library fails on.
    [ZeroDivisionError] is raised for the empty text, and only for it, in
    a picture whose width and height are not negative.  [ValueError] is
    raised for a negative width or height, and otherwise only when
    [bar_height] is under 10 (a bar that ends above its start at y = 10).
    Nothing else is raised.  So with a width and a height that are not
    negative and a [bar_height] of 10 or more, as at every call of the
    repository (heights 100 and 80), a text that is not empty gets its
    picture: one bar for each unit of the character codes taken modulo 8,
    and the text at (10, height - 20). *)
Theorem fallback_failures (data : string) (width height : Z) :
  match generate_barcode_image_fallback bar_height_of data width height with
  | Raise ZeroDivisionError => 0 <= width /\ 0 <= height /\ data = ""
  | Raise ValueError =>
      width < 0 \/ height < 0 \/
      (data <> "" /\ (bar_height_of height < 10)%Q)
  | Raise _ => False
  | Ok image =>
      0 <= width /\ 0 <= height /\ data <> "" /\
      img_text image = data /\ img_size image = (width, height) /\
      img_text_at image = (10, height - 20) /\
      length (img_rectangles image) = bar_total data
  end /\
  (0 <= width -> 0 <= height -> (10 <= bar_height_of height)%Q -> data <> "" ->
   exists image : fallback_image,
     generate_barcode_image_fallback bar_height_of data width height = Ok image).
Proof.
  assert (match generate_barcode_image_fallback bar_height_of data width height with
          | Raise ZeroDivisionError => 0 <= width /\ 0 <= height /\ data = ""
          | Raise ValueError =>
              width < 0 \/ height < 0 \/
              (data <> "" /\ (bar_height_of height < 10)%Q)
          | Raise _ => False
          | Ok image =>
              0 <= width /\ 0 <= height /\ data <> "" /\
              img_text image = data /\ img_size image = (width, height) /\
              img_text_at image = (10, height - 20) /\
              length (img_rectangles image) = bar_total data
          end) as Hcases.
  { unfold generate_barcode_image_fallback.
    destruct (Z.ltb_spec width 0) as [|Hw]; [by left|].
    destruct (Z.ltb_spec height 0) as [|Hh]; [by right; left|].
    cbn [orb]. destruct data as [|char rest]; [done|].
    set (data := String char rest).
    assert (0 < Z.of_nat (String.length data)) as Hlen by (cbn; lia).
    rewrite py_floordiv_ok by lia. rewrite bind_Ok.
    assert (0 <= width / Z.of_nat (String.length data)) as Hbw
      by (apply Z.div_pos; lia).
    destruct (draw_chars (width / Z.of_nat (String.length data))
                (bar_height_of height) 0 data) as [bars|e] eqn:Hdraw.
    - rewrite bind_Ok. destruct (draw_chars_Ok _ _ _ _ _ Hdraw) as (Hn & _).
      by repeat split.
    - destruct (draw_chars_Raise _ _ _ _ _ Hdraw) as [-> Hlow]. cbn.
      right; right. split; [done|]. apply Hlow; lia. }
  split; [exact Hcases|].
  intros Hw Hh Hbar Hdata.
  destruct (generate_barcode_image_fallback bar_height_of data width height)
    as [image|[| | |]]; [by eexists|..]; try done.
  - by destruct Hcases as (_ & _ & ->).
  - destruct Hcases as [|[|[_ Hlow]]]; [lia|lia|]. exfalso. lra.
Qed.

(** X20.  In a picture of positive width every bar of the pattern starts
    inside the picture, is three pixels wide and begins at y = 10.  Its
    lower edge is at [bar_x + bar_height]: it depends on where the bar
    stands, so a bar further to the right reaches further down. *)
Theorem fallback_bars_start_inside (data : string) (width height : Z)
    (image : fallback_image) :
  0 < width ->
  generate_barcode_image_fallback bar_height_of data width height = Ok image ->
  Forall (fun r => 0 <= rect_x0 r < width /\ rect_x1 r = rect_x0 r + 2 /\
                   rect_y0 r = 10 /\
                   rect_y1 r = (inject_Z (rect_x0 r) + bar_height_of height)%Q)
         (img_rectangles image).
Proof.
  intros Hwidth. unfold generate_barcode_image_fallback.
  destruct ((width <? 0) || (height <? 0)); [done|].
  destruct data as [|char rest]; [done|].
  set (data := String char rest).
  assert (0 < Z.of_nat (String.length data)) as Hlen by (cbn; lia).
  rewrite py_floordiv_ok by lia. rewrite bind_Ok.
  destruct (draw_chars (width / Z.of_nat (String.length data))
              (bar_height_of height) 0 data) as [bars|e] eqn:Hdraw; [|done].
  destruct (draw_chars_Ok _ _ _ _ _ Hdraw) as (_ & Hshape & Hx).
  rewrite bind_Ok. intros [= <-]. cbn [img_rectangles].
  assert (0 <= width / Z.of_nat (String.length data)) as Hbw
    by (apply Z.div_pos; lia).
  specialize (Hx Hbw ltac:(lia)).
  assert (Z.of_nat (String.length data) * (width / Z.of_nat (String.length data))
          <= width) as Hmul by (apply Z.mul_div_le; lia).
  rewrite Forall_forall in Hshape, Hx |- *. intros r Hr.
  destruct (Hshape r Hr) as (Hy0 & Hx1 & Hy1).
  destruct (Hx r Hr) as [Hlo Hhi].
  split; [|done].
  destruct (decide (width / Z.of_nat (String.length data) = 0)) as [Hzero|Hne].
  - rewrite Hzero in Hlo. lia.
  - specialize (Hhi ltac:(lia)). lia.
Qed.

(** X21.  The pattern is no code of the text: two texts of one length
    whose characters agree modulo 8, place by place, such as 1 and 9, get
    the same bars; the pictures differ in the text written under the bars
    only. *)
Theorem fallback_bars_modulo_8 (data data' : string) (width height : Z)
    (image : fallback_image) :
  same_bar_counts data data' ->
  generate_barcode_image_fallback bar_height_of data width height = Ok image ->
  exists image' : fallback_image,
    generate_barcode_image_fallback bar_height_of data' width height = Ok image' /\
    img_rectangles image' = img_rectangles image /\
    img_size image' = img_size image /\
    img_text_at image' = img_text_at image /\
    img_text image' = data'.
Proof.
  intros Hsame. unfold generate_barcode_image_fallback.
  destruct ((width <? 0) || (height <? 0)); [done|].
  rewrite <- (same_bar_counts_length _ _ Hsame).
  destruct (py_floordiv width (Z.of_nat (String.length data))) as [bar_width|e];
    [|done].
  rewrite !bind_Ok.
  rewrite <- (draw_chars_same_bar_counts bar_width _ _ _ Hsame).
  destruct (draw_chars _ _ 0 data) as [bars|e]; [|done].
  rewrite !bind_Ok. intros [= <-]. by eexists.
Qed.
End fallback_facts.

Lemma fallback_failures_sample :
  (0 <= 250 /\ 0 <= 100 /\ (10 <= seven_tenths 100)%Q /\ "12" <> "") /\
  exists image : fallback_image,
    generate_barcode_image_fallback seven_tenths "12" 250 100 = Ok image.
Proof.
  split; [repeat split; (lia || discriminate)|].
  apply (fallback_failures seven_tenths "12" 250 100);
    (lia || discriminate).
Defined.

Lemma fallback_bars_start_inside_sample :
  0 < 250 /\
  exists image : fallback_image,
    generate_barcode_image_fallback seven_tenths "12" 250 100 = Ok image /\
    Forall (fun r => 0 <= rect_x0 r < 250 /\ rect_x1 r = rect_x0 r + 2 /\
                     rect_y0 r = 10 /\
                     rect_y1 r = (inject_Z (rect_x0 r) + seven_tenths 100)%Q)
           (img_rectangles image) /\
    rect_x0 <$> img_rectangles image = [0; 125; 187].
Proof.
  split; [lia|].
  assert (exists image, generate_barcode_image_fallback seven_tenths "12" 250 100
                        = Ok image /\
                        rect_x0 <$> img_rectangles image = [0; 125; 187])
    as (image & Himage & Hxs).
  { vm_compute. eexists. split; reflexivity. }
  exists image. split; [exact Himage|]. split; [|exact Hxs].
  apply (fallback_bars_start_inside seven_tenths "12" 250 100 image);
    [lia|exact Himage].
Defined.

Lemma fallback_bars_modulo_8_sample :
  same_bar_counts "19" "91" /\
  exists image image' : fallback_image,
    generate_barcode_image_fallback seven_tenths "19" 250 100 = Ok image /\
    generate_barcode_image_fallback seven_tenths "91" 250 100 = Ok image' /\
    img_rectangles image' = img_rectangles image /\
    img_text image' = "91".
Proof.
  split; [by vm_compute|].
  assert (exists image, generate_barcode_image_fallback seven_tenths "19" 250 100
                        = Ok image) as [image Himage].
  { vm_compute. eexists. reflexivity. }
  destruct (fallback_bars_modulo_8 seven_tenths "19" "91" 250 100 image)
    as (image' & Himage' & Hbars & _ & _ & Htext);
    [by vm_compute|exact Himage|].
  exists image, image'. split; [exact Himage|]. split; [exact Himage'|].
  split; [exact Hbars|exact Htext].
Defined.

(** ** The prompts of eg.py *)

(** X22.  Whatever is typed at the prompts for the start and the count,
    the script goes on with between 1 and 1000 consecutive numbers, no two
    of them equal.  The count is the integer typed when it is one from 1
    to 1000, and 10 otherwise: when the text is no integer and when the
    integer is under 1 or over 1000.  The start is the integer typed, and
    253310001 when the text is no integer.  An empty text stands for the
    default, 10 or 253310001. *)
Theorem typed_numbers_bounds (int_of_text : string -> option Z)
    (start_typed count_typed : string) :
  exists start n : Z,
    typed_numbers int_of_text start_typed count_typed =
      (fun i => start + i) <$> py_range 0 n /\
    1 <= n <= 1000 /\
    length (typed_numbers int_of_text start_typed count_typed) = Z.to_nat n /\
    NoDup (typed_numbers int_of_text start_typed count_typed) /\
    (forall k, int_of_text (or_default count_typed "10") = Some k ->
               1 <= k <= 1000 -> n = k) /\
    (forall k, int_of_text (or_default count_typed "10") = Some k ->
               k < 1 \/ 1000 < k -> n = 10) /\
    (int_of_text (or_default count_typed "10") = None -> n = 10) /\
    (forall k, int_of_text (or_default start_typed "253310001") = Some k ->
               start = k) /\
    (int_of_text (or_default start_typed "253310001") = None ->
     start = 253310001) /\
    or_default "" "10" = "10" /\ or_default "" "253310001" = "253310001".
Proof.
  unfold typed_numbers.
  set (start := match int_of_text (or_default start_typed "253310001") with
                | Some n => n
                | None => 253310001
                end).
  set (n := match int_of_text (or_default count_typed "10") with
            | Some count => if (count <? 1) || (1000 <? count) then 10 else count
            | None => 10
            end).
  assert (1 <= n <= 1000) as Hn.
  { unfold n. destruct (int_of_text (or_default count_typed "10")) as [k|]; [|lia].
    destruct (Z.ltb_spec k 1); cbn; [lia|].
    destruct (Z.ltb_spec 1000 k); lia. }
  exists start, n. split; [done|]. split; [done|].
  split; [by rewrite length_fmap, py_range_length; lia|]. split.
  { apply NoDup_fmap_2; [intros x y; lia|apply py_range_NoDup]. }
  split.
  { intros k Hk Hrange. unfold n. rewrite Hk.
    destruct (Z.ltb_spec k 1); [lia|]. destruct (Z.ltb_spec 1000 k); [lia|done]. }
  split.
  { intros k Hk Hrange. unfold n. rewrite Hk.
    destruct (Z.ltb_spec k 1); [done|]. destruct (Z.ltb_spec 1000 k); [done|lia]. }
  split; [intros Hnone; unfold n; by rewrite Hnone|].
  split; [intros k Hk; unfold start; by rewrite Hk|].
  split; [intros Hnone; unfold start; by rewrite Hnone|done].
Qed.

(** ** The theorems on sample inputs *)

Lemma created_sheet_reads_back_sample :
  (forall n : Z, sample_int (an_int n) = Some n) /\
  let wb := create_excel_with_barcodes an_int a_word second_fails [9; 7; 8] in
  let wb' := generate_barcodes_excel an_int a_word second_fails [9; 7; 8] in
  extract_ints sample_int (sheet_of wb) = [9; 7; 8] /\
  extract_numbers sample_int (sheet_of wb) = py_str <$> [9; 7; 8] /\
  wb_max_row wb = 1 + Z.of_nat (length [9; 7; 8]) /\
  sheet_of wb' = sheet_of wb.
Proof.
  split; [done|].
  exact (created_sheet_reads_back sample_int an_int a_word (fun n => eq_refl)
           second_fails [9; 7; 8]).
Defined.

Lemma update_appends_sample :
  (get_int sample_int (newStartNum sample_update) 253310011 = Some 10 /\
   get_int sample_int (update_count sample_update) 10 = Some 2 /\
   filePath sample_update = json_str "outputs/stock.xlsx" /\
   "outputs/stock.xlsx" <> "" /\
   stock_files !! sample_resolve "outputs/stock.xlsx"
     = Some (workbook_file sample_workbook) /\
   1 <= wb_max_row sample_workbook /\
   upd_console unclean_update = true /\
   upd_tmp_made unclean_update = true /\ upd_saved unclean_update = written) /\
  exists (wb' : workbook sample_value) (barcodes_added : Z),
    update_excel_api sample_int an_int a_word sample_resolve unclean_update
        stock_files (Some sample_update)
      = (update_exception,
         <[sample_resolve "outputs/stock.xlsx" := workbook_file wb']> stock_files) /\
    0 <= barcodes_added <= 2 /\
    extract_ints sample_int (sheet_of wb') = [9; 7; 8; 10; 11] /\
    wb_max_row wb' = 6.
Proof.
  assert (stock_files !! sample_resolve "outputs/stock.xlsx"
          = Some (workbook_file sample_workbook)) as Hfile
    by (vm_compute; reflexivity).
  split; [repeat split; (reflexivity || exact Hfile || discriminate || (cbn; lia))|].
  destruct (update_appends sample_int an_int a_word sample_resolve
              (fun n => eq_refl) unclean_update stock_files sample_update 10 2
              "outputs/stock.xlsx" sample_workbook
              eq_refl eq_refl eq_refl ltac:(discriminate) Hfile)
    as (wb' & added & Hupdate & Hadded & Hints & _ & Hmax & _);
    [cbn; lia|reflexivity|reflexivity|reflexivity|].
  exists wb', added. split; [exact Hupdate|]. split; [exact Hadded|].
  split; [|exact Hmax].
  refine (eq_trans Hints _). vm_compute. reflexivity.
Defined.

Lemma upload_stores_and_sorts_sample :
  "stock.xlsx" <> "" /\
  let answer :=
    (upload_excel_api sample_int sample_resolve written true ∅
       (Some ("stock.xlsx", workbook_file sample_workbook))).1 in
  let files' :=
    (upload_excel_api sample_int sample_resolve written true ∅
       (Some ("stock.xlsx", workbook_file sample_workbook))).2 in
  files' = <[sample_resolve (output_path "stock.xlsx")
               := workbook_file sample_workbook]> ∅ /\
  answer = upload_success "stock.xlsx" "outputs/stock.xlsx" 3 7 9 9 [7; 8; 9].
Proof.
  split; [discriminate|].
  destruct (upload_stores_and_sorts sample_int sample_resolve written true ∅
              "stock.xlsx" (workbook_file sample_workbook))
    as (Hstored & _ & _); [discriminate|].
  cbn zeta. split; [by apply Hstored|]. vm_compute. reflexivity.
Defined.


Lemma next_numbers_follow_sample :
  ("stock.xlsx" <> "" /\ 1 <= 3 /\
   filePath sample_update = json_str (output_path "stock.xlsx") /\
   get_int sample_int (newStartNum sample_update) 253310011 = Some (7 + 3) /\
   get_int sample_int (update_count sample_update) 10 = Some 2 /\
   upd_console calm_update = true /\
   upd_tmp_made calm_update = true /\ upd_saved calm_update = written /\
   upd_cleaned calm_update = true) /\
  let numbers := (fun i => 7 + i) <$> py_range 0 3 in
  let wb := create_excel_with_barcodes an_int a_word second_fails numbers in
  exists (files1 : gmap string (content sample_value))
         (wb2 : workbook sample_value) (added : Z),
    upload_excel_api sample_int sample_resolve written true ∅
        (Some ("stock.xlsx", workbook_file wb)) =
      (upload_success "stock.xlsx" (output_path "stock.xlsx") (Z.to_nat 3) 7
         (7 + 3 - 1) (7 + 3 - 1) numbers, files1) /\
    update_excel_api sample_int an_int a_word sample_resolve calm_update files1
        (Some sample_update) =
      (update_success added (7 + 3) (7 + 3 + 2 - 1) (output_path "stock.xlsx"),
       <[sample_resolve (output_path "stock.xlsx") := workbook_file wb2]> files1) /\
    extract_ints sample_int (sheet_of wb2) =
      (fun i => 7 + i) <$> py_range 0 (3 + Z.max 0 2).
Proof.
  split; [repeat split; (reflexivity || lia || discriminate)|].
  apply (next_numbers_follow sample_int an_int a_word sample_resolve
           (fun n => eq_refl) second_fails calm_update ∅ "stock.xlsx" 7 3 2
           sample_update);
    (reflexivity || lia || discriminate).
Defined.


Lemma second_run_repeats_successes_sample :
  generate_barcodes_from_sheet sample_int an_int a_word row_4_fails second_fails
    (Some (workbook_file sample_workbook)) = Ok (Some sample_workbook_after_run) /\
  needing_barcodes sample_int sample_workbook = [(2, 9); (4, 8)] /\
  sheet_of sample_workbook_after_run = sheet_of sample_workbook /\
  needing_barcodes sample_int sample_workbook_after_run = [(2, 9)] /\
  pictures sample_workbook_after_run = [(2, "9")] /\
  pictures (add_barcodes a_word row_4_fails [(2, 9)] sample_workbook_after_run)
    = [(2, "9"); (2, "9")].
Proof.
  assert (generate_barcodes_from_sheet sample_int an_int a_word row_4_fails
            second_fails (Some (workbook_file sample_workbook))
          = Ok (Some sample_workbook_after_run))
    as Hrun by (vm_compute; reflexivity).
  assert (needing_barcodes sample_int sample_workbook = [(2, 9); (4, 8)])
    as Hneeding by (vm_compute; reflexivity).
  destruct (second_run_repeats_successes sample_int a_word row_4_fails
              row_4_fails second_fails an_int sample_workbook
              sample_workbook_after_run Hrun)
    as (_ & Hsheet & Hpictures & Hnext & _ & Hagain).
  rewrite Hneeding in Hpictures, Hnext, Hagain.
  split; [exact Hrun|]. split; [exact Hneeding|]. split; [exact Hsheet|].
  split; [exact Hnext|]. split; [exact Hpictures|exact Hagain].
Defined.
